(** * ai-chat backend: model gateway, canvas state machine and archive extractor

    A shallow embedding of [backend/modelConfig.js], [backend/modelClients.js]
    and the canvas / extraction parts of [backend/server.js], with the
    properties of the natural-language specification stated over it.
    Further properties cover [backend/authMiddleware.js] and, on the
    client side, the canvas read back by [ChatLayout.tsx] and the models
    and request header of [constants.ts].

    Conventions of the embedding.
    - A JavaScript string is the list of its UTF-16 code units, so [length]
      is [String.prototype.length] and [drop]/[take] are [slice].
    - JavaScript numbers that the code uses as counters, sizes, statuses and
      delays are natural numbers ([N] or [nat]).
    - An [async] function that may reject is a function into [Completion];
      ambient collaborators ([process.env], [fetch], Node's [path] module)
      are [Variable]s of the enclosing [Section].
    - A provider's reply is read twice: by the providers' schemas in
      [ModelClients], which the handler's strings rest on, and as an
      arbitrary JSON value in [Untyped], for what is to hold of every
      reply. *)

From Stdlib Require Import NArith Ascii String.
From Stdlib Require QArith Qcanon Sorted.
From stdpp Require Import base option list numbers gmap.

Local Open Scope N_scope.

(** ** JavaScript strings *)

Module JsString.

Definition code_unit := N.
Definition jsstring := list code_unit.

(** Bytes of a source literal (the file is UTF-8). *)
Definition bytes_of (s : string) : list N :=
  List.map N_of_ascii (list_ascii_of_string s).

Definition cont (b : N) : N := N.land b 63.

(** UTF-8 to UTF-16, as the JavaScript engine reads a source literal. *)
Fixpoint utf16_of_utf8 (bs : list N) : jsstring :=
  match bs with
  | [] => []
  | b :: r1 =>
    if b <? 128 then b :: utf16_of_utf8 r1
    else if b <? 224 then
      match r1 with
      | b2 :: r2 => (N.shiftl (N.land b 31) 6 + cont b2) :: utf16_of_utf8 r2
      | [] => [65533]
      end
    else if b <? 240 then
      match r1 with
      | b2 :: b3 :: r3 =>
        (N.shiftl (N.land b 15) 12 + N.shiftl (cont b2) 6 + cont b3)
          :: utf16_of_utf8 r3
      | _ => [65533]
      end
    else
      match r1 with
      | b2 :: b3 :: b4 :: r4 =>
        let cp := N.shiftl (N.land b 7) 18 + N.shiftl (cont b2) 12
                  + N.shiftl (cont b3) 6 + cont b4 in
        let v := cp - 65536 in
        (55296 + N.shiftr v 10) :: (56320 + N.land v 1023) :: utf16_of_utf8 r4
      | _ => [65533]
      end
  end.

(** [js "..."] is the JavaScript string written ["..."] in the source. *)
Definition js (s : string) : jsstring := utf16_of_utf8 (bytes_of s).

Definition eqb (a b : jsstring) : bool := bool_decide (a = b).

(** [!s] for a string: only the empty string is falsy. *)
Definition truthy (s : jsstring) : bool :=
  match s with [] => false | _ => true end.

(** [a || b] on strings. *)
Definition or_else (a b : jsstring) : jsstring := if truthy a then a else b.

(** [hay.startsWith(p)] *)
Fixpoint startsWith (p hay : jsstring) : bool :=
  match p, hay with
  | [], _ => true
  | _ :: _, [] => false
  | x :: p', y :: hay' => (x =? y) && startsWith p' hay'
  end.

(** [hay.includes(needle)] *)
Fixpoint includes (needle hay : jsstring) : bool :=
  startsWith needle hay ||
  match hay with
  | [] => false
  | _ :: hay' => includes needle hay'
  end.

(** White space and line terminators removed by [String.prototype.trim]. *)
Definition isWhiteSpace (c : code_unit) : bool :=
  ((9 <=? c) && (c <=? 13)) || (c =? 32) || (c =? 160) || (c =? 5760)
  || ((8192 <=? c) && (c <=? 8202)) || (c =? 8232) || (c =? 8233)
  || (c =? 8239) || (c =? 8287) || (c =? 12288) || (c =? 65279).

Fixpoint trimStart (s : jsstring) : jsstring :=
  match s with
  | c :: s' => if isWhiteSpace c then trimStart s' else s
  | [] => []
  end.

Definition trimEnd (s : jsstring) : jsstring := rev (trimStart (rev s)).

Definition trim (s : jsstring) : jsstring := trimEnd (trimStart s).

Fixpoint uint_units (d : Decimal.uint) : jsstring :=
  match d with
  | Decimal.Nil => []
  | Decimal.D0 d => 48 :: uint_units d
  | Decimal.D1 d => 49 :: uint_units d
  | Decimal.D2 d => 50 :: uint_units d
  | Decimal.D3 d => 51 :: uint_units d
  | Decimal.D4 d => 52 :: uint_units d
  | Decimal.D5 d => 53 :: uint_units d
  | Decimal.D6 d => 54 :: uint_units d
  | Decimal.D7 d => 55 :: uint_units d
  | Decimal.D8 d => 56 :: uint_units d
  | Decimal.D9 d => 57 :: uint_units d
  end.

(** [String(n)] / [`${n}`] for a non-negative integer. *)
Definition ofN (n : N) : jsstring := uint_units (N.to_uint n).
Definition ofNat (n : nat) : jsstring := ofN (N.of_nat n).

(** [xs.join(sep)] *)
Fixpoint join (sep : jsstring) (xs : list jsstring) : jsstring :=
  match xs with
  | [] => []
  | [x] => x
  | x :: rest => x ++ sep ++ join sep rest
  end.

End JsString.

Import JsString.

(** ** Completions of fallible (async) calls *)

(** A thrown value, through what handlers observe of it: [err.status]
    ([None] when undefined) and the text [String(err?.message || err)]. *)
Record Exn := mkExn { exn_status : option N; exn_message : jsstring }.

(** [new Error(message)] *)
Definition Error (message : jsstring) : Exn := mkExn None message.

Inductive Completion (A : Type) : Type :=
| Returned (a : A)
| Thrown (e : Exn).
Arguments Returned {A} a.
Arguments Thrown {A} e.

#[global] Instance Completion_ret : MRet Completion := fun _ a => Returned a.
#[global] Instance Completion_bind : MBind Completion := fun _ _ f c =>
  match c with
  | Returned a => f a
  | Thrown e => Thrown e
  end.

Definition isThrown {A} (c : Completion A) : bool :=
  match c with Thrown _ => true | Returned _ => false end.

(** ** backend/modelConfig.js *)

Module ModelConfig.

Record Capabilities := mkCapabilities {
  reasoning : bool;
  webSearch : bool;
  vision : bool;
  canvas : bool
}.

Record Entry := mkEntry {
  provider : jsstring;
  model : jsstring;
  capabilities : Capabilities
}.

Definition entry (p m : string) (r w v c : bool) : Entry :=
  mkEntry (js p) (js m) (mkCapabilities r w v c).

(** The own properties of the object literal [MODEL_MAP]. *)
Definition MODEL_MAP : gmap jsstring Entry :=
  list_to_map [
    (js "gpt-5",                entry "openai"   "gpt-5"                true  true  true  true);
    (js "gpt-5.1",              entry "openai"   "gpt-5.1"              true  true  true  true);
    (js "gpt-5.1-codex",        entry "openai"   "gpt-5.1-codex"        true  true  false true);
    (js "gpt-5-mini",           entry "openai"   "gpt-5-mini"           false true  true  true);
    (js "deepseek-chat",        entry "deepseek" "deepseek-chat"        false false false false);
    (js "deepseek-reasoner",    entry "deepseek" "deepseek-reasoner"    true  false false false);
    (js "gemini-1.5-pro",       entry "gemini"   "gemini-1.5-pro"       false false true  false);
    (js "gemini-3-pro-preview", entry "gemini"   "gemini-3-pro-preview" false false true  false)
  ].

(** [MODEL_MAP] is a plain object, so a property read also finds the
    members of [Object.prototype]. *)
Definition objectPrototypeKeys : list jsstring :=
  [ js "constructor"; js "__defineGetter__"; js "__defineSetter__";
    js "hasOwnProperty"; js "__lookupGetter__"; js "__lookupSetter__";
    js "isPrototypeOf"; js "propertyIsEnumerable"; js "toString";
    js "valueOf"; js "__proto__"; js "toLocaleString" ].

(** What a read [MODEL_MAP[key]] can yield when it is not [undefined]. *)
Inductive Config :=
| Registered (e : Entry)
| Inherited (key : jsstring).

(** [MODEL_MAP[key]]; [None] is [undefined]. *)
Definition get (key : jsstring) : option Config :=
  match MODEL_MAP !! key with
  | Some e => Some (Registered e)
  | None =>
    if bool_decide (key ∈ objectPrototypeKeys) then Some (Inherited key)
    else None
  end.

(** Destructuring [{ provider, model, capabilities } = config]: the
    inherited members (functions, or [Object.prototype] itself) have none
    of the three properties. *)
Definition config_provider (c : Config) : option jsstring :=
  match c with Registered e => Some (provider e) | Inherited _ => None end.
Definition config_model (c : Config) : option jsstring :=
  match c with Registered e => Some (model e) | Inherited _ => None end.
Definition config_capabilities (c : Config) : option Capabilities :=
  match c with Registered e => Some (capabilities e) | Inherited _ => None end.

End ModelConfig.

(** ** backend/modelClients.js *)

Module ModelClients.

Import ModelConfig.

Definition OPENAI_RESPONSES_URL : jsstring := js "https://api.openai.com/v1/responses".
Definition GEMINI_BASE : jsstring := js "https://generativelanguage.googleapis.com/v1beta".

(** *** Wire data *)

Record Message := mkMessage { role : jsstring; content : jsstring }.

(** [process.env]; [None] is an unset variable. *)
Record Env := mkEnv {
  OPENAI_API_KEY : option jsstring;
  DEEPSEEK_API_KEY : option jsstring;
  GEMINI_API_KEY : option jsstring;
  OPENAI_WEB_SEARCH : option jsstring;
  DEEPSEEK_BASE_URL : option jsstring
}.

(** [v || d] for a possibly undefined string. *)
Definition orDefault (v : option jsstring) (d : jsstring) : jsstring :=
  match v with
  | Some s => or_else s d
  | None => d
  end.

(** Temperatures are the decimal literals of the source, in tenths. *)
Record GenerationConfig := mkGenerationConfig { temperature_tenths : N }.

Record GeminiContent := mkGeminiContent { g_role : jsstring; g_parts : list jsstring }.

(** The request bodies handed to [JSON.stringify]; an optional field that
    is not assigned is [None]. *)
Inductive Body :=
| OpenAIBody (model input : jsstring)
             (reasoning_effort : option jsstring)
             (tools : option (list jsstring))
| DeepSeekBody (model : jsstring) (messages : list Message) (temperature_tenths : N)
| GeminiBody (contents : list GeminiContent) (generationConfig : GenerationConfig).

Record RequestInit := mkRequestInit {
  method : jsstring;
  headers : list (jsstring * jsstring);
  body : Body
}.

Record Part := mkPart { part_type : jsstring; part_text : option jsstring }.

Inductive OutputItem :=
| MessageItem (content : option (list Part))
| CanvasItem (title content : option jsstring)
| OtherItem.

(** The parts of a provider's JSON reply that the adapters read:
    [json.error?.message], [json.output], and the first choice / candidate
    text of the chat-completion providers. A property that is absent is
    [None]; one that is present holds a string (or, for [output] and a
    message's [content], an array), as the providers' schemas have it.
    The code converts none of these values: what is to hold of a reply of
    any shape is stated over [Untyped] below, which agrees with this
    reading on the replies that follow the schemas. *)
Record Json := mkJson {
  error_message : option jsstring;
  output : option (list OutputItem);
  choice_content : option jsstring;
  candidate_text : option jsstring
}.

Record Response := mkResponse {
  status : N;
  json : Completion Json          (* [await res.json()] *)
}.

(** [res.ok] *)
Definition ok (res : Response) : bool :=
  (200 <=? status res) && (status res <=? 299).

Inductive FetchOutcome :=
| Responded (res : Response)
| Rejected (message : jsstring).

Record Canvas := mkCanvas { title : jsstring; content_ : jsstring }.

(** Values flowing out of the adapters and of [callModelWithConfig]. *)
Inductive Raw :=
| RawString (s : jsstring)
| RawObject (text : option jsstring) (canvas : option Canvas)
| RawNullish.

(** *** Text extraction *)

(** [item.content?.find(p => p.type === "output_text")] then [part?.text] *)
Definition outputText (content : option (list Part)) : option jsstring :=
  match content with
  | None => None
  | Some parts =>
    match List.find (fun p => eqb (part_type p) (js "output_text")) parts with
    | Some part => part_text part
    | None => None
    end
  end.

Definition extractTextAndCanvas_step (result : jsstring * option Canvas) (item : OutputItem)
  : jsstring * option Canvas :=
  match item with
  | MessageItem content =>
    match outputText content with
    | Some t => (result.1 ++ t, result.2)
    | None => result
    end
  | CanvasItem title content =>
    (result.1, Some (mkCanvas (orDefault title (js "未命名画布")) (orDefault content [])))
  | OtherItem => result
  end.

Definition extractTextAndCanvas (j : Json) : Raw :=
  let outputs := default [] (output j) in
  let result := foldl extractTextAndCanvas_step ([], None) outputs in
  RawObject (Some result.1) result.2.

(** [extractTextFromResponse], the text-only extraction used for image
    descriptions. *)
Definition extractTextFromResponse_step (text : jsstring) (item : OutputItem) : jsstring :=
  match item with
  | MessageItem content =>
    match outputText content with
    | Some t => text ++ t
    | None => text
    end
  | _ => text
  end.

Definition extractTextFromResponse (j : Json) : jsstring :=
  let outputs := default [] (output j) in
  trim (foldl extractTextFromResponse_step [] outputs).

(** *** Timeout and retry *)

Definition isRetryableStatus (status : N) : bool :=
  (status =? 429) || ((500 <=? status) && (status <=? 599)).

Definition isRetryableError (msg : jsstring) : bool :=
  includes (js "AbortError") msg
  || includes (js "ETIMEDOUT") msg
  || includes (js "ECONNRESET") msg
  || includes (js "ENOTFOUND") msg
  || includes (js "EAI_AGAIN") msg.

(** The [cfg] argument; an omitted field takes the destructuring default. *)
Record RetryCfg := mkRetryCfg {
  timeoutMs : option N;
  retries : option N;
  baseDelayMs : option N;
  maxDelayMs : option N
}.

Definition cfg_timeoutMs (cfg : RetryCfg) : N := default 60000 (timeoutMs cfg).
Definition cfg_retries (cfg : RetryCfg) : N := default 2 (retries cfg).
Definition cfg_baseDelayMs (cfg : RetryCfg) : N := default 600 (baseDelayMs cfg).
Definition cfg_maxDelayMs (cfg : RetryCfg) : N := default 2500 (maxDelayMs cfg).

(** [Math.min(maxDelayMs, baseDelayMs * Math.pow(2, attempt))] *)
Definition backoff (cfg : RetryCfg) (attempt : N) : N :=
  N.min (cfg_maxDelayMs cfg) (cfg_baseDelayMs cfg * 2 ^ attempt).

(** The effects of a call on the outside world, in order. *)
Inductive Event :=
| Fetched (url : jsstring) (init : RequestInit) (attempt : N) (outcome : FetchOutcome)
| Slept (ms : N).

Definition isFetched (e : Event) : bool :=
  match e with Fetched _ _ _ _ => true | Slept _ => false end.

(** Number of [fetch] calls in a trace. *)
Definition attempts (tr : list Event) : nat := length (List.filter isFetched tr).

Section Gateway.

Variable env : Env.

(** [fetch(url, init)], as it answers the successive attempts of one
    call of [fetchWithRetry]; every attempt has its own abort timer of
    [timeoutMs], whose firing is a rejection. *)
Variable fetch : jsstring -> RequestInit -> N -> FetchOutcome.

(** The [for] loop of [fetchWithRetry], by the number of iterations
    left: [attempt <= retries] holds exactly while [remaining] is not
    [0], as [attempt + remaining = retries + 1]. The result is the
    completion of the loop and the trace of its effects. *)
Fixpoint fetchLoop (url : jsstring) (init : RequestInit) (cfg : RetryCfg)
         (remaining : nat) (attempt : N) (lastErr : option jsstring)
  : Completion Response * list Event :=
  match remaining with
  | O => (Thrown (Error (default (js "undefined") lastErr)), [])
  | S remaining' =>
    let outcome := fetch url init attempt in
    match outcome with
    | Responded res =>
      if isRetryableStatus (status res) && (attempt <? cfg_retries cfg) then
        let delay := backoff cfg attempt in
        let r := fetchLoop url init cfg remaining' (attempt + 1) lastErr in
        (r.1, Fetched url init attempt outcome :: Slept delay :: r.2)
      else (Returned res, [Fetched url init attempt outcome])
    | Rejected err =>
      if (attempt <? cfg_retries cfg) && isRetryableError err then
        let delay := backoff cfg attempt in
        let r := fetchLoop url init cfg remaining' (attempt + 1) (Some err) in
        (r.1, Fetched url init attempt outcome :: Slept delay :: r.2)
      else (Thrown (Error err), [Fetched url init attempt outcome])
    end
  end.

Definition fetchWithRetry (url : jsstring) (init : RequestInit) (cfg : RetryCfg)
  : Completion Response * list Event :=
  fetchLoop url init cfg (N.to_nat (cfg_retries cfg + 1)) 0 None.

(** *** Provider adapters *)

(** [{ timeoutMs: 60000, retries: 2 }] *)
Definition adapterCfg : RetryCfg := mkRetryCfg (Some 60000) (Some 2) None None.

(** [process.env.X] followed by [if (!apiKey)]. *)
Definition apiKeyOf (v : option jsstring) : option jsstring :=
  match v with
  | Some k => if truthy k then Some k else None
  | None => None
  end.

Definition bearer (apiKey : jsstring) : list (jsstring * jsstring) :=
  [ (js "Authorization", js "Bearer " ++ apiKey);
    (js "Content-Type", js "application/json") ].

Definition CANVAS_SYSTEM_HINT : jsstring := js "
当你要输出以下类型内容时，请使用【Canvas 画布】而不是普通回复：
- 代码（任何语言）
- 教程 / 文档 / 方案说明
- 表格 / 清单 / 长文本（>30 行）
- 用户明确要求“整理”“生成文件”“写成文档”的内容

Canvas 要求：
- 有明确标题
- 内容结构清晰
- 只放最终结果，不要聊天语气
- 内容必须完整、可复制、可保存为文件
".

(** The body that [callOpenAI] builds. *)
Definition openAIBody (model : jsstring) (messages : list Message)
           (depthMode webSearch : bool) (outputTarget : jsstring) : Body :=
  let finalMessages :=
    if eqb outputTarget (js "canvas")
    then mkMessage (js "system") CANVAS_SYSTEM_HINT :: messages
    else messages in
  let inputText :=
    join [10] (List.map (fun m => role m ++ js ": " ++ content m) finalMessages) in
  OpenAIBody model inputText
    (if depthMode then Some (js "medium") else None)
    (if webSearch && bool_decide (OPENAI_WEB_SEARCH env = Some (js "1"))
     then Some [js "web_search"] else None).

(** [await res.json()], the [!res.ok] check and the parse. *)
Definition readReply (failure : jsstring) (parse : Json -> Raw) (r : Completion Response)
  : Completion Raw :=
  res ← r;
  j ← json res;
  if negb (ok res) then Thrown (Error (orDefault (error_message j) failure))
  else Returned (parse j).

Definition callOpenAI (model : jsstring) (messages : list Message)
           (depthMode webSearch : bool) (outputTarget : jsstring)
  : Completion Raw * list Event :=
  match apiKeyOf (OPENAI_API_KEY env) with
  | None => (Thrown (Error (js "缺少 OPENAI_API_KEY")), [])
  | Some apiKey =>
    let body := openAIBody model messages depthMode webSearch outputTarget in
    let r := fetchWithRetry OPENAI_RESPONSES_URL
               (mkRequestInit (js "POST") (bearer apiKey) body) adapterCfg in
    (readReply (js "OpenAI Responses 调用失败") extractTextAndCanvas r.1, r.2)
  end.

Definition DEEPSEEK_BASE : jsstring :=
  orDefault (DEEPSEEK_BASE_URL env) (js "https://api.deepseek.com/chat/completions").

Definition callDeepSeek (model : jsstring) (messages : list Message) (depthMode : bool)
  : Completion Raw * list Event :=
  match apiKeyOf (DEEPSEEK_API_KEY env) with
  | None => (Thrown (Error (js "缺少 DEEPSEEK_API_KEY")), [])
  | Some apiKey =>
    let body := DeepSeekBody model messages (if depthMode then 2 else 7) in
    let r := fetchWithRetry DEEPSEEK_BASE
               (mkRequestInit (js "POST") (bearer apiKey) body) adapterCfg in
    (readReply (js "DeepSeek 调用失败")
               (fun j => RawString (orDefault (choice_content j) [])) r.1, r.2)
  end.

Definition callGemini (model : jsstring) (messages : list Message) (depthMode : bool)
  : Completion Raw * list Event :=
  match apiKeyOf (GEMINI_API_KEY env) with
  | None => (Thrown (Error (js "缺少 GEMINI_API_KEY")), [])
  | Some apiKey =>
    let url := GEMINI_BASE ++ js "/models/" ++ model
               ++ js ":generateContent?key=" ++ apiKey in
    let contents :=
      List.map (fun m => mkGeminiContent
                           (if eqb (role m) (js "user") then js "user" else js "model")
                           [content m])
               (List.filter (fun m => negb (eqb (role m) (js "system"))) messages) in
    let body := GeminiBody contents (mkGenerationConfig (if depthMode then 2 else 8)) in
    let r := fetchWithRetry url
               (mkRequestInit (js "POST") [(js "Content-Type", js "application/json")] body)
               adapterCfg in
    (readReply (js "Gemini 调用失败")
               (fun j => RawString (orDefault (candidate_text j) [])) r.1, r.2)
  end.

(** *** The capability-driven entry point *)

(** The caller's [options]: [depthMode] and [webSearch] by their
    truthiness, the two strings [None] when undefined. *)
Record Options := mkOptions {
  opt_depthMode : bool;
  opt_webSearch : bool;
  opt_outputTarget : option jsstring;
  opt_canvasTitle : option jsstring
}.

(** [capabilities?.flag === true] *)
Definition capability (flag : Capabilities -> bool) (config : Config) : bool :=
  match config_capabilities config with
  | Some c => flag c
  | None => false
  end.

Definition effectiveDepthMode (config : Config) (options : Options) : bool :=
  opt_depthMode options && capability reasoning config.

Definition effectiveWebSearch (config : Config) (options : Options) : bool :=
  opt_webSearch options && capability webSearch config.

Definition effectiveOutputTarget (options : Options) : jsstring :=
  orDefault (opt_outputTarget options) (js "chat").

Definition effectiveCanvasTitle (options : Options) : jsstring :=
  orDefault (opt_canvasTitle options) (js "画布").

(** The provider dispatch inside the [try] block. An inherited member
    has no [provider], so it takes the final [else]. *)
Definition dispatch (config : Config) (messages : list Message) (options : Options)
  : Completion Raw * list Event :=
  let depthMode := effectiveDepthMode config options in
  let webSearch := effectiveWebSearch config options in
  let outputTarget := effectiveOutputTarget options in
  match config with
  | Registered e =>
    if eqb (provider e) (js "openai") then
      callOpenAI (model e) messages depthMode webSearch outputTarget
    else if eqb (provider e) (js "deepseek") then
      callDeepSeek (model e) messages depthMode
    else if eqb (provider e) (js "gemini") then
      callGemini (model e) messages depthMode
    else (Thrown (Error (js "未知 provider: " ++ provider e)), [])
  | Inherited _ => (Thrown (Error (js "未知 provider: undefined")), [])
  end.

(** The normalisation applied when [outputTarget === "canvas"]. *)
Definition canvasShape (canvasTitle : jsstring) (raw : Raw) : Raw :=
  match raw with
  | RawString s => RawObject (Some []) (Some (mkCanvas canvasTitle s))
  | RawObject text canvas =>
    let wrapped :=
      RawObject (Some []) (Some (mkCanvas canvasTitle (orDefault text []))) in
    match canvas with
    | Some c => if truthy (content_ c) || truthy (title c) then raw else wrapped
    | None => wrapped
    end
  | RawNullish => RawObject (Some []) (Some (mkCanvas canvasTitle []))
  end.

Definition unavailable : jsstring := js "⚠️ 当前模型暂时不可用，请稍后重试或切换模型。".

(** The [catch] block. *)
Definition softFailure (outputTarget canvasTitle : jsstring) : Raw :=
  if eqb outputTarget (js "canvas")
  then RawObject (Some []) (Some (mkCanvas canvasTitle unavailable))
  else RawString unavailable.

(** The value the returned promise resolves to, and the trace. *)
Definition callModelWithConfig (config : Config) (messages : list Message)
           (options : Options) : Raw * list Event :=
  let outputTarget := effectiveOutputTarget options in
  let canvasTitle := effectiveCanvasTitle options in
  let r := dispatch config messages options in
  match r.1 with
  | Returned raw =>
    (if eqb outputTarget (js "canvas") then canvasShape canvasTitle raw else raw, r.2)
  | Thrown err => (softFailure outputTarget canvasTitle, r.2)
  end.

(** *** The legacy entry point *)

(** The fourth argument of [callModel], named [depthMode]: [undefined],
    [null], or a primitive given by its truthiness (a boolean, as the name
    says, or a number or string). The OpenAI branch hands it to
    [callOpenAI] in the place of the [options] object. *)
Inductive LegacyDepthMode :=
| DepthUndefined
| DepthNull
| DepthPrimitive (truthy : bool).

Definition legacyTruthy (depthMode : LegacyDepthMode) : bool :=
  match depthMode with
  | DepthPrimitive b => b
  | _ => false
  end.

(** [callOpenAI(model, messages, depthMode)]: destructuring
    [{ depthMode, webSearch, outputTarget }] from a primitive (or from the
    default [{}]) leaves all three undefined, and from [null] throws. An
    undefined [outputTarget] differs from ["canvas"] as the empty string
    does. *)
Definition callOpenAI_legacy (model : jsstring) (messages : list Message)
           (depthMode : LegacyDepthMode) : Completion Raw * list Event :=
  match depthMode with
  | DepthNull =>
    (Thrown (Error (js "Cannot destructure property 'depthMode' of 'options' as it is null.")),
     [])
  | _ => callOpenAI model messages false false []
  end.

Definition callModel (provider model : jsstring) (messages : list Message)
           (depthMode : LegacyDepthMode) : Raw * list Event :=
  let r :=
    if eqb provider (js "openai") then callOpenAI_legacy model messages depthMode
    else if eqb provider (js "deepseek") then
      callDeepSeek model messages (legacyTruthy depthMode)
    else if eqb provider (js "gemini") then
      callGemini model messages (legacyTruthy depthMode)
    else (Thrown (Error (js "未知 provider: " ++ provider)), []) in
  match r.1 with
  | Returned raw => (raw, r.2)
  | Thrown err => (RawString unavailable, r.2)
  end.

End Gateway.

End ModelClients.

(** ** backend/authMiddleware.js *)

Module AuthMiddleware.

(** The claims of a verified token that the middleware copies. *)
Record Payload := mkPayload { id : N; email : jsstring }.

(** What the middleware does with a request: hand it on with [req.user]
    set, or answer 401 with a body [{ error, code? }]. *)
Inductive Outcome :=
| Next (user : Payload)
| Unauthorized (error : jsstring) (code : option jsstring).

Section Middleware.

(** [jwt.verify(token, JWT_SECRET)] *)
Variable jwt_verify : jsstring -> Completion Payload.

(** [authorization] is [req.headers.authorization]. *)
Definition authRequired (authorization : option jsstring) : Outcome :=
  match authorization with
  | None => Unauthorized (js "登录已失效") (Some (js "TOKEN_EXPIRED"))
  | Some auth =>
    if negb (truthy auth) || negb (startsWith (js "Bearer ") auth) then
      Unauthorized (js "登录已失效") (Some (js "TOKEN_EXPIRED"))
    else
      let token := drop 7 auth in
      match jwt_verify token with
      | Returned payload => Next (mkPayload (id payload) (email payload))
      | Thrown _ => Unauthorized (js "登录已失效") None
      end
  end.

End Middleware.

End AuthMiddleware.

(** ** backend/server.js: truncation and document extraction *)

Module Server.

Import ModelConfig ModelClients.

Definition CANVAS_PREFIX : jsstring := js "__CANVAS__".

(** [truncateForModel(str, maxChars)] on a string argument. *)
Definition truncationNotice (len : nat) : jsstring :=
  js "...(为节省上下文，已截断，共 " ++ ofNat len ++ js " 字符)" ++ [10].

Definition truncateForModel (str : jsstring) (maxChars : N) : jsstring :=
  if negb (truthy str) then []
  else
    let s := str in
    if N.of_nat (length s) <=? maxChars then s
    else truncationNotice (length s) ++ drop (length s - N.to_nat maxChars)%nat s.

Definition MAX_ZIP_FILES : N := 200.
Definition MAX_ZIP_TOTAL_BYTES : N := 20 * 1024 * 1024.

(** A [Buffer], through what the extractor asks of it: its length, its
    decodings, and what each parser library answers on these bytes
    ([Thrown] when the library throws or rejects). A zip directory lists
    files whose own buffers are again such values. *)
Inductive Buffer : Type :=
  mkBuffer (length_ : N)
           (toString_utf8 : Completion jsstring)
           (unzipper_Open : Completion (list ZipFile))
           (pdf_text : Completion jsstring)
           (xlsx_rows : Completion jsstring)
           (vision : jsstring -> Completion jsstring)
with ZipFile : Type :=
  mkZipFile (type_ : jsstring) (path_ : jsstring) (buffer_ : Completion Buffer).

Definition buf_length (b : Buffer) : N :=
  match b with mkBuffer n _ _ _ _ _ => n end.
Definition buf_utf8 (b : Buffer) : Completion jsstring :=
  match b with mkBuffer _ s _ _ _ _ => s end.
Definition buf_unzip (b : Buffer) : Completion (list ZipFile) :=
  match b with mkBuffer _ _ z _ _ _ => z end.
Definition buf_pdf (b : Buffer) : Completion jsstring :=
  match b with mkBuffer _ _ _ p _ _ => p end.
Definition buf_xlsx (b : Buffer) : Completion jsstring :=
  match b with mkBuffer _ _ _ _ x _ => x end.
Definition buf_vision (b : Buffer) : jsstring -> Completion jsstring :=
  match b with mkBuffer _ _ _ _ _ v => v end.

Definition f_type (f : ZipFile) : jsstring :=
  match f with mkZipFile t _ _ => t end.
Definition f_path (f : ZipFile) : jsstring :=
  match f with mkZipFile _ p _ => p end.
Definition f_buffer (f : ZipFile) : Completion Buffer :=
  match f with mkZipFile _ _ b => b end.

(** The [zipState] object shared by reference along one recursive
    expansion. *)
Record ZipState := mkZipState { files : N; bytes : N }.

(** The state threaded through the recursion: [zipState], and the entries
    handed to the recursive call so far (path and byte length, oldest
    first). The second component is never read by the extractor. *)
Record Run := mkRun { zipState : ZipState; expanded : list (jsstring * N) }.

Definition freshRun : Run := mkRun (mkZipState 0 0) [].

Definition countFile (w : Run) : Run :=
  mkRun (mkZipState (files (zipState w) + 1) (bytes (zipState w))) (expanded w).

Definition countBytes (n : N) (w : Run) : Run :=
  mkRun (mkZipState (files (zipState w)) (bytes (zipState w) + n)) (expanded w).

Definition expand (path : jsstring) (n : N) (w : Run) : Run :=
  mkRun (zipState w) (expanded w ++ [(path, n)]).

(** [s.replace('.', '')]: the first full stop is removed. *)
Fixpoint removeFirstDot (s : jsstring) : jsstring :=
  match s with
  | [] => []
  | c :: s' => if c =? 46 then s' else c :: removeFirstDot s'
  end.

Definition depthNote (fileName : jsstring) : jsstring :=
  [10] ++ js "[深度超过限制，略过: " ++ fileName ++ js "]" ++ [10].

Definition filesNote : jsstring :=
  [10] ++ js "[ZIP 文件数超过限制（>" ++ ofN MAX_ZIP_FILES ++ js "），停止解析]" ++ [10].

Definition bytesNote : jsstring :=
  [10] ++ js "[ZIP 解压总字节超过限制（>" ++ ofN MAX_ZIP_TOTAL_BYTES ++ js "），停止解析]" ++ [10].

Definition entryHeader (path : jsstring) : jsstring :=
  [10] ++ js "---" ++ [10] ++ js "[" ++ path ++ js "]" ++ [10].

Definition block (kind fileName body : jsstring) : jsstring :=
  [10] ++ js "[" ++ kind ++ js ": " ++ fileName ++ js "]" ++ [10] ++ body ++ [10].

Section Extractor.

(** Node's [path.extname] and [String.prototype.toLowerCase]. *)
Variable extname : jsstring -> jsstring.
Variable toLowerCase : jsstring -> jsstring.

(** The [for] loop over [directory.files] of the zip branch; [analyze] is
    the recursive call, [out] the text accumulated so far. *)
Definition zipLoop (analyze : jsstring -> Buffer -> N -> Run -> Completion jsstring * Run)
           (depth : N)
  : list ZipFile -> jsstring -> Run -> Completion jsstring * Run :=
  fix loop (fs : list ZipFile) (out : jsstring) (w : Run) {struct fs} :=
    match fs with
    | [] => (Returned out, w)
    | mkZipFile type path fbuffer :: rest =>
      if negb (eqb type (js "File")) then loop rest out w
      else
        let w := countFile w in
        if MAX_ZIP_FILES <? files (zipState w) then
          (Returned (out ++ filesNote), w)
        else
          match fbuffer with
          | Thrown e => (Thrown e, w)
          | Returned childBuf =>
            let w := countBytes (buf_length childBuf) w in
            if MAX_ZIP_TOTAL_BYTES <? bytes (zipState w) then
              (Returned (out ++ bytesNote), w)
            else
              let out := out ++ entryHeader path in
              let r := analyze path childBuf (depth + 1)
                               (expand path (buf_length childBuf) w) in
              match r.1 with
              | Thrown e => (Thrown e, r.2)
              | Returned text => loop rest (out ++ text) r.2
              end
          end
    end.

Definition zipBanner (fileName : jsstring) : jsstring :=
  [10] ++ js "【ZIP 压缩包: " ++ fileName ++ js "】" ++ [10].

Fixpoint analyzeFileBuffer (fileName : jsstring) (buffer : Buffer) (depth : N)
         (w : Run) {struct buffer} : Completion jsstring * Run :=
  if 3 <? depth then (Returned (depthNote fileName), w)
  else
    let ext := toLowerCase (extname fileName) in
    match buffer with
    | mkBuffer _ utf8 unzipped pdf xlsx vision =>
      if eqb ext (js ".zip") then
        match unzipped with
        | Thrown e => (Thrown e, w)
        | Returned directory_files =>
          zipLoop analyzeFileBuffer depth directory_files (zipBanner fileName) w
        end
      else if bool_decide (ext ∈ [js ".txt"; js ".md"; js ".json"; js ".log"; js ".csv"]) then
        (text ← utf8; Returned (block (js "文本文件") fileName text), w)
      else if eqb ext (js ".pdf") then
        (text ← pdf; Returned (block (js "PDF 文件") fileName text), w)
      else if eqb ext (js ".xlsx") then
        (rows ← xlsx; Returned (block (js "Excel 文件") fileName rows), w)
      else if bool_decide (ext ∈ [js ".jpg"; js ".jpeg"; js ".png"; js ".webp"]) then
        let mimeType :=
          if eqb ext (js ".jpg") then js "image/jpeg"
          else js "image/" ++ removeFirstDot ext in
        match vision mimeType with
        | Returned described => (Returned (block (js "图片文件") fileName described), w)
        | Thrown e =>
          (Returned (block (js "图片文件") fileName
                           (js "[图片解析失败：" ++ exn_message e ++ js "]")), w)
        end
      else
        match utf8 with
        | Returned text => (Returned (block (js "文件") fileName text), w)
        | Thrown _ =>
          (Returned (block (js "文件") fileName (js "[二进制内容，未解析]")), w)
        end
    end.

(** The call of the upload handler:
    [analyzeFileBuffer(req.file.originalname, buffer, 0)]. *)
Definition analyzeUpload (originalname : jsstring) (buffer : Buffer)
  : Completion jsstring * Run :=
  analyzeFileBuffer originalname buffer 0 freshRun.

End Extractor.

(** *** Attachment ids and the automatic title *)

(** A JavaScript number, as [rawIds.map(Number)] yields them. *)
Inductive JsNumber :=
| NaN
| Infinity (negative : bool)
| Finite (q : Qcanon.Qc).

#[global] Instance JsNumber_eq_dec : EqDecision JsNumber.
Proof. solve_decision. Defined.

Definition Qc_zero : Qcanon.Qc := Qcanon.Q2Qc (QArith_base.Qmake 0%Z 1%positive).

(** [Number.isFinite(n) && n > 0] *)
Definition isPositiveFinite (n : JsNumber) : bool :=
  match n with
  | Finite q => bool_decide (Qcanon.Qclt Qc_zero q)
  | _ => false
  end.

(** [[...new Set(xs)]]: the first occurrence of each value, in order;
    [seen] holds the values already in the set. *)
Fixpoint setOf (seen xs : list JsNumber) : list JsNumber :=
  match xs with
  | [] => []
  | x :: xs' =>
    if bool_decide (x ∈ seen) then setOf seen xs'
    else x :: setOf (x :: seen) xs'
  end.

(** [fileIds], from [rawIds.map(Number)]. *)
Definition fileIdsOf (numbers : list JsNumber) : list JsNumber :=
  take 20 (setOf [] (List.filter isPositiveFinite numbers)).

(** [s.replace(/\s+/g, ' ')]; [inRun] tells that the previous character
    was white space. *)
Fixpoint collapseWhiteSpace (inRun : bool) (s : jsstring) : jsstring :=
  match s with
  | [] => []
  | c :: s' =>
    if isWhiteSpace c then
      if inRun then collapseWhiteSpace true s' else 32 :: collapseWhiteSpace true s'
    else c :: collapseWhiteSpace false s'
  end.

(** The title written for a session at its first user message, from the
    trimmed text of the message and the names of its attachments. *)
Definition autoTitle (textInput : jsstring) (fileNames : list jsstring) : jsstring :=
  let base :=
    or_else textInput
            (match fileNames with
             | [] => []
             | _ => js "附件：" ++ join (js ", ") fileNames
             end) in
  or_else (take 32 (trim (collapseWhiteSpace false base))) (js "新对话").

(** The system row written at step 1.1 for an attachment bound to the
    conversation, from its [original_name] and [analysis_text]. *)
Definition attachmentRow (original_name analysis_text : jsstring) : jsstring :=
  js "【附件解析｜" ++ original_name ++ js "】" ++ [10]
  ++ truncateForModel analysis_text 12000.

(** *** The message handler, from model resolution to the canvas merge

    [POST /api/chats/:id/messages] after the request has been validated
    and the user turn stored. The two [SELECT]s are inputs: [rows] is the
    conversation in order, [crows] the result of the query for the most
    recent canvas marker (at most one row).

    The model is the computation the handler performs on the answers of
    its queries: model and target, the prior canvas, the context, the model
    call, the canvas merge and the reply. The store itself is outside of
    it: [inserted] lists the rows that the handler asks the store to
    write, in order, and a query that rejects (which ends the request with
    an error), like the checks on the attachments and the writing of the
    user and attachment rows before the context is read, is not part of
    [postMessage]. *)

(** [new HttpError(status, message)] *)
Definition HttpError (status : N) (message : jsstring) : Exn :=
  mkExn (Some status) message.

Record Row := mkRow { row_role : jsstring; row_content : jsstring }.

(** What [JSON.parse] yields on a marker payload, through the properties
    the handler reads; a property is [None] when it is absent. *)
Inductive JsonValue :=
| JsonObject (id title content : option jsstring)
| JsonOther.

(** The object [safeParseCanvasSystem] returns: [content] is a string. *)
Record StoredCanvas := mkStoredCanvas {
  sc_id : option jsstring;
  sc_title : option jsstring;
  sc_content : jsstring
}.

Record CanvasObj := mkCanvasObj {
  c_id : jsstring;
  c_title : jsstring;
  c_content : jsstring;
  c_updatedAt : jsstring
}.

(** The [canvas] field of the JSON reply. *)
Inductive ReplyCanvas :=
| ModelCanvas (c : Canvas)
| Document (c : CanvasObj).

Record Reply := mkReply {
  reply_content : jsstring;
  reply_canvas : option ReplyCanvas;
  inserted : list Row              (* the rows written from step 3.1 on *)
}.

(** The fields of [req.body] read from here on. [modelId] is the
    property key it denotes; [depthMode] its truthiness. *)
Record Body := mkBody {
  modelId : jsstring;
  depthMode : bool;
  outputTarget : option jsstring;
  canvasMode : option jsstring
}.

Definition resolveConfig (modelId : jsstring) : Completion Config :=
  let config :=
    match get modelId with
    | Some c => Some c
    | None => get (js "gpt-5-mini")
    end in
  match config with
  | None => Thrown (HttpError 400 (js "未知模型 ID: " ++ modelId))
  | Some c => Returned c
  end.

(** An optional string used as a condition: absent and empty are falsy. *)
Definition present (v : option jsstring) : option jsstring :=
  match v with
  | Some s => if truthy s then Some s else None
  | None => None
  end.

Definition canvasTitleOf (existingCanvas : option StoredCanvas) : jsstring :=
  match existingCanvas with
  | Some c => default (js "画布") (present (sc_title c))
  | None => js "画布"
  end.

Definition isCanvasRow (r : Row) : bool :=
  eqb (row_role r) (js "system") && startsWith CANVAS_PREFIX (row_content r).

Definition canvasModeRules : jsstring := js "你现在处于【画布模式】。你的输出将写入画布。
要求：
1) 只输出需要写入画布的正文内容（可以包含代码块/Markdown）。
2) 不要输出寒暄、解释、步骤编号或“已完成”等提示语。
3) 如果用户要求“新建画布”，则忽略旧内容重新开始。".

Definition currentCanvasTurn (content : jsstring) : jsstring :=
  js "【当前画布内容（可续写）】
" ++ truncateForModel content 12000 ++ js "

---
请在不重复以上内容的前提下，继续写入新的内容。".

Definition messagesForModel (rows : list Row) (target : jsstring)
           (wantNewCanvas : bool) (existingCanvas : option StoredCanvas)
  : list Message :=
  let base :=
    List.map (fun r => mkMessage (row_role r) (row_content r))
             (List.filter (fun r => negb (isCanvasRow r)) rows) in
  if eqb target (js "canvas") then
    base
    ++ match existingCanvas with
       | Some c =>
         if truthy (sc_content c) && negb wantNewCanvas
         then [mkMessage (js "system") (currentCanvasTurn (sc_content c))]
         else []
       | None => []
       end
    ++ [mkMessage (js "system") canvasModeRules]
  else base.

(** Step 3.1, from the model's [replyText] and [canvas]. *)
Definition chunkOf (replyText : jsstring) (canvas : option Canvas) : jsstring :=
  match canvas with
  | Some c => if truthy (content_ c) then content_ c else replyText
  | None => replyText
  end.

Definition baseOf (wantNewCanvas : bool) (existingCanvas : option StoredCanvas) : jsstring :=
  match existingCanvas with
  | Some c => if negb wantNewCanvas && truthy (sc_content c) then sc_content c else []
  | None => []
  end.

Definition mergeCanvas (base chunk : jsstring) : jsstring :=
  if truthy base then trim (base ++ [10; 10] ++ chunk) else trim chunk.

Section Handler.

Variable env : Env.
Variable fetch : jsstring -> RequestInit -> N -> FetchOutcome.
Variable JSON_parse : jsstring -> Completion JsonValue.
Variable JSON_stringify : CanvasObj -> jsstring.
(** What [crypto.randomUUID()] and [new Date().toISOString()] return
    in this turn. *)
Variable randomUUID : jsstring.
Variable now : jsstring.

Definition safeParseCanvasSystem (content : jsstring) : option StoredCanvas :=
  if negb (truthy content) then None
  else if negb (startsWith CANVAS_PREFIX content) then None
  else
    match JSON_parse (drop (length CANVAS_PREFIX) content) with
    | Returned (JsonObject id title (Some content)) =>
      Some (mkStoredCanvas id title content)
    | _ => None
    end.

Definition findExistingCanvas (target : jsstring) (wantNewCanvas : bool)
           (crows : list jsstring) : option StoredCanvas :=
  if eqb target (js "canvas") && negb wantNewCanvas then
    match crows with
    | c :: _ => safeParseCanvasSystem c
    | [] => None
    end
  else None.

Definition canvasObjOf (wantNewCanvas : bool) (existingCanvas : option StoredCanvas)
           (canvasTitle merged : jsstring) : CanvasObj :=
  mkCanvasObj
    match existingCanvas with
    | Some c =>
      match present (sc_id c) with
      | Some i => if negb wantNewCanvas then i else randomUUID
      | None => randomUUID
      end
    | None => randomUUID
    end
    canvasTitle merged now.

Definition targetOf (body : Body) : jsstring :=
  if bool_decide (outputTarget body = Some (js "canvas")) then js "canvas" else js "chat".

Definition wantNewCanvasOf (body : Body) : bool :=
  bool_decide (canvasMode body = Some (js "new")).

(** Steps 2.1 to 3: the prior canvas, the context, the model call. *)
Definition askModel (body : Body) (rows : list Row) (crows : list jsstring)
  : Completion Raw :=
  config ← resolveConfig (modelId body);
  let target := targetOf body in
  let wantNewCanvas := wantNewCanvasOf body in
  let existingCanvas := findExistingCanvas target wantNewCanvas crows in
  let canvasTitle := canvasTitleOf existingCanvas in
  let messages := messagesForModel rows target wantNewCanvas existingCanvas in
  Returned (callModelWithConfig env fetch config messages
              (mkOptions (depthMode body) true (Some target) (Some canvasTitle))).1.

(** [replyText] and [canvas] read off the result. *)
Definition splitResult (result : Raw) : Completion (jsstring * option Canvas) :=
  match result with
  | RawString s => Returned (s, None)
  | RawObject text canvas => Returned (default [] (present text), canvas)
  | RawNullish =>
    Thrown (Error (js "Cannot read properties of undefined (reading 'text')"))
  end.

Definition postMessage (body : Body) (rows : list Row) (crows : list jsstring)
  : Completion Reply :=
  result ← askModel body rows crows;
  '(replyText, canvas) ← splitResult result;
  let target := targetOf body in
  let wantNewCanvas := wantNewCanvasOf body in
  let existingCanvas := findExistingCanvas target wantNewCanvas crows in
  let canvasTitle := canvasTitleOf existingCanvas in
  if eqb target (js "canvas") then
    let chunk := chunkOf replyText canvas in
    let base := baseOf wantNewCanvas existingCanvas in
    let merged := mergeCanvas base chunk in
    let canvasObj := canvasObjOf wantNewCanvas existingCanvas canvasTitle merged in
    let replyText := if truthy (trim replyText) then replyText else js "已写入画布" in
    Returned (mkReply replyText (Some (Document canvasObj))
                [ mkRow (js "system") (CANVAS_PREFIX ++ JSON_stringify canvasObj);
                  mkRow (js "assistant") replyText ])
  else
    Returned (mkReply replyText (ModelCanvas <$> canvas)
                [ mkRow (js "assistant") replyText ]).

End Handler.

End Server.

(** ** frontend/src/components/ChatLayout.tsx: the canvas read back *)

Module ChatLayout.

Import Server.

Definition CANVAS_PREFIX : jsstring := js "__CANVAS__".

(** [CanvasData]; [id] is copied from the parsed object as it is. *)
Record CanvasData := mkCanvasData {
  cd_id : option jsstring;
  cd_title : jsstring;
  cd_content : jsstring
}.

Section Restore.

Variable JSON_parse : jsstring -> Completion JsonValue.

Definition safeParseCanvas (content : jsstring) : option CanvasData :=
  if negb (startsWith CANVAS_PREFIX content) then None
  else
    match JSON_parse (drop (length CANVAS_PREFIX) content) with
    | Returned (JsonObject id title (Some content)) =>
      Some (mkCanvasData id (ModelClients.orDefault title (js "画布")) content)
    | _ => None
    end.

(** The [for] loop of [extractLatestCanvas], on the messages from the
    last one backwards. *)
Fixpoint latestCanvasFrom (backwards : list Row) : option CanvasData :=
  match backwards with
  | [] => None
  | m :: earlier =>
    if eqb (row_role m) (js "system") && startsWith CANVAS_PREFIX (row_content m) then
      match safeParseCanvas (row_content m) with
      | Some c => Some c
      | None => latestCanvasFrom earlier
      end
    else latestCanvasFrom earlier
  end.

(** [messages] is the reply of [GET /api/chats/:id/messages]. *)
Definition extractLatestCanvas (messages : list Row) : option CanvasData :=
  latestCanvasFrom (rev messages).

End Restore.

End ChatLayout.

(** ** frontend/src/constants.ts: the models offered and the API client *)

Module Constants.

(** The [id]s of [MODELS], in order. *)
Definition MODELS : list jsstring :=
  [ js "gpt-5-mini"; js "gpt-5.1-codex"; js "gpt-5.1"; js "deepseek-chat";
    js "deepseek-reasoner"; js "gemini-3-pro-preview" ].

Definition DEFAULT_MODEL_ID : jsstring := js "gpt-5-mini".

(** The [Authorization] header that [apiRequest] adds for [token]
    ([None] when it adds none): [token ? { Authorization: 'Bearer ' +
    token } : {}]. *)
Definition authorizationOf (token : option jsstring) : option jsstring :=
  match token with
  | Some t => if truthy t then Some (js "Bearer " ++ t) else None
  | None => None
  end.

End Constants.

(** ** backend/modelClients.js over replies of any shape

    [await res.json()] yields whatever JSON the provider sent. The record
    [Json] of [ModelClients] reads a reply by the providers' schemas, where
    a text, a title or a content is a string; the code itself converts
    none of them. The definitions below follow the same lines of the
    source over an arbitrary JSON value, for the properties that are to
    hold of every reply. *)

Module Untyped.

Import ModelConfig.

#[warnings="-register-all"] Inductive JsValue :=
| VUndefined
| VNull
| VBool (b : bool)
| VNumber (n : Server.JsNumber)
| VString (s : jsstring)
| VArray (items : list JsValue)
| VObject (properties : list (jsstring * JsValue)).

(** [!!v] *)
Definition truthy (v : JsValue) : bool :=
  match v with
  | VUndefined | VNull => false
  | VBool b => b
  | VNumber Server.NaN => false
  | VNumber (Server.Infinity _) => true
  | VNumber (Server.Finite q) => negb (bool_decide (q = Server.Qc_zero))
  | VString s => JsString.truthy s
  | VArray _ | VObject _ => true
  end.

(** [a || b] *)
Definition orElse (a b : JsValue) : JsValue := if truthy a then a else b.

(** [v === s] for a string literal [s]. *)
Definition strictEq (s : jsstring) (v : JsValue) : bool :=
  match v with
  | VString t => eqb t s
  | _ => false
  end.

(** The own property [key] of an object, [undefined] when it has none. *)
Fixpoint lookup (key : jsstring) (properties : list (jsstring * JsValue)) : JsValue :=
  match properties with
  | [] => VUndefined
  | (k, v) :: rest => if eqb key k then v else lookup key rest
  end.

(** [v.key], for the keys the gateway reads ([output], [type], [content],
    [text], [title], [canvas], [error], [message], [choices],
    [candidates], [parts]): no prototype defines them, so a value that is
    not an object has them undefined, and [undefined] and [null] throw. *)
Definition get (key : jsstring) (v : JsValue) : Completion JsValue :=
  match v with
  | VUndefined =>
    Thrown (Error (js "Cannot read properties of undefined (reading '" ++ key ++ js "')"))
  | VNull =>
    Thrown (Error (js "Cannot read properties of null (reading '" ++ key ++ js "')"))
  | VObject properties => Returned (lookup key properties)
  | _ => Returned VUndefined
  end.

(** [v?.key], and [v.key] where [v] is known not to be nullish. *)
Definition getOpt (key : jsstring) (v : JsValue) : JsValue :=
  match v with
  | VObject properties => lookup key properties
  | _ => VUndefined
  end.

(** [v?.[0]] *)
Definition first (v : JsValue) : JsValue :=
  match v with
  | VArray (x :: _) => x
  | VString (c :: _) => VString [c]
  | VObject properties => lookup (js "0") properties
  | _ => VUndefined
  end.

(** The strings that [for (const x of s)] yields for a string [s]: its
    code points. *)
Fixpoint codePoints (s : jsstring) : list jsstring :=
  match s with
  | [] => []
  | c :: s' =>
    match s' with
    | d :: s'' =>
      if (55296 <=? c) && (c <=? 56319) && (56320 <=? d) && (d <=? 57343)
      then [c; d] :: codePoints s''
      else [c] :: codePoints s'
    | [] => [[c]]
    end
  end.

(** [for (const item of outputs)]: the items, or the [TypeError]. *)
Definition iterate (outputs : JsValue) : Completion (list JsValue) :=
  match outputs with
  | VArray items => Returned items
  | VString s => Returned (List.map VString (codePoints s))
  | _ => Thrown (Error (js "outputs is not iterable"))
  end.

(** The loop body run over the items, up to the first throw. *)
Fixpoint forOf {A : Type} (body : A -> JsValue -> Completion A) (items : list JsValue)
         (acc : A) : Completion A :=
  match items with
  | [] => Returned acc
  | item :: rest => acc' ← body acc item; forOf body rest acc'
  end.

(** [{ text: "", canvas: { title: canvasTitle, content } }] *)
Definition wrap (canvasTitle : jsstring) (content : JsValue) : JsValue :=
  VObject [ (js "text", VString []);
            (js "canvas", VObject [ (js "title", VString canvasTitle);
                                     (js "content", content) ]) ].

(** [raw && typeof raw === "object"] *)
Definition isObject (raw : JsValue) : bool :=
  match raw with
  | VArray _ | VObject _ => true
  | _ => false
  end.

(** [raw.canvas && (raw.canvas.content || raw.canvas.title)], for an
    object [raw]. *)
Definition keepsCanvas (raw : JsValue) : bool :=
  let canvas := getOpt (js "canvas") raw in
  truthy canvas && (truthy (getOpt (js "content") canvas) || truthy (getOpt (js "title") canvas)).

(** The normalisation applied when [outputTarget === "canvas"]. *)
Definition canvasShape (canvasTitle : jsstring) (raw : JsValue) : JsValue :=
  match raw with
  | VString _ => wrap canvasTitle raw
  | VArray _ | VObject _ =>
    if keepsCanvas raw then raw
    else wrap canvasTitle (orElse (getOpt (js "text") raw) (VString []))
  | _ => wrap canvasTitle (VString [])
  end.

(** The [catch] block. *)
Definition softFailure (outputTarget canvasTitle : jsstring) : JsValue :=
  if eqb outputTarget (js "canvas")
  then wrap canvasTitle (VString ModelClients.unavailable)
  else VString ModelClients.unavailable.

(** What an adapter reads of the response: [res.status] and
    [await res.json()]. *)
Record Response := mkResponse {
  status : N;
  json : Completion JsValue
}.

(** [res.ok] *)
Definition ok (res : Response) : bool :=
  (200 <=? status res) && (status res <=? 299).

Section Gateway.

(** [String(v)] for a value [v] that is not a string. *)
Variable stringOf : JsValue -> jsstring.

(** The string that [s + v] appends to a string [s]. *)
Definition str (v : JsValue) : jsstring :=
  match v with
  | VString s => s
  | _ => stringOf v
  end.

(** [new Error(v)], for [v] other than [undefined]. *)
Definition errorOf (v : JsValue) : Exn := Error (or_else (str v) (js "Error")).

(** [parts.find(p => p.type === "output_text")] *)
Fixpoint findOutputText (parts : list JsValue) : Completion JsValue :=
  match parts with
  | [] => Returned VUndefined
  | p :: rest =>
    type ← get (js "type") p;
    if strictEq (js "output_text") type then Returned p else findOutputText rest
  end.

(** [content?.find(p => p.type === "output_text")] *)
Definition find (content : JsValue) : Completion JsValue :=
  match content with
  | VUndefined | VNull => Returned VUndefined
  | VArray parts => findOutputText parts
  | _ => Thrown (Error (js "item.content?.find is not a function"))
  end.

(** The body of the loop of [extractTextAndCanvas], on [result.text] and
    [result.canvas]. *)
Definition extractTextAndCanvas_step (result : jsstring * JsValue) (item : JsValue)
  : Completion (jsstring * JsValue) :=
  type ← get (js "type") item;
  result ← (if strictEq (js "message") type then
              part ← find (getOpt (js "content") item);
              let text := getOpt (js "text") part in
              Returned (if truthy text then (result.1 ++ str text, result.2) else result)
            else Returned result);
  Returned
    (if strictEq (js "canvas") type then
       (result.1,
        VObject [ (js "title", orElse (getOpt (js "title") item) (VString (js "未命名画布")));
                  (js "content", orElse (getOpt (js "content") item) (VString [])) ])
     else result).

Definition extractTextAndCanvas (j : JsValue) : Completion JsValue :=
  output ← get (js "output") j;
  outputs ← iterate (orElse output (VArray []));
  result ← forOf extractTextAndCanvas_step outputs ([], VNull);
  Returned (VObject [ (js "text", VString result.1); (js "canvas", result.2) ]).

(** [await res.json()], the [!res.ok] check and the parse, on what the
    adapter's [await fetchWithRetry(...)] completed with (or on the error
    the adapter threw before it, for a missing key). *)
Definition readReply (failure : jsstring) (parse : JsValue -> Completion JsValue)
           (reply : Completion Response) : Completion JsValue :=
  res ← reply;
  j ← json res;
  if negb (ok res) then
    error ← get (js "error") j;
    Thrown (errorOf (orElse (getOpt (js "message") error) (VString failure)))
  else parse j.

Definition callOpenAI (reply : Completion Response) : Completion JsValue :=
  readReply (js "OpenAI Responses 调用失败") extractTextAndCanvas reply.

(** [json.choices?.[0]?.message?.content || ""] *)
Definition choiceContent (j : JsValue) : Completion JsValue :=
  choices ← get (js "choices") j;
  Returned (orElse (getOpt (js "content") (getOpt (js "message") (first choices)))
                   (VString [])).

Definition callDeepSeek (reply : Completion Response) : Completion JsValue :=
  readReply (js "DeepSeek 调用失败") choiceContent reply.

(** [json.candidates?.[0]?.content?.parts?.[0]?.text || ""] *)
Definition candidateText (j : JsValue) : Completion JsValue :=
  candidates ← get (js "candidates") j;
  Returned (orElse (getOpt (js "text")
                           (first (getOpt (js "parts")
                                          (getOpt (js "content") (first candidates)))))
                   (VString [])).

Definition callGemini (reply : Completion Response) : Completion JsValue :=
  readReply (js "Gemini 调用失败") candidateText reply.

(** The provider dispatch inside the [try] block; [reply] is what the
    request of the adapter that is called completes with. *)
Definition dispatch (config : Config) (reply : Completion Response) : Completion JsValue :=
  match config with
  | Registered e =>
    if eqb (provider e) (js "openai") then callOpenAI reply
    else if eqb (provider e) (js "deepseek") then callDeepSeek reply
    else if eqb (provider e) (js "gemini") then callGemini reply
    else Thrown (Error (js "未知 provider: " ++ provider e))
  | Inherited _ => Thrown (Error (js "未知 provider: undefined"))
  end.

(** The value the returned promise resolves to. *)
Definition callModelWithConfig (config : Config) (options : ModelClients.Options)
           (reply : Completion Response) : JsValue :=
  let outputTarget := ModelClients.effectiveOutputTarget options in
  let canvasTitle := ModelClients.effectiveCanvasTitle options in
  match dispatch config reply with
  | Returned raw => if eqb outputTarget (js "canvas") then canvasShape canvasTitle raw else raw
  | Thrown err => softFailure outputTarget canvasTitle
  end.

End Gateway.

End Untyped.

(** * Vocabulary of the statements *)

Import ModelConfig ModelClients Server.

(** The last [n] characters of a string, [s.slice(s.length - n)]. *)
Definition lastChars (n : nat) (s : jsstring) : jsstring := drop (length s - n)%nat s.

(** Whether the retry classifiers accept an outcome of [fetch]. *)
Definition retryable (o : FetchOutcome) : bool :=
  match o with
  | Responded res => isRetryableStatus (status res)
  | Rejected err => isRetryableError err
  end.

(** How an attempt that is not retried completes the call. *)
Definition completionOf (o : FetchOutcome) : Completion Response :=
  match o with
  | Responded res => Returned res
  | Rejected err => Thrown (Error err)
  end.

(** The traces of a retrying call from attempt [k] on: attempts separated
    by back-off delays, the last attempt deciding the completion. *)
Inductive RetryTrace (fetch : jsstring -> RequestInit -> N -> FetchOutcome)
          (url : jsstring) (init : RequestInit) (cfg : RetryCfg)
  : N -> list Event -> Completion Response -> Prop :=
| RetryTrace_last k :
    k <= cfg_retries cfg ->
    retryable (fetch url init k) && (k <? cfg_retries cfg) = false ->
    RetryTrace fetch url init cfg k
               [Fetched url init k (fetch url init k)]
               (completionOf (fetch url init k))
| RetryTrace_retry k tr r :
    retryable (fetch url init k) = true ->
    k < cfg_retries cfg ->
    RetryTrace fetch url init cfg (k + 1) tr r ->
    RetryTrace fetch url init cfg k
               (Fetched url init k (fetch url init k)
                  :: Slept (N.min (cfg_maxDelayMs cfg) (cfg_baseDelayMs cfg * 2 ^ k))
                  :: tr)
               r.

(** Total byte length of a list of expanded entries. *)
Definition sumBytes (l : list (jsstring * N)) : N := foldr (fun e acc => e.2 + acc) 0 l.

(** The quota counters, cut at their limits. *)
Definition capFiles (w : Run) : N := N.min (files (zipState w)) MAX_ZIP_FILES.
Definition capBytes (w : Run) : N := N.min (bytes (zipState w)) MAX_ZIP_TOTAL_BYTES.

(** [Within w w']: a run from [w] to [w'] only counts upwards, only appends
    to the expanded entries, and every entry it expands is paid for below
    the limits of both counters. *)
Definition Within (w w' : Run) : Prop :=
  files (zipState w) <= files (zipState w')
  /\ bytes (zipState w) <= bytes (zipState w')
  /\ exists new,
      expanded w' = expanded w ++ new
      /\ N.of_nat (length new) + capFiles w <= capFiles w'
      /\ sumBytes new + capBytes w <= capBytes w'.

(** The same outcome, reported on top of earlier expanded entries [l]. *)
Definition relog (l : list (jsstring * N)) (r : Completion jsstring * Run)
  : Completion jsstring * Run :=
  (r.1, mkRun (zipState r.2) (l ++ expanded r.2)).

(** The property of a zip entry that its buffer, when it can be read,
    satisfies [P]. *)
Definition entryBuffer (P : Buffer -> Prop) (f : ZipFile) : Prop :=
  match f with
  | mkZipFile _ _ (Returned b) => P b
  | mkZipFile _ _ (Thrown _) => True
  end.

Definition directoryOf (unzipped : Completion (list ZipFile)) : list ZipFile :=
  match unzipped with
  | Returned fs => fs
  | Thrown _ => []
  end.

(** What a request body says about the optional features. *)
Definition gated (config : Config) (options : Options) (b : ModelClients.Body) : Prop :=
  match b with
  | OpenAIBody _ _ reasoning tools =>
    (reasoning <> None ->
     opt_depthMode options = true /\ capability ModelConfig.reasoning config = true)
    /\ (tools <> None ->
        opt_webSearch options = true /\ capability ModelConfig.webSearch config = true)
  | DeepSeekBody _ _ tenths
  | GeminiBody _ (mkGenerationConfig tenths) =>
    tenths = 2 ->
    opt_depthMode options = true /\ capability ModelConfig.reasoning config = true
  end.

(** Induction on a buffer, with the hypothesis for the buffers of its
    zip directory. *)
Section BufferInduction.

Variable P : Buffer -> Prop.

Hypothesis step :
  forall n utf8 unzipped pdf xlsx vision,
    Forall (entryBuffer P) (directoryOf unzipped) ->
    P (mkBuffer n utf8 unzipped pdf xlsx vision).

Fixpoint Buffer_nested_ind (b : Buffer) : P b :=
  match b with
  | mkBuffer n utf8 unzipped pdf xlsx vision =>
    step n utf8 unzipped pdf xlsx vision
         match unzipped return Forall (entryBuffer P) (directoryOf unzipped) with
         | Returned fs =>
           (fix entries (fs : list ZipFile) : Forall (entryBuffer P) fs :=
              match fs with
              | [] => @List.Forall_nil _ _
              | f :: rest =>
                @List.Forall_cons _ _ f rest
                  match f return entryBuffer P f with
                  | mkZipFile _ _ (Returned child) => Buffer_nested_ind child
                  | mkZipFile _ _ (Thrown _) => I
                  end
                  (entries rest)
              end) fs
         | Thrown _ => @List.Forall_nil _ _
         end
  end.

End BufferInduction.

(** The delays slept in a trace, in order, and their total. *)
Definition sleeps (tr : list Event) : list N :=
  omap (fun e => match e with Slept ms => Some ms | Fetched _ _ _ _ => None end) tr.

Definition totalDelay (tr : list Event) : N := foldr N.add 0 (sleeps tr).

(** The API key that the adapter of a provider reads; [None] also for a
    provider without adapter. *)
Definition apiKeyFor (env : Env) (provider : jsstring) : option jsstring :=
  if eqb provider (js "openai") then apiKeyOf (OPENAI_API_KEY env)
  else if eqb provider (js "deepseek") then apiKeyOf (DEEPSEEK_API_KEY env)
  else if eqb provider (js "gemini") then apiKeyOf (GEMINI_API_KEY env)
  else None.

(** A property of every request of a trace. *)
Definition everyRequest (P : jsstring -> RequestInit -> Prop) (tr : list Event) : Prop :=
  Forall (fun e => match e with
                   | Fetched url init _ _ => P url init
                   | Slept _ => True
                   end) tr.

(** The text and the canvas that one output item contributes. *)
Definition messageText (item : OutputItem) : jsstring :=
  match item with
  | MessageItem content => default [] (outputText content)
  | _ => []
  end.

Definition canvasOf (item : OutputItem) : option Canvas :=
  match item with
  | CanvasItem title content =>
    Some (mkCanvas (orDefault title (js "未命名画布")) (orDefault content []))
  | _ => None
  end.

(** The [contents] that [callGemini] builds from the messages. *)
Definition geminiContentsOf (messages : list Message) : list GeminiContent :=
  List.map (fun m => mkGeminiContent
                       (if eqb (role m) (js "user") then js "user" else js "model")
                       [content m])
           (List.filter (fun m => negb (eqb (role m) (js "system"))) messages).

(** A network on which every attempt is rejected. *)
Definition unreachable (fetch : jsstring -> RequestInit -> N -> FetchOutcome) : Prop :=
  forall url init attempt, exists err, fetch url init attempt = Rejected err.

(** A message that would be taken for a canvas marker. *)
Definition isCanvasMessage (m : Message) : bool :=
  eqb (role m) (js "system") && startsWith CANVAS_PREFIX (content m).

(** The messages that stand for stored rows. *)
Definition storedTurns (rows : list Row) : list Message :=
  List.map (fun r => mkMessage (row_role r) (row_content r))
           (List.filter (fun r => negb (isCanvasRow r)) rows).

(** The errors thrown by the parsers of a buffer and of the buffers in
    its zip directory: decoding, [unzipper.Open.buffer], [pdf-parse],
    [xlsx] and [entry.buffer()]. The vision call is not among them. *)
Definition thrownBy {A : Type} (c : Completion A) : list Exn :=
  match c with
  | Thrown e => [e]
  | Returned _ => []
  end.

Fixpoint parserErrors (b : Buffer) : list Exn :=
  match b with
  | mkBuffer _ utf8 unzipped pdf xlsx _ =>
    thrownBy utf8 ++ thrownBy pdf ++ thrownBy xlsx
    ++ match unzipped with
       | Thrown e => [e]
       | Returned fs =>
         (fix entries (fs : list ZipFile) : list Exn :=
            match fs with
            | [] => []
            | mkZipFile _ _ (Thrown e) :: rest => e :: entries rest
            | mkZipFile _ _ (Returned child) :: rest => parserErrors child ++ entries rest
            end) fs
       end
  end.

(** The directory entries that the zip loop reads. *)
Definition isFileEntry (f : ZipFile) : bool := eqb (f_type f) (js "File").

(** The byte length of an entry, and its text when it is analysed on its
    own as an entry of an uploaded archive. *)
Definition entryBytes (f : ZipFile) : N :=
  match f_buffer f with
  | Returned b => buf_length b
  | Thrown _ => 0
  end.

Definition entryText (extname toLowerCase : jsstring -> jsstring) (f : ZipFile)
  : Completion jsstring :=
  match f_buffer f with
  | Returned b => (analyzeFileBuffer extname toLowerCase (f_path f) b 1 freshRun).1
  | Thrown e => Thrown e
  end.

(** A string in which every white-space code unit is a space that is
    not followed by white space. *)
Fixpoint singleSpaced (s : jsstring) : bool :=
  match s with
  | [] => true
  | c :: s' =>
    (if isWhiteSpace c
     then (c =? 32) && match s' with
                       | d :: _ => negb (isWhiteSpace d)
                       | [] => true
                       end
     else true)
    && singleSpaced s'
  end.

(** The distinct values of a list, in the order of their first
    occurrence: a value is kept where it occurs first and removed from
    what follows. *)
Fixpoint firstOccurrences (l : list JsNumber) : list JsNumber :=
  match l with
  | [] => []
  | x :: l' => x :: List.filter (fun y => negb (bool_decide (y = x))) (firstOccurrences l')
  end.


(** [typeof v === "string"] *)
Definition isString (v : Untyped.JsValue) : bool :=
  match v with
  | Untyped.VString _ => true
  | _ => false
  end.

(** [v == null]: [undefined] or [null]. *)
Definition isNullish (v : Untyped.JsValue) : bool :=
  match v with
  | Untyped.VUndefined | Untyped.VNull => true
  | _ => false
  end.

(** The canvas of a result has a string title and a string content. *)
Definition canvasStrings (out : Untyped.JsValue) : bool :=
  let canvas := Untyped.getOpt (js "canvas") out in
  isString (Untyped.getOpt (js "title") canvas)
  && isString (Untyped.getOpt (js "content") canvas).

(** What the provider supplied where the canvas of the result is taken
    from holds strings: the canvas block of a raw object that has one with
    a truthy title or content, else its text unless falsy; a raw result
    that is not an object supplies nothing but itself. *)
Definition stringsSupplied (raw : Untyped.JsValue) : bool :=
  if Untyped.isObject raw then
    if Untyped.keepsCanvas raw then canvasStrings raw
    else
      let text := Untyped.getOpt (js "text") raw in
      negb (Untyped.truthy text) || isString text
  else true.

(** The JSON value of a reply that follows the providers' schemas, and
    the values of the typed gateway as JSON values. *)
Definition optString (o : option jsstring) : Untyped.JsValue :=
  match o with
  | Some s => Untyped.VString s
  | None => Untyped.VUndefined
  end.

Definition ofPart (p : Part) : Untyped.JsValue :=
  Untyped.VObject [ (js "type", Untyped.VString (part_type p));
                    (js "text", optString (part_text p)) ].

Definition ofItem (item : OutputItem) : Untyped.JsValue :=
  match item with
  | MessageItem content =>
    Untyped.VObject
      [ (js "type", Untyped.VString (js "message"));
        (js "content",
         match content with
         | Some parts => Untyped.VArray (List.map ofPart parts)
         | None => Untyped.VUndefined
         end) ]
  | CanvasItem title content =>
    Untyped.VObject
      [ (js "type", Untyped.VString (js "canvas"));
        (js "title", optString title);
        (js "content", optString content) ]
  | OtherItem => Untyped.VObject [ (js "type", Untyped.VString (js "reasoning")) ]
  end.

Definition ofJson (j : Json) : Untyped.JsValue :=
  Untyped.VObject
    [ (js "error",
       match error_message j with
       | Some m => Untyped.VObject [ (js "message", Untyped.VString m) ]
       | None => Untyped.VUndefined
       end);
      (js "output",
       match output j with
       | Some items => Untyped.VArray (List.map ofItem items)
       | None => Untyped.VUndefined
       end);
      (js "choices",
       match choice_content j with
       | Some c =>
         Untyped.VArray
           [ Untyped.VObject
               [ (js "message", Untyped.VObject [ (js "content", Untyped.VString c) ]) ] ]
       | None => Untyped.VUndefined
       end);
      (js "candidates",
       match candidate_text j with
       | Some t =>
         Untyped.VArray
           [ Untyped.VObject
               [ (js "content",
                  Untyped.VObject
                    [ (js "parts",
                       Untyped.VArray
                         [ Untyped.VObject [ (js "text", Untyped.VString t) ] ]) ]) ] ]
       | None => Untyped.VUndefined
       end) ].

Definition ofCanvas (canvas : option Canvas) : Untyped.JsValue :=
  match canvas with
  | Some c =>
    Untyped.VObject [ (js "title", Untyped.VString (title c));
                      (js "content", Untyped.VString (content_ c)) ]
  | None => Untyped.VNull
  end.

Definition ofRaw (raw : Raw) : Untyped.JsValue :=
  match raw with
  | RawString s => Untyped.VString s
  | RawObject text canvas =>
    Untyped.VObject [ (js "text", optString text); (js "canvas", ofCanvas canvas) ]
  | RawNullish => Untyped.VUndefined
  end.

Definition mapReturned {A B : Type} (f : A -> B) (c : Completion A) : Completion B :=
  match c with
  | Returned a => Returned (f a)
  | Thrown e => Thrown e
  end.

Definition ofResponse (res : Response) : Untyped.Response :=
  Untyped.mkResponse (status res) (mapReturned ofJson (json res)).

(** What the request of the adapter completed with, read off a run of the
    typed gateway: the outcome of its last attempt or, when it made none,
    the error thrown instead. *)
Definition replyOf (r : Completion Raw * list Event) : Completion Untyped.Response :=
  match last r.2 with
  | Some (Fetched _ _ _ o) => mapReturned ofResponse (completionOf o)
  | _ =>
    match r.1 with
    | Thrown e => Thrown e
    | Returned _ => Thrown (Error [])
    end
  end.

(** * Sample inputs *)

(** The default policy ([retries = 2]) on 500, 500, 200, and a 404. *)
Definition scenarioA (url : jsstring) (init : RequestInit) (attempt : N) : FetchOutcome :=
  Responded (mkResponse (if attempt <? 2 then 500 else 200)
                        (Returned (mkJson None None None None))).

Definition notFound (url : jsstring) (init : RequestInit) (attempt : N) : FetchOutcome :=
  Responded (mkResponse 404 (Returned (mkJson None None None None))).

(** The registry entry of the default model. *)
Definition gpt_5_mini : Entry := entry "openai" "gpt-5-mini" false true true true.

Definition sampleEnv : Env :=
  mkEnv (Some (js "sk-openai")) (Some (js "sk-deepseek")) (Some (js "sk-gemini")) None None.

Definition deepseek_chat : Config :=
  Registered (entry "deepseek" "deepseek-chat" false false false false).

Definition gpt_5 : Config :=
  Registered (entry "openai" "gpt-5" true true true true).

(** A provider that answers 200 with the chat-completion text [draft]. *)
Definition answers (text : string) (url : jsstring) (init : RequestInit) (attempt : N)
  : FetchOutcome :=
  Responded (mkResponse 200 (Returned (mkJson None None (Some (js text)) (Some (js text))))).

(** A provider that is down: every attempt is answered 503. *)
Definition outage (url : jsstring) (init : RequestInit) (attempt : N) : FetchOutcome :=
  Responded (mkResponse 503 (Returned (mkJson (Some (js "overloaded")) None None None))).

Definition canvasOptions : Options := mkOptions true true (Some (js "canvas")) None.
Definition chatOptions : Options := mkOptions true true (Some (js "chat")) None.

Definition hello : list Message := [mkMessage (js "user") (js "hello")].

(** Stand-ins for [JSON.parse] and [JSON.stringify] on marker payloads:
    the stored canvas is [{id: "c-1", title: "Plan", content: "X"}]. *)
Definition storedPlan (payload : jsstring) : Completion JsonValue :=
  Returned (JsonObject (Some (js "c-1")) (Some (js "Plan")) (Some (js "X"))).

Definition printCanvas (c : CanvasObj) : jsstring :=
  c_id c ++ js "|" ++ c_title c ++ js "|" ++ c_content c ++ js "|" ++ c_updatedAt c.

Definition newCanvasBody : Server.Body :=
  mkBody (js "deepseek-chat") false (Some (js "canvas")) (Some (js "new")).

Definition appendCanvasBody : Server.Body :=
  mkBody (js "deepseek-chat") false (Some (js "canvas")) (Some (js "append")).

Definition history : list Row := [mkRow (js "user") (js "hello")].

Definition markerRow : jsstring := CANVAS_PREFIX ++ js "{}".

(** Stand-ins for [path.extname] and [toLowerCase], right on ASCII base
    names with a dot inside: the suffix from the last dot, and the ASCII
    letters lowered. *)
Fixpoint lastDotSuffix (s : jsstring) : jsstring :=
  match s with
  | [] => []
  | c :: s' =>
    let e := lastDotSuffix s' in
    if truthy e then e else if c =? 46 then s else []
  end.

Definition asciiLower (s : jsstring) : jsstring :=
  List.map (fun c => if (65 <=? c) && (c <=? 90) then c + 32 else c) s.

Definition noZip : Completion (list ZipFile) := Thrown (Error (js "not a zip")).
Definition noPdf : Completion jsstring := Thrown (Error (js "Invalid PDF structure")).
Definition noXlsx : Completion jsstring := Thrown (Error (js "not a workbook")).
Definition noVision (mimeType : jsstring) : Completion jsstring :=
  Thrown (Error (js "缺少 OPENAI_API_KEY")).

(** A text file of [n] bytes. *)
Definition textBuffer (n : N) (text : string) : Buffer :=
  mkBuffer n (Returned (js text)) noZip noPdf noXlsx noVision.

(** Bytes that are not a PDF document. *)
Definition brokenPdf : Buffer :=
  mkBuffer 9 (Returned (js "not a pdf")) noZip noPdf noXlsx noVision.

(** An archive with the given directory. *)
Definition zipBuffer (n : N) (fs : list ZipFile) : Buffer :=
  mkBuffer n (Returned []) (Returned fs) noPdf noXlsx noVision.

Definition textEntry (path : string) (n : N) (text : string) : ZipFile :=
  mkZipFile (js "File") (js path) (Returned (textBuffer n text)).

Definition manyNotes : Buffer := zipBuffer 4096 (replicate 201 (textEntry "n.txt" 1 "x")).

Definition hugeEntry : Buffer :=
  zipBuffer 4096 [textEntry "a.txt" 5 "small"; textEntry "b.txt" 20971520 "big";
                  textEntry "c.txt" 1 "z"].

Definition noKeys : Env := mkEnv None (Some []) None None None.

Definition searchEnv : Env :=
  mkEnv (Some (js "sk-openai")) None None (Some (js "1")) None.

Definition offline (url : jsstring) (init : RequestInit) (attempt : N) : FetchOutcome :=
  Rejected (js "fetch failed: ECONNRESET").

Definition chatBody : Server.Body :=
  mkBody (js "deepseek-chat") false (Some (js "chat")) None.

(** The canvas that a first, "new" canvas turn answered ["Y"] writes, and
    a stand-in for [JSON.parse] that reads its printed form back. *)
Definition firstCanvas : CanvasObj :=
  mkCanvasObj (js "uuid-1") (js "画布") (js "Y") (js "t1").

Definition readBack (payload : jsstring) : Completion JsonValue :=
  if eqb payload (printCanvas firstCanvas)
  then Returned (JsonObject (Some (js "uuid-1")) (Some (js "画布")) (Some (js "Y")))
  else Thrown (Error (js "Unexpected token")).

(** A stand-in for the pair [JSON.stringify] / [JSON.parse] that is
    invertible on every canvas: each of id, title and content is written
    after a code unit holding its length. *)
Definition frame (s : jsstring) : jsstring := N.of_nat (length s) :: s.

Definition unframe (s : jsstring) : option (jsstring * jsstring) :=
  match s with
  | [] => None
  | n :: rest => Some (take (N.to_nat n) rest, drop (N.to_nat n) rest)
  end.

Definition printFramed (c : CanvasObj) : jsstring :=
  frame (c_id c) ++ frame (c_title c) ++ frame (c_content c) ++ c_updatedAt c.

Definition readFramed (payload : jsstring) : Completion JsonValue :=
  match unframe payload with
  | Some (i, rest) =>
    match unframe rest with
    | Some (t, rest') =>
      match unframe rest' with
      | Some (x, _) => Returned (JsonObject (Some i) (Some t) (Some x))
      | None => Thrown (Error (js "Unexpected end of JSON input"))
      end
    | None => Thrown (Error (js "Unexpected end of JSON input"))
    end
  | None => Thrown (Error (js "Unexpected end of JSON input"))
  end.

(** An archive of three text files, and an image that the vision call
    cannot describe. *)
Definition threeNotes : list ZipFile :=
  [textEntry "a.txt" 5 "alpha"; textEntry "docs/b.md" 4 "beta"; textEntry "c.csv" 3 "1,2"].

Definition photo : Buffer :=
  mkBuffer 2048 (Thrown (Error (js "invalid utf-8"))) noZip noPdf noXlsx noVision.

(** Four archives, one inside the other, each holding a file of 20 MiB
    after the inner archive. *)
Definition fileOf20MiB (path : string) : ZipFile := textEntry path 20971520 "big".

Definition archiveEntry (path : string) (n : N) (fs : list ZipFile) : ZipFile :=
  mkZipFile (js "File") (js path) (Returned (zipBuffer n fs)).

Definition nestedArchives : Buffer :=
  zipBuffer 4096
    [ archiveEntry "l1.zip" 1024
        [ archiveEntry "l2.zip" 512
            [ archiveEntry "l3.zip" 256 [fileOf20MiB "d.txt"; fileOf20MiB "e.txt"];
              fileOf20MiB "c.txt" ];
          fileOf20MiB "b.txt" ];
      fileOf20MiB "a.txt";
      textEntry "z.txt" 1 "z" ].

(** Replies as JSON values: a 200 response with the body [j]. *)
Definition replied (j : Untyped.JsValue) : Completion Untyped.Response :=
  Returned (Untyped.mkResponse 200 (Returned j)).

(** [{ choices: [{ message: { content } }] }] *)
Definition chatCompletion (content : Untyped.JsValue) : Untyped.JsValue :=
  Untyped.VObject
    [ (js "choices",
       Untyped.VArray
         [ Untyped.VObject
             [ (js "message", Untyped.VObject [ (js "content", content) ]) ] ]) ].

Definition seven : JsNumber := Finite (Qcanon.Q2Qc (QArith_base.Qmake 7%Z 1%positive)).

(** [{ output: [{ type: "canvas", title: 7 }] }] *)
Definition numberedCanvas : Untyped.JsValue :=
  Untyped.VObject
    [ (js "output",
       Untyped.VArray
         [ Untyped.VObject
             [ (js "type", Untyped.VString (js "canvas"));
               (js "title", Untyped.VNumber seven) ] ]) ].

(** [{ output: [{ type: "message", content: [{ type: "output_text", text }] }] }] *)
Definition messageOutput (text : Untyped.JsValue) : Untyped.JsValue :=
  Untyped.VObject
    [ (js "output",
       Untyped.VArray
         [ Untyped.VObject
             [ (js "type", Untyped.VString (js "message"));
               (js "content",
                Untyped.VArray
                  [ Untyped.VObject
                      [ (js "type", Untyped.VString (js "output_text"));
                        (js "text", text) ] ]) ] ]) ].

(** [String(v)] on the sample values: [String(true)], [String(false)],
    and the text of an object. *)
Definition sampleStringOf (v : Untyped.JsValue) : jsstring :=
  match v with
  | Untyped.VBool true => js "true"
  | Untyped.VBool false => js "false"
  | Untyped.VNull => js "null"
  | Untyped.VUndefined => js "undefined"
  | _ => js "[object Object]"
  end.

(** * Properties *)

(** ** Strings *)

Lemma eqb_eq a b : eqb a b = true <-> a = b.
Proof. unfold eqb. apply bool_decide_eq_true. Qed.

Lemma eqb_refl a : eqb a a = true.
Proof. by apply eqb_eq. Qed.

Lemma eqb_neq a b : eqb a b = false <-> a <> b.
Proof. unfold eqb. apply bool_decide_eq_false. Qed.

Example js_ascii : js "chat" = [99; 104; 97; 116].
Proof. reflexivity. Qed.

Example js_cjk : js "画布" = [30011; 24067].
Proof. reflexivity. Qed.

Example js_astral : js "📎" = [55357; 56526].
Proof. reflexivity. Qed.

Example trim_both : trim (js "  X Y
 ") = js "X Y".
Proof. reflexivity. Qed.

Example ofN_size : ofN 20971520 = js "20971520".
Proof. reflexivity. Qed.

Example MODEL_MAP_mini :
  ModelConfig.get (js "gpt-5-mini")
  = Some (ModelConfig.Registered (ModelConfig.entry "openai" "gpt-5-mini" false true true true)).
Proof. vm_compute. reflexivity. Qed.

Example MODEL_MAP_unknown : ModelConfig.get (js "gpt-4") = None.
Proof. vm_compute. reflexivity. Qed.

Example MODEL_MAP_proto :
  ModelConfig.get (js "toString") = Some (ModelConfig.Inherited (js "toString")).
Proof. vm_compute. reflexivity. Qed.

(** ** Truncation *)

Lemma truncateForModel_short (s : jsstring) (maxChars : N) :
  (length s <= N.to_nat maxChars)%nat -> truncateForModel s maxChars = s.
Proof.
  intros Hle. unfold truncateForModel.
  destruct s as [|c s]; [reflexivity|]. cbn [truthy negb].
  destruct (N.leb_spec (N.of_nat (length (c :: s))) maxChars) as [_|Hgt]; [reflexivity|].
  lia.
Qed.

Lemma truncateForModel_long (s : jsstring) (maxChars : N) :
  (N.to_nat maxChars < length s)%nat ->
  truncateForModel s maxChars
  = truncationNotice (length s) ++ lastChars (N.to_nat maxChars) s.
Proof.
  intros Hlt. unfold truncateForModel, lastChars.
  destruct s as [|c s]; [cbn in Hlt; lia|]. cbn [truthy negb].
  destruct (N.leb_spec (N.of_nat (length (c :: s))) maxChars) as [Hle|_]; [lia|].
  reflexivity.
Qed.

Lemma lastChars_length (n : nat) (s : jsstring) :
  (n <= length s)%nat -> length (lastChars n s) = n.
Proof. intros Hle. unfold lastChars. rewrite length_drop. lia. Qed.

Lemma lastChars_exact (n : nat) (s : jsstring) :
  length s = n -> lastChars n s = s.
Proof. intros <-. unfold lastChars. by rewrite Nat.sub_diag. Qed.

Lemma lastChars_app (n : nat) (p s : jsstring) :
  (n <= length s)%nat -> lastChars n (p ++ s) = lastChars n s.
Proof.
  intros Hle. unfold lastChars. rewrite length_app.
  replace (length p + length s - n)%nat with (length p + (length s - n))%nat by lia.
  apply drop_app_add.
Qed.

(** C9. An input longer than the budget of 12000 characters is cut to its
    last 12000 characters, prefixed with the notice that prints the
    original length; the output then ends with the final 12000 characters
    of the input and is 12000 plus the notice long. A shorter input is
    returned as it is. *)
Theorem truncateForModel_budget (s : jsstring) :
  let B := N.to_nat 12000 in
  let out := truncateForModel s 12000 in
  let notice := truncationNotice (length s) in
  ((B < length s)%nat ->
     out = notice ++ lastChars B s
     /\ notice = js "...(为节省上下文，已截断，共 " ++ ofNat (length s) ++ js " 字符)" ++ [10]
     /\ lastChars B out = lastChars B s
     /\ length (lastChars B s) = B
     /\ (length out <= B + length notice)%nat)
  /\ ((length s <= B)%nat -> out = s).
Proof.
  intros B out notice. split.
  - intros Hlt. subst out. rewrite (truncateForModel_long s 12000 Hlt). fold B notice.
    assert (HB : (B <= length s)%nat) by lia.
    split; [reflexivity|]. split; [reflexivity|]. split; [|split].
    + rewrite lastChars_app by (rewrite lastChars_length; lia).
      apply lastChars_exact, lastChars_length, HB.
    + apply lastChars_length, HB.
    + rewrite length_app, (lastChars_length B s HB). lia.
  - intros Hle. apply truncateForModel_short, Hle.
Qed.

Lemma truncateForModel_budget_witness :
  (let s := replicate (N.to_nat 12001) 97 in
   truncateForModel s 12000
   = truncationNotice (length s) ++ lastChars (N.to_nat 12000) s)
  /\ truncateForModel (js "canvas text") 12000 = js "canvas text".
Proof.
  split.
  - intros s.
    apply (proj1 (truncateForModel_budget s)).
    subst s. rewrite length_replicate. lia.
  - apply (proj2 (truncateForModel_budget (js "canvas text"))).
    vm_compute. lia.
Defined.

(** ** Resilient transport *)

Section TransportProps.

Variable fetch : jsstring -> RequestInit -> N -> FetchOutcome.
Variables (url : jsstring) (init : RequestInit) (cfg : RetryCfg).

Lemma fetchLoop_trace (remaining : nat) (k : N) (lastErr : option jsstring) :
  N.of_nat remaining + k = cfg_retries cfg + 1 ->
  k <= cfg_retries cfg ->
  let r := fetchLoop fetch url init cfg remaining k lastErr in
  RetryTrace fetch url init cfg k r.2 r.1.
Proof.
  revert k lastErr. induction remaining as [|n IH]; intros k lastErr Hsum Hk; [lia|].
  cbn [fetchLoop]. cbv zeta.
  destruct (fetch url init k) as [res|err] eqn:Hfetch.
  - destruct (isRetryableStatus (status res) && (k <? cfg_retries cfg)) eqn:Hretry.
    + apply andb_prop in Hretry as [Hst Hlt]. apply N.ltb_lt in Hlt.
      cbn [fst snd]. unfold backoff. rewrite <- Hfetch.
      apply RetryTrace_retry; [by rewrite Hfetch | done | apply IH; lia].
    + cbn [fst snd]. rewrite <- Hfetch.
      change (Returned res) with (completionOf (Responded res)). rewrite <- Hfetch.
      apply RetryTrace_last; [done | by rewrite Hfetch].
  - destruct ((k <? cfg_retries cfg) && isRetryableError err) eqn:Hretry.
    + apply andb_prop in Hretry as [Hlt Herr]. apply N.ltb_lt in Hlt.
      cbn [fst snd]. unfold backoff. rewrite <- Hfetch.
      apply RetryTrace_retry; [by rewrite Hfetch | done | apply IH; lia].
    + cbn [fst snd]. rewrite <- Hfetch.
      change (Thrown (Error err)) with (completionOf (Rejected err)). rewrite <- Hfetch.
      apply RetryTrace_last; [done | rewrite Hfetch; cbn; by rewrite andb_comm].
Qed.

Lemma fetchWithRetry_trace :
  let r := fetchWithRetry fetch url init cfg in
  RetryTrace fetch url init cfg 0 r.2 r.1.
Proof. unfold fetchWithRetry. apply fetchLoop_trace; lia. Qed.

Lemma RetryTrace_head k tr r :
  RetryTrace fetch url init cfg k tr r ->
  exists rest, tr = Fetched url init k (fetch url init k) :: rest.
Proof. destruct 1; eauto. Qed.

Lemma RetryTrace_attempts k tr r :
  RetryTrace fetch url init cfg k tr r ->
  (attempts tr + N.to_nat k <= N.to_nat (cfg_retries cfg + 1))%nat.
Proof.
  induction 1 as [k Hk _|k tr r _ Hlt _ IH]; unfold attempts in *; cbn in *; lia.
Qed.

Lemma RetryTrace_final_status k tr r i j res :
  RetryTrace fetch url init cfg k tr r ->
  tr !! i = Some (Fetched url init j (Responded res)) ->
  isRetryableStatus (status res) = false ->
  r = Returned res /\ length tr = S i.
Proof.
  intros Htr. revert i. induction Htr as [k Hk Hno|k tr r Hyes Hlt Htr IH]; intros i Hi Hst.
  - destruct i as [|i]; [|by destruct i].
    cbn in Hi. injection Hi as _ Hf. by rewrite Hf.
  - destruct i as [|[|i]]; cbn in Hi.
    + injection Hi as _ Hf. rewrite Hf in Hyes. cbn in Hyes. congruence.
    + discriminate.
    + destruct (IH i Hi Hst) as [-> Hlen]. cbn. by rewrite Hlen.
Qed.

Lemma RetryTrace_retried k tr r i u n j o :
  RetryTrace fetch url init cfg k tr r ->
  tr !! i = Some (Fetched u n j o) ->
  (S i < length tr)%nat ->
  retryable o = true
  /\ j < cfg_retries cfg
  /\ tr !! S i = Some (Slept (N.min (cfg_maxDelayMs cfg) (cfg_baseDelayMs cfg * 2 ^ j)))
  /\ tr !! S (S i) = Some (Fetched url init (j + 1) (fetch url init (j + 1))).
Proof.
  intros Htr. revert i. induction Htr as [k Hk Hno|k tr r Hyes Hlt Htr IH]; intros i Hi Hlen.
  - cbn in Hlen. lia.
  - destruct i as [|[|i]]; cbn in Hi.
    + injection Hi as _ _ <- <-. repeat split; try done.
      destruct (RetryTrace_head _ _ _ Htr) as [rest ->]. reflexivity.
    + discriminate.
    + cbn in Hlen. apply (IH i Hi). lia.
Qed.

End TransportProps.

Lemma isRetryableStatus_spec (status : N) :
  isRetryableStatus status = true <-> status = 429 \/ (500 <= status /\ status <= 599).
Proof.
  unfold isRetryableStatus.
  rewrite orb_true_iff, andb_true_iff, N.eqb_eq, !N.leb_le. tauto.
Qed.

(** C6. One call of [fetchWithRetry] under the policy [cfg], with
    [retries] retries: it makes at most [retries + 1] attempts; a response
    whose status is not retryable (404, say) is returned at once and ends
    the call; an attempt is followed by another one only if it gave status
    429 or 5xx or a retryable transport error and fewer than [retries]
    attempts preceded it, and the delay slept before the next attempt is
    [min(maxDelayMs, baseDelayMs * 2^attempt)]; and when the responses are
    500, 500, 200 (two retries or more allowed) exactly three attempts are
    made and the 200 response is returned. *)
Theorem fetchWithRetry_policy
        (fetch : jsstring -> RequestInit -> N -> FetchOutcome)
        (url : jsstring) (init : RequestInit) (cfg : RetryCfg) :
  let r := fetchWithRetry fetch url init cfg in
  let retries := cfg_retries cfg in
  (attempts r.2 <= N.to_nat retries + 1)%nat
  /\ isRetryableStatus 404 = false
  /\ (forall i k res,
        r.2 !! i = Some (Fetched url init k (Responded res)) ->
        isRetryableStatus (status res) = false ->
        r.1 = Returned res /\ length r.2 = S i)
  /\ (forall i u n k o,
        r.2 !! i = Some (Fetched u n k o) ->
        (S i < length r.2)%nat ->
        match o with
        | Responded res => status res = 429 \/ (500 <= status res /\ status res <= 599)
        | Rejected err => isRetryableError err = true
        end
        /\ k < retries
        /\ r.2 !! S i = Some (Slept (N.min (cfg_maxDelayMs cfg) (cfg_baseDelayMs cfg * 2 ^ k)))
        /\ exists o', r.2 !! S (S i) = Some (Fetched url init (k + 1) o'))
  /\ (2 <= retries ->
      forall r0 r1 r2,
        fetch url init 0 = Responded r0 -> status r0 = 500 ->
        fetch url init 1 = Responded r1 -> status r1 = 500 ->
        fetch url init 2 = Responded r2 -> status r2 = 200 ->
        r.1 = Returned r2 /\ attempts r.2 = 3%nat).
Proof.
  intros r retries.
  pose proof (fetchWithRetry_trace fetch url init cfg) as Htr. cbv zeta in Htr. fold r in Htr.
  split; [|split; [reflexivity|split; [|split]]].
  - pose proof (RetryTrace_attempts _ _ _ _ _ _ _ Htr). subst retries. lia.
  - intros i k res Hi Hst. eapply RetryTrace_final_status; eauto.
  - intros i u n k o Hi Hlen.
    destruct (RetryTrace_retried _ _ _ _ _ _ _ _ _ _ _ _ Htr Hi Hlen) as (Hre & Hk & Hs & Hn).
    split; [|eauto].
    destruct o as [res|err]; cbn in Hre; [by apply isRetryableStatus_spec | done].
  - intros Hret r0 r1 r2 H0 S0 H1 S1 H2 S2.
    subst r. unfold fetchWithRetry. fold retries.
    destruct (N.to_nat (retries + 1)) as [|[|[|m]]] eqn:E; try lia.
    assert (L0 : (0 <? cfg_retries cfg) = true) by (apply N.ltb_lt; fold retries; lia).
    assert (L1 : (1 <? cfg_retries cfg) = true) by (apply N.ltb_lt; fold retries; lia).
    cbn [fetchLoop]. change (0 + 1) with 1. change (1 + 1) with 2.
    rewrite H0, S0, L0, H1, S1, L1, H2, S2. split; reflexivity.
Qed.

Lemma fetchWithRetry_policy_witness :
  let init := mkRequestInit (js "POST") [] (DeepSeekBody [] [] 7) in
  let cfg := mkRetryCfg None None None None in
  ((fetchWithRetry scenarioA [] init cfg).1
   = Returned (mkResponse 200 (Returned (mkJson None None None None)))
   /\ attempts (fetchWithRetry scenarioA [] init cfg).2 = 3%nat)
  /\ ((fetchWithRetry notFound [] init cfg).1
      = Returned (mkResponse 404 (Returned (mkJson None None None None)))
      /\ length (fetchWithRetry notFound [] init cfg).2 = 1%nat).
Proof.
  intros init cfg. split.
  - destruct (fetchWithRetry_policy scenarioA [] init cfg) as (_ & _ & _ & _ & H).
    eapply H; [vm_compute; discriminate | reflexivity.. ].
  - destruct (fetchWithRetry_policy notFound [] init cfg) as (_ & _ & H & _).
    apply (H 0%nat 0); reflexivity.
Defined.

(** ** Capability router *)

Lemma RetryTrace_completion fetch url init cfg k tr r :
  RetryTrace fetch url init cfg k tr r ->
  exists j o, last tr = Some (Fetched url init j o) /\ r = completionOf o.
Proof.
  induction 1 as [k Hk Hno|k tr r Hyes Hlt Htr (j & o & Hlast & Hr)].
  - eauto.
  - exists j, o. split; [|done].
    destruct (RetryTrace_head _ _ _ _ _ _ _ Htr) as [rest ->]. exact Hlast.
Qed.

Lemma readReply_completion (failure : jsstring) (parse : Json -> Raw) (o : FetchOutcome) :
  match o with
  | Rejected _ => True
  | Responded res => ok res = false
  end ->
  exists e, readReply failure parse (completionOf o) = Thrown e.
Proof.
  destruct o as [res|err]; cbn; [|eauto].
  intros ->. unfold readReply. cbn. destruct (json res); cbn; eauto.
Qed.

(** An adapter whose last attempt is rejected, or answered outside 2xx,
    throws. *)
Lemma adapter_failure fetch url init cfg failure parse u n j o :
  last (fetchWithRetry fetch url init cfg).2 = Some (Fetched u n j o) ->
  match o with
  | Rejected _ => True
  | Responded res => ok res = false
  end ->
  exists e, readReply failure parse (fetchWithRetry fetch url init cfg).1 = Thrown e.
Proof.
  intros Hlast Ho.
  destruct (RetryTrace_completion _ _ _ _ _ _ _ (fetchWithRetry_trace fetch url init cfg))
    as (j' & o' & Hlast' & ->).
  rewrite Hlast' in Hlast. injection Hlast as _ _ _ ->.
  by apply readReply_completion.
Qed.

Lemma dispatch_failure env fetch config messages options u n j o :
  last (dispatch env fetch config messages options).2 = Some (Fetched u n j o) ->
  match o with
  | Rejected _ => True
  | Responded res => ok res = false
  end ->
  exists e, (dispatch env fetch config messages options).1 = Thrown e.
Proof.
  unfold dispatch.
  destruct config as [e|key]; [|cbn [fst snd]; eauto].
  destruct (eqb (provider e) (js "openai")).
  { unfold callOpenAI. destruct (apiKeyOf _); [|cbn [fst snd]; eauto].
    cbn [fst snd]. apply adapter_failure. }
  destruct (eqb (provider e) (js "deepseek")).
  { unfold callDeepSeek. destruct (apiKeyOf _); [|cbn [fst snd]; eauto].
    cbn [fst snd]. apply adapter_failure. }
  destruct (eqb (provider e) (js "gemini")).
  { unfold callGemini. destruct (apiKeyOf _); [|cbn [fst snd]; eauto].
    cbn [fst snd]. apply adapter_failure. }
  cbn [fst snd]; eauto.
Qed.

(** C5. When the adapter fails, [callModelWithConfig] does not throw: it
    resolves to the apology text in chat mode, and in canvas mode to a
    result with empty text whose canvas carries the apology. This covers a
    transport rejection that ends the retries and a reply outside 2xx. *)
Theorem callModelWithConfig_soft_failure
        (env : Env) (fetch : jsstring -> RequestInit -> N -> FetchOutcome)
        (config : Config) (messages : list Message) (options : Options) :
  let target := effectiveOutputTarget options in
  let title := effectiveCanvasTitle options in
  let out := (callModelWithConfig env fetch config messages options).1 in
  let apology :=
    if eqb target (js "canvas")
    then RawObject (Some []) (Some (mkCanvas title unavailable))
    else RawString unavailable in
  (forall e, (dispatch env fetch config messages options).1 = Thrown e -> out = apology)
  /\ (forall u n j err,
        last (dispatch env fetch config messages options).2
        = Some (Fetched u n j (Rejected err)) ->
        out = apology)
  /\ (forall u n j res,
        last (dispatch env fetch config messages options).2
        = Some (Fetched u n j (Responded res)) ->
        ok res = false ->
        out = apology).
Proof.
  intros target title out apology.
  assert (Hthrown : forall e,
             (dispatch env fetch config messages options).1 = Thrown e -> out = apology).
  { intros e He. subst out. unfold callModelWithConfig. by rewrite He. }
  split; [exact Hthrown|]. split.
  - intros u n j err Hlast.
    destruct (dispatch_failure _ _ _ _ _ _ _ _ _ Hlast I) as [e He]. eauto.
  - intros u n j res Hlast Hok.
    destruct (dispatch_failure _ _ _ _ _ _ _ _ _ Hlast Hok) as [e He]. eauto.
Qed.

Lemma callModelWithConfig_soft_failure_witness :
  (callModelWithConfig sampleEnv outage gpt_5 hello chatOptions).1 = RawString unavailable
  /\ (callModelWithConfig sampleEnv outage gpt_5 hello canvasOptions).1
     = RawObject (Some []) (Some (mkCanvas (js "画布") unavailable)).
Proof.
  split.
  - destruct (callModelWithConfig_soft_failure sampleEnv outage gpt_5 hello chatOptions)
      as (_ & _ & H).
    eapply (H _ _ 2); vm_compute; reflexivity.
  - destruct (callModelWithConfig_soft_failure sampleEnv outage gpt_5 hello canvasOptions)
      as (_ & _ & H).
    eapply (H _ _ 2); vm_compute; reflexivity.
Defined.

Lemma canvasShape_canvas (title : jsstring) (raw : Raw) :
  exists text c, canvasShape title raw = RawObject text (Some c).
Proof.
  destruct raw as [s|text [c|]|]; cbn; eauto.
  destruct (_ || _); eauto.
Qed.

Lemma canvas_mode_result env fetch config messages options :
  effectiveOutputTarget options = js "canvas" ->
  exists text c,
    (callModelWithConfig env fetch config messages options).1 = RawObject text (Some c).
Proof.
  intros Htarget. unfold callModelWithConfig, softFailure. rewrite Htarget, eqb_refl.
  destruct (dispatch env fetch config messages options).1 as [raw|e]; cbn [fst].
  - apply canvasShape_canvas.
  - eauto.
Qed.

(** *** The result in canvas mode, for a reply of any shape *)

Lemma lookup_head key v rest : Untyped.lookup key ((key, v) :: rest) = v.
Proof. cbn [Untyped.lookup]. by rewrite eqb_refl. Qed.

Lemma lookup_skip key k v rest :
  eqb key k = false -> Untyped.lookup key ((k, v) :: rest) = Untyped.lookup key rest.
Proof. intros H. cbn [Untyped.lookup]. by rewrite H. Qed.

Lemma wrap_canvas title content :
  Untyped.getOpt (js "canvas") (Untyped.wrap title content)
  = Untyped.VObject [ (js "title", Untyped.VString title); (js "content", content) ].
Proof.
  unfold Untyped.wrap. cbn [Untyped.getOpt].
  rewrite lookup_skip by (by vm_compute). apply lookup_head.
Qed.

Lemma wrap_strings title content :
  canvasStrings (Untyped.wrap title content) = isString content.
Proof.
  unfold canvasStrings. rewrite wrap_canvas. cbn [Untyped.getOpt].
  rewrite lookup_head, (lookup_skip (js "content")) by (by vm_compute).
  by rewrite lookup_head.
Qed.

Lemma keepsCanvas_object raw :
  Untyped.keepsCanvas raw = true ->
  exists properties canvas,
    raw = Untyped.VObject properties
    /\ Untyped.getOpt (js "canvas") raw = Untyped.VObject canvas.
Proof.
  unfold Untyped.keepsCanvas.
  destruct raw as [| |b|n|s|items|properties]; cbn [Untyped.getOpt Untyped.truthy andb];
    try discriminate.
  destruct (Untyped.lookup (js "canvas") properties) as [| |b|n|s|items|canvas];
    cbn [Untyped.getOpt orb]; rewrite ?andb_false_r; try discriminate.
  eauto.
Qed.

Lemma canvasShape_object title raw :
  exists properties canvas,
    Untyped.canvasShape title raw = Untyped.VObject properties
    /\ Untyped.getOpt (js "canvas") (Untyped.canvasShape title raw) = Untyped.VObject canvas.
Proof.
  assert (forall content, exists properties canvas,
             Untyped.wrap title content = Untyped.VObject properties
             /\ Untyped.getOpt (js "canvas") (Untyped.wrap title content)
                = Untyped.VObject canvas) as Hwrap.
  { intros content. rewrite wrap_canvas. unfold Untyped.wrap. eauto. }
  destruct raw as [| |b|n|s|items|properties]; cbn [Untyped.canvasShape]; try apply Hwrap.
  destruct (Untyped.keepsCanvas _) eqn:Hkeep; [|apply Hwrap].
  by apply keepsCanvas_object.
Qed.

Lemma canvasShape_strings title raw :
  canvasStrings (Untyped.canvasShape title raw) = stringsSupplied raw.
Proof.
  unfold stringsSupplied.
  destruct raw as [| |b|n|s|items|properties];
    cbn [Untyped.canvasShape Untyped.isObject]; try (by rewrite wrap_strings).
  - destruct (Untyped.keepsCanvas _); [reflexivity|].
    rewrite wrap_strings. unfold Untyped.orElse.
    by destruct (Untyped.truthy _) eqn:Htext.
  - destruct (Untyped.keepsCanvas _); [reflexivity|].
    rewrite wrap_strings. unfold Untyped.orElse.
    by destruct (Untyped.truthy _) eqn:Htext.
Qed.

(** C10, as the code has it. In canvas mode ([outputTarget = "canvas"])
    the value returned by [callModelWithConfig] is always an object whose
    canvas is an object, whatever the reply and whatever the adapter made
    of it (a string, an object with or without a canvas block, nothing),
    and also when it threw. A string is wrapped as the canvas content with
    the text left empty; an object whose canvas block has a truthy
    content or title is returned as it is, any other object has its text
    (or the empty string) wrapped, and anything else gives an empty
    canvas. The title and the content are strings exactly when what the
    provider supplied for them is: the code converts neither. *)
Theorem callModelWithConfig_canvas_shape
        (stringOf : Untyped.JsValue -> jsstring) (config : Config) (options : Options)
        (reply : Completion Untyped.Response) :
  effectiveOutputTarget options = js "canvas" ->
  let title := effectiveCanvasTitle options in
  let out := Untyped.callModelWithConfig stringOf config options reply in
  (exists properties canvas,
      out = Untyped.VObject properties
      /\ Untyped.getOpt (js "canvas") out = Untyped.VObject canvas)
  /\ (forall raw,
        Untyped.dispatch stringOf config reply = Returned raw ->
        out = Untyped.canvasShape title raw)
  /\ (forall e,
        Untyped.dispatch stringOf config reply = Thrown e ->
        out = Untyped.wrap title (Untyped.VString unavailable))
  /\ (forall raw, exists properties canvas,
        Untyped.canvasShape title raw = Untyped.VObject properties
        /\ Untyped.getOpt (js "canvas") (Untyped.canvasShape title raw)
           = Untyped.VObject canvas)
  /\ (forall s,
        Untyped.canvasShape title (Untyped.VString s)
        = Untyped.wrap title (Untyped.VString s))
  /\ (forall raw,
        Untyped.isObject raw = true ->
        Untyped.canvasShape title raw
        = if Untyped.keepsCanvas raw then raw
          else Untyped.wrap title
                 (Untyped.orElse (Untyped.getOpt (js "text") raw) (Untyped.VString [])))
  /\ (forall raw,
        Untyped.isObject raw = false -> isString raw = false ->
        Untyped.canvasShape title raw = Untyped.wrap title (Untyped.VString []))
  /\ (forall raw, canvasStrings (Untyped.canvasShape title raw) = stringsSupplied raw).
Proof.
  intros Htarget title out.
  assert (forall raw, Untyped.dispatch stringOf config reply = Returned raw ->
                      out = Untyped.canvasShape title raw) as Hraw.
  { intros raw Hraw. subst out. unfold Untyped.callModelWithConfig.
    by rewrite Hraw, Htarget, eqb_refl. }
  assert (forall e, Untyped.dispatch stringOf config reply = Thrown e ->
                    out = Untyped.wrap title (Untyped.VString unavailable)) as Hthrown.
  { intros e He. subst out. unfold Untyped.callModelWithConfig, Untyped.softFailure.
    by rewrite He, Htarget, eqb_refl. }
  split; [|split; [exact Hraw|split; [exact Hthrown|split; [|split; [|split; [|split]]]]]].
  - destruct (Untyped.dispatch stringOf config reply) as [raw|e] eqn:Hd.
    + rewrite (Hraw raw eq_refl). apply canvasShape_object.
    + rewrite (Hthrown e eq_refl), wrap_canvas. unfold Untyped.wrap. eauto.
  - apply canvasShape_object.
  - reflexivity.
  - by intros [| |b|n|s|items|properties].
  - by intros [| |b|n|s|items|properties].
  - apply canvasShape_strings.
Qed.

Lemma callModelWithConfig_canvas_shape_witness :
  Untyped.callModelWithConfig sampleStringOf deepseek_chat canvasOptions
                              (replied (chatCompletion (Untyped.VString (js "draft"))))
  = Untyped.wrap (js "画布") (Untyped.VString (js "draft")).
Proof.
  destruct (callModelWithConfig_canvas_shape
              sampleStringOf deepseek_chat canvasOptions
              (replied (chatCompletion (Untyped.VString (js "draft")))))
    as (_ & H & _); [reflexivity|].
  rewrite (H (Untyped.VString (js "draft"))); [reflexivity | by vm_compute].
Defined.

(** C10 as stated fails on the strings: a canvas item whose title is the
    number 7 is copied as it is by [extractTextAndCanvas], and the router
    returns the object unchanged. *)
Lemma callModelWithConfig_canvas_shape_counterexample :
  let out := Untyped.callModelWithConfig sampleStringOf gpt_5 canvasOptions
                                         (replied numberedCanvas) in
  effectiveOutputTarget canvasOptions = js "canvas"
  /\ Untyped.extractTextAndCanvas sampleStringOf numberedCanvas
     = Returned (Untyped.VObject
                   [ (js "text", Untyped.VString []);
                     (js "canvas",
                      Untyped.VObject [ (js "title", Untyped.VNumber seven);
                                        (js "content", Untyped.VString []) ]) ])
  /\ out = Untyped.VObject
             [ (js "text", Untyped.VString []);
               (js "canvas",
                Untyped.VObject [ (js "title", Untyped.VNumber seven);
                                  (js "content", Untyped.VString []) ]) ]
  /\ Untyped.getOpt (js "title") (Untyped.getOpt (js "canvas") out) = Untyped.VNumber seven
  /\ canvasStrings out = false.
Proof. vm_compute. repeat split; reflexivity. Qed.

Lemma RetryTrace_requests fetch url init cfg k tr r u n j o :
  RetryTrace fetch url init cfg k tr r ->
  Fetched u n j o ∈ tr ->
  u = url /\ n = init.
Proof.
  induction 1 as [k Hk Hno|k tr r Hyes Hlt Htr IH]; intros Hin.
  - apply list_elem_of_singleton in Hin. by injection Hin as -> -> _ _.
  - apply elem_of_cons in Hin as [Hin|Hin]; [by injection Hin as -> -> _ _|].
    apply elem_of_cons in Hin as [Hin|Hin]; [discriminate|]. by apply IH.
Qed.

Lemma fetchWithRetry_requests fetch url init cfg u n j o :
  Fetched u n j o ∈ (fetchWithRetry fetch url init cfg).2 -> u = url /\ n = init.
Proof.
  intros Hin.
  eapply RetryTrace_requests; [apply (fetchWithRetry_trace fetch url init cfg) | exact Hin].
Qed.

Lemma dispatch_gated env fetch config messages options u n j o :
  Fetched u n j o ∈ (dispatch env fetch config messages options).2 ->
  gated config options (body n).
Proof.
  unfold dispatch.
  destruct config as [e|key]; [|cbn [snd]; by intros ?%elem_of_nil].
  set (d := effectiveDepthMode (Registered e) options).
  set (w := effectiveWebSearch (Registered e) options).
  assert (Hd : d = true ->
               opt_depthMode options = true
               /\ capability ModelConfig.reasoning (Registered e) = true)
    by (subst d; unfold effectiveDepthMode; apply andb_prop).
  assert (Hw : w = true ->
               opt_webSearch options = true
               /\ capability ModelConfig.webSearch (Registered e) = true)
    by (subst w; unfold effectiveWebSearch; apply andb_prop).
  clearbody d w.
  destruct (eqb (provider e) (js "openai")).
  { unfold callOpenAI. destruct (apiKeyOf _); cbn [snd]; [|by intros ?%elem_of_nil].
    intros [_ ->]%fetchWithRetry_requests. cbn [body]. unfold openAIBody, gated. split.
    - destruct d; [auto|congruence].
    - destruct w; [auto|]. cbn [andb]. congruence. }
  destruct (eqb (provider e) (js "deepseek")).
  { unfold callDeepSeek. destruct (apiKeyOf _); cbn [snd]; [|by intros ?%elem_of_nil].
    intros [_ ->]%fetchWithRetry_requests. cbn [body gated].
    destruct d; [auto|discriminate]. }
  destruct (eqb (provider e) (js "gemini")).
  { unfold callGemini. destruct (apiKeyOf _); cbn [snd]; [|by intros ?%elem_of_nil].
    intros [_ ->]%fetchWithRetry_requests. cbn [body gated].
    destruct d; [auto|discriminate]. }
  cbn [snd]. by intros ?%elem_of_nil.
Qed.

Lemma dispatch_flags env fetch config config' messages options :
  config_provider config' = config_provider config ->
  config_model config' = config_model config ->
  capability ModelConfig.reasoning config' = capability ModelConfig.reasoning config ->
  capability ModelConfig.webSearch config' = capability ModelConfig.webSearch config ->
  dispatch env fetch config' messages options = dispatch env fetch config messages options.
Proof.
  intros Hp Hm Hr Hw. unfold dispatch, effectiveDepthMode, effectiveWebSearch.
  rewrite Hr, Hw.
  destruct config as [e|key], config' as [e'|key']; cbn in Hp, Hm; try discriminate;
    [|reflexivity].
  injection Hp as ->. injection Hm as ->. reflexivity.
Qed.

(** C1, as the code has it. Reasoning and web search reach a provider
    request only if the caller asked for the feature and the model's
    capability flag is set: the OpenAI body carries [reasoning] (resp.
    [tools]) only then, and the chat-completion providers get the low
    temperature 0.2 only then. The canvas flag (like the vision flag) is
    not read: the result depends on the capabilities through [reasoning]
    and [webSearch] alone, and a canvas-shaped result is produced whenever
    the caller's output target is the canvas. *)
Theorem capability_gating
        (env : Env) (fetch : jsstring -> RequestInit -> N -> FetchOutcome)
        (config : Config) (messages : list Message) (options : Options) :
  let run := callModelWithConfig env fetch config messages options in
  (forall u n j o,
     Fetched u n j o ∈ run.2 ->
     match body n with
     | OpenAIBody _ _ reasoning tools =>
       (reasoning <> None ->
        opt_depthMode options = true /\ capability ModelConfig.reasoning config = true)
       /\ (tools <> None ->
           opt_webSearch options = true /\ capability ModelConfig.webSearch config = true)
     | DeepSeekBody _ _ tenths
     | GeminiBody _ (mkGenerationConfig tenths) =>
       tenths = 2 ->
       opt_depthMode options = true /\ capability ModelConfig.reasoning config = true
     end)
  /\ (forall config',
        config_provider config' = config_provider config ->
        config_model config' = config_model config ->
        capability ModelConfig.reasoning config' = capability ModelConfig.reasoning config ->
        capability ModelConfig.webSearch config' = capability ModelConfig.webSearch config ->
        callModelWithConfig env fetch config' messages options = run)
  /\ (effectiveOutputTarget options = js "canvas" ->
      exists text c, run.1 = RawObject text (Some c)).
Proof.
  intros run. split; [|split].
  - intros u n j o Hin. apply (dispatch_gated env fetch config messages options u n j o).
    subst run. unfold callModelWithConfig in Hin.
    by destruct (dispatch env fetch config messages options).1.
  - intros config' Hp Hm Hr Hw. subst run. unfold callModelWithConfig.
    by rewrite (dispatch_flags env fetch config config' messages options Hp Hm Hr Hw).
  - apply canvas_mode_result.
Qed.

Lemma capability_gating_witness :
  (callModelWithConfig sampleEnv (answers "draft")
     (Registered (entry "deepseek" "deepseek-chat" false false true true)) hello canvasOptions)
  = callModelWithConfig sampleEnv (answers "draft") deepseek_chat hello canvasOptions
  /\ exists text c,
      (callModelWithConfig sampleEnv (answers "draft") deepseek_chat hello canvasOptions).1
      = RawObject text (Some c).
Proof.
  destruct (capability_gating sampleEnv (answers "draft") deepseek_chat hello canvasOptions)
    as (_ & Hsame & Hcanvas).
  split.
  - apply Hsame; reflexivity.
  - apply Hcanvas. reflexivity.
Defined.

(** C1 as stated fails on the canvas: [deepseek-chat] has the canvas flag
    off, and a canvas-mode call on it yields a canvas result. *)
Lemma capability_gating_counterexample :
  ModelConfig.get (js "deepseek-chat") = Some deepseek_chat
  /\ capability ModelConfig.canvas deepseek_chat = false
  /\ (callModelWithConfig sampleEnv (answers "draft") deepseek_chat hello canvasOptions).1
     = RawObject (Some []) (Some (mkCanvas (js "画布") (js "draft"))).
Proof. vm_compute. repeat split; reflexivity. Qed.

(** ** Model resolution *)

Lemma get_default : ModelConfig.get (js "gpt-5-mini") = Some (Registered gpt_5_mini).
Proof. vm_compute. reflexivity. Qed.

Lemma resolveConfig_cases (modelId : jsstring) :
  resolveConfig modelId
  = match MODEL_MAP !! modelId with
    | Some e => Returned (Registered e)
    | None =>
      if bool_decide (modelId ∈ objectPrototypeKeys)
      then Returned (Inherited modelId)
      else Returned (Registered gpt_5_mini)
    end.
Proof.
  unfold resolveConfig. unfold ModelConfig.get at 1.
  destruct (MODEL_MAP !! modelId) as [e|]; [reflexivity|].
  destruct (bool_decide (modelId ∈ objectPrototypeKeys)); [reflexivity|].
  by rewrite get_default.
Qed.

Lemma resolveConfig_returns_config (modelId : jsstring) :
  exists config, resolveConfig modelId = Returned config.
Proof.
  rewrite resolveConfig_cases.
  destruct (MODEL_MAP !! modelId); [eauto|]. destruct (bool_decide _); eauto.
Qed.

(** C2, as the code has it. Resolving the model of a request whose id is
    not in the registry does not fail: no error is thrown, so the request
    is not rejected for its model id; and for an id that the lookup does
    not find, the configuration resolved is that of the default model
    [gpt-5-mini]. A registered id resolves to its own entry. *)
Theorem resolveConfig_default (modelId : jsstring) :
  (MODEL_MAP !! modelId = None ->
   exists config, resolveConfig modelId = Returned config)
  /\ (ModelConfig.get modelId = None ->
      resolveConfig modelId = Returned (Registered gpt_5_mini))
  /\ (forall e, MODEL_MAP !! modelId = Some e ->
                resolveConfig modelId = Returned (Registered e)).
Proof.
  split; [|split].
  - intros _. apply resolveConfig_returns_config.
  - intros Hget. unfold resolveConfig. by rewrite Hget, get_default.
  - intros e He. rewrite resolveConfig_cases. by rewrite He.
Qed.

Lemma resolveConfig_default_witness :
  (exists config, resolveConfig (js "gpt-4") = Returned config)
  /\ resolveConfig (js "gpt-4") = Returned (Registered gpt_5_mini)
  /\ resolveConfig (js "deepseek-chat") = Returned deepseek_chat.
Proof.
  split; [|split].
  - apply (proj1 (resolveConfig_default (js "gpt-4"))). reflexivity.
  - apply (proj1 (proj2 (resolveConfig_default (js "gpt-4")))). vm_compute. reflexivity.
  - apply (proj2 (proj2 (resolveConfig_default (js "deepseek-chat")))).
    vm_compute. reflexivity.
Defined.

(** C2 as stated fails: [gpt-4] is not in the registry, yet resolving it
    throws nothing and yields the entry of another model. *)
Lemma resolveConfig_counterexample :
  MODEL_MAP !! js "gpt-4" = None
  /\ isThrown (resolveConfig (js "gpt-4")) = false
  /\ resolveConfig (js "gpt-4")
     = Returned (Registered (entry "openai" "gpt-5-mini" false true true true)).
Proof. vm_compute. repeat split; reflexivity. Qed.

(** ** Canvas state machine *)

Lemma trim_blank_line (s : jsstring) : trim ([10; 10] ++ s) = trim s.
Proof. reflexivity. Qed.

Lemma present_truthy (v : option jsstring) (s : jsstring) :
  present v = Some s -> v = Some s /\ truthy s = true.
Proof.
  destruct v as [x|]; cbn; [|discriminate].
  destruct (truthy x) eqn:Hx; [|discriminate]. by intros [= <-].
Qed.

Section CanvasProps.

Variable env : Env.
Variable fetch : jsstring -> RequestInit -> N -> FetchOutcome.
Variable JSON_parse : jsstring -> Completion JsonValue.
Variable JSON_stringify : CanvasObj -> jsstring.
Variables randomUUID now : jsstring.

#[local] Abbreviation askModel := (askModel env fetch JSON_parse).
#[local] Abbreviation postMessage :=
  (postMessage env fetch JSON_parse JSON_stringify randomUUID now).
#[local] Abbreviation findExistingCanvas := (findExistingCanvas JSON_parse).

Lemma targetOf_canvas (body : Server.Body) :
  outputTarget body = Some (js "canvas") -> targetOf body = js "canvas".
Proof. intros H. unfold targetOf. by rewrite bool_decide_eq_true_2. Qed.

(** A canvas-mode turn always completes, and what it writes is the
    merge of the prior canvas and the chunk read off the model's reply. *)
Lemma postMessage_canvas (body : Server.Body) (rows : list Row) (crows : list jsstring) :
  outputTarget body = Some (js "canvas") ->
  let wantNewCanvas := wantNewCanvasOf body in
  let existingCanvas := findExistingCanvas (js "canvas") wantNewCanvas crows in
  exists replyText canvas reply,
    (askModel body rows crows ≫= splitResult) = Returned (replyText, canvas)
    /\ postMessage body rows crows = Returned reply
    /\ reply_canvas reply
       = Some (Document
                 (canvasObjOf randomUUID now wantNewCanvas existingCanvas
                    (canvasTitleOf existingCanvas)
                    (mergeCanvas (baseOf wantNewCanvas existingCanvas)
                                 (chunkOf replyText canvas)))).
Proof.
  intros Htarget wantNewCanvas existingCanvas.
  unfold Server.postMessage, Server.askModel.
  rewrite (targetOf_canvas body Htarget). fold wantNewCanvas existingCanvas.
  rewrite resolveConfig_cases.
  set (messages := messagesForModel rows (js "canvas") wantNewCanvas existingCanvas).
  set (options := mkOptions (depthMode body) true (Some (js "canvas"))
                            (Some (canvasTitleOf existingCanvas))).
  assert (Hcall : forall config, exists text c,
             (callModelWithConfig env fetch config messages options).1
             = RawObject text (Some c))
    by (intros config; by apply canvas_mode_result).
  destruct (MODEL_MAP !! modelId body) as [e|];
    [|destruct (bool_decide (modelId body ∈ objectPrototypeKeys))];
    cbn [mbind Completion_bind];
    match goal with
    | |- context [callModelWithConfig env fetch ?config messages options] =>
      destruct (Hcall config) as (text & c & ->)
    end;
    exists (default [] (present text)), (Some c); eexists; cbn [mbind Completion_bind splitResult];
    rewrite eqb_refl; done.
Qed.

Lemma canvasTitleOf_truthy (existingCanvas : option StoredCanvas) :
  truthy (canvasTitleOf existingCanvas) = true.
Proof.
  destruct existingCanvas as [c|]; [|reflexivity]. cbn.
  destruct (present (sc_title c)) as [t|] eqn:Ht; [|reflexivity].
  by apply present_truthy in Ht as [_ ?].
Qed.


(** C8. A canvas-mode turn without the "new" intent, on a prior canvas
    with content [X] that carries an id and a title (as every canvas the
    handler writes does, second part), completes and writes a canvas with
    the same id and title whose content is [X], a blank line and the new
    chunk, trimmed of surrounding white space. *)
Theorem append_canvas (body : Server.Body) (rows : list Row) (crows : list jsstring) :
  outputTarget body = Some (js "canvas") ->
  (forall prior i t,
     canvasMode body <> Some (js "new") ->
     findExistingCanvas (js "canvas") false crows = Some prior ->
     sc_id prior = Some i -> i <> [] ->
     sc_title prior = Some t -> t <> [] ->
     exists replyText canvas reply,
       (askModel body rows crows ≫= splitResult) = Returned (replyText, canvas)
       /\ postMessage body rows crows = Returned reply
       /\ reply_canvas reply
          = Some (Document
                    (mkCanvasObj i t
                       (trim (sc_content prior ++ [10; 10] ++ chunkOf replyText canvas))
                       now)))
  /\ (exists reply c,
        postMessage body rows crows = Returned reply
        /\ reply_canvas reply = Some (Document c)
        /\ c_title c <> []
        /\ (randomUUID <> [] -> c_id c <> [])).
Proof.
  intros Htarget.
  destruct (postMessage_canvas body rows crows Htarget)
    as (replyText & canvas & reply & Hask & Hpost & Hcanvas).
  split.
  - intros prior i t Hmode Hprior Hid Hi Htitle Ht.
    exists replyText, canvas, reply. split; [done|]. split; [done|].
    rewrite Hcanvas. unfold wantNewCanvasOf.
    rewrite bool_decide_eq_false_2 by done. rewrite Hprior.
    unfold canvasObjOf, canvasTitleOf, baseOf, mergeCanvas. rewrite Hid, Htitle.
    destruct i as [|ci i]; [done|]. destruct t as [|ct t]; [done|].
    cbn [present truthy default negb andb].
    destruct (sc_content prior) as [|cx x]; reflexivity.
  - eexists reply, _. split; [done|]. split; [exact Hcanvas|].
    unfold canvasObjOf. cbn [c_title c_id]. split.
    + pose proof (canvasTitleOf_truthy
                    (findExistingCanvas (js "canvas") (wantNewCanvasOf body) crows)) as Ht.
      by destruct (canvasTitleOf _).
    + intros Huuid.
      destruct (findExistingCanvas (js "canvas") (wantNewCanvasOf body) crows) as [c|];
        [|done].
      destruct (present (sc_id c)) as [i|] eqn:Hi; [|done].
      apply present_truthy in Hi as [_ Hi].
      destruct (negb (wantNewCanvasOf body)); [|done]. by destruct i.
Qed.

End CanvasProps.



Lemma append_canvas_witness :
  exists replyText canvas reply,
    (askModel sampleEnv (answers "Y") storedPlan appendCanvasBody history [markerRow]
       ≫= splitResult) = Returned (replyText, canvas)
    /\ postMessage sampleEnv (answers "Y") storedPlan printCanvas (js "uuid-2") (js "now")
                   appendCanvasBody history [markerRow] = Returned reply
    /\ reply_canvas reply
       = Some (Document
                 (mkCanvasObj (js "c-1") (js "Plan")
                    (trim (js "X" ++ [10; 10] ++ chunkOf replyText canvas)) (js "now"))).
Proof.
  apply (proj1 (append_canvas sampleEnv (answers "Y") storedPlan printCanvas
                              (js "uuid-2") (js "now") appendCanvasBody history [markerRow]
                              eq_refl)
               (mkStoredCanvas (Some (js "c-1")) (Some (js "Plan")) (js "X")));
    try reflexivity; discriminate.
Defined.

Example scenario_C :
  match postMessage sampleEnv (answers "Y") storedPlan printCanvas (js "uuid-2") (js "now")
                    appendCanvasBody history [markerRow] with
  | Returned reply =>
    reply_canvas reply
    = Some (Document (mkCanvasObj (js "c-1") (js "Plan") (js "X" ++ [10; 10] ++ js "Y")
                                  (js "now")))
  | Thrown _ => False
  end.
Proof. vm_compute. reflexivity. Qed.

(** ** Archive and document extraction *)

Lemma sumBytes_app (l1 l2 : list (jsstring * N)) :
  sumBytes (l1 ++ l2) = sumBytes l1 + sumBytes l2.
Proof.
  induction l1 as [|e l1 IH]; [reflexivity|].
  change (sumBytes ((e :: l1) ++ l2)) with (e.2 + sumBytes (l1 ++ l2)).
  change (sumBytes (e :: l1)) with (e.2 + sumBytes l1).
  rewrite IH. lia.
Qed.

Lemma Within_trans (w1 w2 w3 : Run) : Within w1 w2 -> Within w2 w3 -> Within w1 w3.
Proof.
  intros (Hf1 & Hb1 & new1 & He1 & Hn1 & Hs1) (Hf2 & Hb2 & new2 & He2 & Hn2 & Hs2).
  split; [lia|]. split; [lia|].
  exists (new1 ++ new2). rewrite He2, He1, <- app_assoc. split; [done|].
  rewrite length_app, sumBytes_app. lia.
Qed.

(** Counting an entry, or its bytes, expands nothing. *)
Lemma Within_count (w w' : Run) :
  files (zipState w) <= files (zipState w') ->
  bytes (zipState w) <= bytes (zipState w') ->
  expanded w' = expanded w ->
  Within w w'.
Proof.
  intros Hf Hb He. split; [done|]. split; [done|].
  exists []. rewrite app_nil_r. split; [done|]. unfold capFiles, capBytes. cbn. lia.
Qed.

Lemma Within_refl (w : Run) : Within w w.
Proof. apply Within_count; reflexivity. Qed.

(** An entry counted below both limits may be expanded. *)
Lemma Within_expand (w : Run) (path : jsstring) (n : N) :
  files (zipState w) + 1 <= MAX_ZIP_FILES ->
  bytes (zipState w) + n <= MAX_ZIP_TOTAL_BYTES ->
  Within w (expand path n (countBytes n (countFile w))).
Proof.
  intros Hf Hb. split; [cbn; lia|]. split; [cbn; lia|].
  exists [(path, n)]. split; [done|]. unfold capFiles, capBytes. cbn. lia.
Qed.

Section ExtractorProps.

Variable extname : jsstring -> jsstring.
Variable toLowerCase : jsstring -> jsstring.

#[local] Abbreviation analyze := (analyzeFileBuffer extname toLowerCase).

Lemma zipLoop_within
      (rec : jsstring -> Buffer -> N -> Run -> Completion jsstring * Run)
      (depth : N) (fs : list ZipFile) :
  Forall (entryBuffer (fun b => forall name d w, Within w (rec name b d w).2)) fs ->
  forall out w, Within w (zipLoop rec depth fs out w).2.
Proof.
  induction 1 as [|[type path fbuffer] rest Hf _ IH]; intros out w; [apply Within_refl|].
  cbn [zipLoop].
  destruct (negb (eqb type (js "File"))); [apply IH|].
  destruct (N.ltb_spec MAX_ZIP_FILES (files (zipState (countFile w)))) as [_|Hfiles];
    [apply Within_count; cbn; (lia || reflexivity)|].
  destruct fbuffer as [childBuf|e]; [|apply Within_count; cbn; (lia || reflexivity)].
  destruct (N.ltb_spec MAX_ZIP_TOTAL_BYTES
                       (bytes (zipState (countBytes (buf_length childBuf) (countFile w)))))
    as [_|Hbytes]; [apply Within_count; cbn; (lia || reflexivity)|].
  cbn in Hfiles, Hbytes, Hf.
  set (w' := expand path (buf_length childBuf) (countBytes (buf_length childBuf) (countFile w))).
  assert (Hw' : Within w w') by (by apply Within_expand).
  specialize (Hf path (depth + 1) w').
  cbv zeta.
  destruct (rec path childBuf (depth + 1) w') as [[text|e] w''];
    cbn [fst snd] in *.
  - eapply Within_trans; [|apply IH]. by eapply Within_trans.
  - by eapply Within_trans.
Qed.

(** The list of expanded entries is only written: the text and the
    counters do not depend on it. *)
Lemma zipLoop_relog
      (rec : jsstring -> Buffer -> N -> Run -> Completion jsstring * Run)
      (depth : N) (fs : list ZipFile) :
  Forall (entryBuffer (fun b => forall name d z l,
                           rec name b d (mkRun z l) = relog l (rec name b d (mkRun z []))))
         fs ->
  forall out z l,
    zipLoop rec depth fs out (mkRun z l) = relog l (zipLoop rec depth fs out (mkRun z [])).
Proof.
  induction 1 as [|[type path fbuffer] rest Hf _ IH]; intros out z l.
  { unfold relog. cbn [fst snd zipState expanded]. by rewrite app_nil_r. }
  cbn [zipLoop].
  destruct (negb (eqb type (js "File"))); [apply IH|].
  unfold countFile. cbn [zipState expanded files bytes].
  destruct (MAX_ZIP_FILES <? files z + 1);
    [unfold relog; cbn [fst snd zipState expanded]; by rewrite app_nil_r|].
  destruct fbuffer as [childBuf|e]; [|unfold relog; cbn [fst snd zipState expanded]; by rewrite app_nil_r].
  unfold countBytes. cbn [zipState expanded files bytes].
  destruct (MAX_ZIP_TOTAL_BYTES <? bytes z + buf_length childBuf);
    [unfold relog; cbn [fst snd zipState expanded]; by rewrite app_nil_r|].
  unfold expand. cbn [zipState expanded app]. cbv zeta.
  cbn [entryBuffer] in Hf. rewrite (Hf path (depth + 1) _ (l ++ [(path, buf_length childBuf)])).
  rewrite (Hf path (depth + 1) _ [(path, buf_length childBuf)]).
  destruct (rec path childBuf (depth + 1) _) as [[text|e] [z' l']].
  - unfold relog. cbn [fst snd zipState expanded].
    rewrite (IH _ z' ((l ++ [(path, buf_length childBuf)]) ++ l')).
    rewrite (IH _ z' ([(path, buf_length childBuf)] ++ l')).
    unfold relog. cbn [fst snd zipState expanded]. by rewrite <- !app_assoc.
  - unfold relog. cbn [fst snd zipState expanded]. by rewrite <- app_assoc.
Qed.

Lemma analyzeFileBuffer_relog (buffer : Buffer) :
  forall fileName depth z l,
    analyze fileName buffer depth (mkRun z l)
    = relog l (analyze fileName buffer depth (mkRun z [])).
Proof.
  induction buffer as [n utf8 unzipped pdf xlsx vision IH] using Buffer_nested_ind.
  intros fileName depth z l. cbn [analyzeFileBuffer].
  assert (Hsame : forall c : Completion jsstring,
             (c, mkRun z l) = relog l (c, mkRun z []))
    by (intros c; unfold relog; cbn [fst snd zipState expanded]; by rewrite app_nil_r).
  destruct (3 <? depth); [apply Hsame|].
  destruct (eqb _ _).
  { destruct unzipped as [fs|e]; [|apply Hsame]. by apply zipLoop_relog. }
  destruct (bool_decide _); [apply Hsame|].
  destruct (eqb _ _); [apply Hsame|].
  destruct (eqb _ _); [apply Hsame|].
  destruct (bool_decide _); [destruct (vision _); apply Hsame|].
  destruct utf8; apply Hsame.
Qed.

Lemma analyzeFileBuffer_within (buffer : Buffer) :
  forall fileName depth w, Within w (analyze fileName buffer depth w).2.
Proof.
  induction buffer as [n utf8 unzipped pdf xlsx vision IH] using Buffer_nested_ind.
  intros fileName depth w. cbn [analyzeFileBuffer].
  destruct (3 <? depth); [apply Within_refl|].
  destruct (eqb _ _).
  { destruct unzipped as [fs|e]; [|apply Within_refl]. by apply zipLoop_within. }
  destruct (bool_decide _); [apply Within_refl|].
  destruct (eqb _ _); [apply Within_refl|].
  destruct (eqb _ _); [apply Within_refl|].
  destruct (bool_decide _); [destruct (vision _); apply Within_refl|].
  destruct utf8; apply Within_refl.
Qed.

(** A loop that has worked through its first entries without crossing a
    limit goes on with the entries that follow. *)
Lemma zipLoop_app
      (rec : jsstring -> Buffer -> N -> Run -> Completion jsstring * Run)
      (depth : N) (before : list ZipFile) :
  forall out w out1 w1,
    zipLoop rec depth before out w = (Returned out1, w1) ->
    files (zipState w1) <= MAX_ZIP_FILES ->
    bytes (zipState w1) <= MAX_ZIP_TOTAL_BYTES ->
    forall l, zipLoop rec depth (before ++ l) out w = zipLoop rec depth l out1 w1.
Proof.
  induction before as [|[type path fbuffer] before IH]; intros out w out1 w1 Hrun Hfiles Hbytes l.
  { cbn in Hrun. by injection Hrun as -> ->. }
  cbn [app]. cbn [zipLoop] in Hrun |- *.
  destruct (negb (eqb type (js "File"))); [by apply IH|].
  destruct (N.ltb_spec MAX_ZIP_FILES (files (zipState (countFile w)))) as [Hgt|_].
  { injection Hrun as _ <-. lia. }
  destruct fbuffer as [childBuf|e]; [|discriminate].
  destruct (N.ltb_spec MAX_ZIP_TOTAL_BYTES
                       (bytes (zipState (countBytes (buf_length childBuf) (countFile w)))))
    as [Hgt|_].
  { injection Hrun as _ <-. lia. }
  cbv zeta in Hrun |- *.
  destruct (rec path childBuf (depth + 1) _).1; [by apply IH | discriminate].
Qed.

(** The entry counter ends at most one above the limit for each archive
    that is open when the limit is crossed. *)
Lemma zipLoop_files
      (rec : jsstring -> Buffer -> N -> Run -> Completion jsstring * Run)
      (depth : N) (fs : list ZipFile) :
  depth <= 3 ->
  Forall (entryBuffer (fun b => forall name d w,
                           files (zipState w) <= MAX_ZIP_FILES ->
                           files (zipState (rec name b d w).2) <= MAX_ZIP_FILES + (4 - d)))
         fs ->
  forall out w,
    files (zipState w) <= MAX_ZIP_FILES + (3 - depth) ->
    files (zipState (zipLoop rec depth fs out w).2) <= MAX_ZIP_FILES + (4 - depth).
Proof.
  intros Hdepth.
  induction 1 as [|[type path fbuffer] rest Hf _ IH]; intros out w Hw; [cbn; lia|].
  cbn [zipLoop].
  destruct (negb (eqb type (js "File"))); [by apply IH|].
  destruct (N.ltb_spec MAX_ZIP_FILES (files (zipState (countFile w)))) as [_|Hfiles];
    [cbn; lia|].
  cbn in Hfiles.
  destruct fbuffer as [childBuf|e]; [|cbn; lia].
  destruct (MAX_ZIP_TOTAL_BYTES <? _); [cbn; lia|].
  cbv zeta. cbn [entryBuffer] in Hf.
  set (w' := expand path (buf_length childBuf) (countBytes (buf_length childBuf) (countFile w))).
  specialize (Hf path (depth + 1) w' Hfiles).
  replace (4 - (depth + 1)) with (3 - depth) in Hf by lia.
  destruct (rec path childBuf (depth + 1) w') as [[text|e] w'']; cbn [fst snd] in *.
  - by apply IH.
  - lia.
Qed.

Lemma analyzeFileBuffer_files (buffer : Buffer) :
  forall fileName depth w,
    files (zipState w) <= MAX_ZIP_FILES ->
    files (zipState (analyze fileName buffer depth w).2) <= MAX_ZIP_FILES + (4 - depth).
Proof.
  induction buffer as [n utf8 unzipped pdf xlsx vision IH] using Buffer_nested_ind.
  intros fileName depth w Hw. cbn [analyzeFileBuffer].
  destruct (N.ltb_spec 3 depth) as [_|Hdepth]; [cbn [snd]; lia|].
  destruct (eqb _ _).
  { destruct unzipped as [fs|e]; [|cbn [snd]; lia].
    apply zipLoop_files; [exact Hdepth | exact IH | lia]. }
  destruct (bool_decide _); [cbn [snd]; lia|].
  destruct (eqb _ _); [cbn [snd]; lia|].
  destruct (eqb _ _); [cbn [snd]; lia|].
  destruct (bool_decide _); [destruct (vision _); cbn [snd]; lia|].
  destruct utf8; cbn [snd]; lia.
Qed.

(** C3, as the code has it. Whatever the archive tree and its nesting,
    one extraction expands (hands to the recursive analysis) at most 200
    entries, of at most 20 MiB in total, and counts at most 204 entries.
    The entry on which a limit is crossed is itself counted, and for the
    byte limit read, before the check: in a loop that has worked through
    the entries before it within both limits, such an entry ends the loop,
    which returns (it does not throw) the text accumulated so far with the
    diagnostic note appended, whatever entries remain. *)
Theorem analyzeFileBuffer_quota (fileName : jsstring) (buffer : Buffer) :
  let r := analyzeUpload extname toLowerCase fileName buffer in
  (length (expanded r.2) <= 200)%nat
  /\ sumBytes (expanded r.2) <= 20 * 1024 * 1024
  /\ files (zipState r.2) <= 204
  /\ (forall depth before path fbuffer rest out w out1 w1,
        zipLoop analyze depth before out w = (Returned out1, w1) ->
        files (zipState w1) <= MAX_ZIP_FILES ->
        bytes (zipState w1) <= MAX_ZIP_TOTAL_BYTES ->
        let entries := before ++ mkZipFile (js "File") path fbuffer :: rest in
        (MAX_ZIP_FILES < files (zipState w1) + 1 ->
         zipLoop analyze depth entries out w
         = (Returned (out1 ++ filesNote), countFile w1))
        /\ (forall childBuf,
              fbuffer = Returned childBuf ->
              files (zipState w1) + 1 <= MAX_ZIP_FILES ->
              MAX_ZIP_TOTAL_BYTES < bytes (zipState w1) + buf_length childBuf ->
              zipLoop analyze depth entries out w
              = (Returned (out1 ++ bytesNote),
                 countBytes (buf_length childBuf) (countFile w1)))).
Proof.
  intros r.
  destruct (analyzeFileBuffer_within buffer fileName 0 freshRun)
    as (_ & _ & new & Hnew & Hcount & Hsum).
  fold (analyzeUpload extname toLowerCase fileName buffer) in Hnew, Hcount, Hsum.
  fold r in Hnew, Hcount, Hsum. cbn in Hnew.
  split; [|split; [|split]].
  - rewrite Hnew. unfold capFiles, MAX_ZIP_FILES in Hcount. cbn in Hcount. lia.
  - rewrite Hnew. unfold capBytes, MAX_ZIP_TOTAL_BYTES in Hsum. cbn in Hsum. lia.
  - pose proof (analyzeFileBuffer_files buffer fileName 0 freshRun) as Hfiles.
    fold (analyzeUpload extname toLowerCase fileName buffer) in Hfiles. fold r in Hfiles.
    unfold MAX_ZIP_FILES in Hfiles. cbn [freshRun zipState files] in Hfiles. lia.
  - intros depth before path fbuffer rest out w out1 w1 Hrun Hfiles Hbytes entries.
    subst entries. rewrite (zipLoop_app analyze depth before out w out1 w1 Hrun Hfiles Hbytes).
    cbn [zipLoop]. rewrite eqb_refl. cbn [negb]. split.
    + intros Hcross.
      destruct (N.ltb_spec MAX_ZIP_FILES (files (zipState (countFile w1)))) as [_|Hle];
        [reflexivity|cbn in Hle; lia].
    + intros childBuf -> Hcount' Hcross.
      destruct (N.ltb_spec MAX_ZIP_FILES (files (zipState (countFile w1)))) as [Hgt|_];
        [cbn in Hgt; lia|].
      destruct (N.ltb_spec MAX_ZIP_TOTAL_BYTES
                           (bytes (zipState (countBytes (buf_length childBuf) (countFile w1)))))
        as [_|Hle]; [reflexivity|cbn in Hle; lia].
Qed.

End ExtractorProps.

Lemma analyzeFileBuffer_quota_witness :
  (exists out1,
      analyzeUpload lastDotSuffix asciiLower (js "notes.zip") manyNotes
      = (Returned (out1 ++ filesNote),
         mkRun (mkZipState 201 200) (replicate 200 (js "n.txt", 1))))
  /\ analyzeUpload lastDotSuffix asciiLower (js "big.zip") hugeEntry
     = (Returned ((zipBanner (js "big.zip") ++ entryHeader (js "a.txt")
                   ++ block (js "文本文件") (js "a.txt") (js "small")) ++ bytesNote),
        mkRun (mkZipState 2 20971525) [(js "a.txt", 5)]).
Proof.
  destruct (analyzeFileBuffer_quota lastDotSuffix asciiLower (js "notes.zip") manyNotes)
    as (_ & _ & _ & Hcross).
  split.
  - eexists.
    change (analyzeUpload lastDotSuffix asciiLower (js "notes.zip") manyNotes)
      with (zipLoop (analyzeFileBuffer lastDotSuffix asciiLower) 0
                    (replicate 200 (textEntry "n.txt" 1 "x")
                     ++ mkZipFile (js "File") (js "n.txt") (Returned (textBuffer 1 "x")) :: [])
                    (zipBanner (js "notes.zip")) freshRun).
    change (mkRun (mkZipState 201 200) (replicate 200 (js "n.txt", 1)))
      with (countFile (mkRun (mkZipState 200 200) (replicate 200 (js "n.txt", 1)))).
    eapply (proj1 (Hcross 0 _ _ _ _ _ _ _ _ _ _ _)).
    Unshelve. all: vm_compute; try reflexivity; try discriminate.
  - change (analyzeUpload lastDotSuffix asciiLower (js "big.zip") hugeEntry)
      with (zipLoop (analyzeFileBuffer lastDotSuffix asciiLower) 0
                    ([textEntry "a.txt" 5 "small"]
                     ++ mkZipFile (js "File") (js "b.txt") (Returned (textBuffer 20971520 "big"))
                        :: [textEntry "c.txt" 1 "z"])
                    (zipBanner (js "big.zip")) freshRun).
    change (mkRun (mkZipState 2 20971525) [(js "a.txt", 5)])
      with (countBytes (buf_length (textBuffer 20971520 "big"))
                       (countFile (mkRun (mkZipState 1 5) [(js "a.txt", 5)]))).
    apply (proj2 (Hcross 0 [textEntry "a.txt" 5 "small"] (js "b.txt")
                         (Returned (textBuffer 20971520 "big")) [textEntry "c.txt" 1 "z"]
                         (zipBanner (js "big.zip")) freshRun _ _
                         ltac:(vm_compute; reflexivity)
                         ltac:(vm_compute; discriminate)
                         ltac:(vm_compute; discriminate)));
      [reflexivity | vm_compute; discriminate | vm_compute; reflexivity].
Defined.

(** C3 as stated fails on what the code counts and reads: an entry is
    counted, and then read, before the limits are checked. Of 201 notes
    all 201 are counted. In four nested archives that each hold a file of
    20 MiB after the inner archive, the file that crosses the byte limit
    ends the innermost loop, and each enclosing loop then reads one more:
    three archives are expanded, seven entries are counted, and four files
    of 20 MiB are read. Neither run throws. *)
Lemma analyzeFileBuffer_quota_counterexample :
  let notes := analyzeUpload lastDotSuffix asciiLower (js "notes.zip") manyNotes in
  let r := analyzeUpload lastDotSuffix asciiLower (js "l0.zip") nestedArchives in
  isThrown notes.1 = false
  /\ files (zipState notes.2) = 201
  /\ MAX_ZIP_FILES < files (zipState notes.2)
  /\ isThrown r.1 = false
  /\ expanded r.2 = [(js "l1.zip", 1024); (js "l2.zip", 512); (js "l3.zip", 256)]
  /\ zipState r.2 = mkZipState 7 83887872
  /\ MAX_ZIP_TOTAL_BYTES < bytes (zipState r.2).
Proof. vm_compute. repeat split; reflexivity. Qed.

(** An archive of 201 one-byte notes: 200 are expanded, then the note. *)
Example archive_over_entry_limit :
  let r := analyzeUpload lastDotSuffix asciiLower (js "notes.zip") manyNotes in
  length (expanded r.2) = 200%nat
  /\ zipState r.2 = mkZipState 201 200
  /\ match r.1 with
     | Returned out => lastChars (length filesNote) out = filesNote
     | Thrown _ => False
     end.
Proof. vm_compute. repeat split; reflexivity. Qed.

(** An entry that crosses the byte limit is counted and not expanded;
    the entry after it is not looked at. *)
Example archive_over_byte_limit :
  analyzeUpload lastDotSuffix asciiLower (js "big.zip") hugeEntry
  = (Returned (zipBanner (js "big.zip") ++ entryHeader (js "a.txt")
               ++ block (js "文本文件") (js "a.txt") (js "small") ++ bytesNote),
     mkRun (mkZipState 2 20971525) [(js "a.txt", 5)]).
Proof. vm_compute. reflexivity. Qed.

(** C4 fails on the code: the PDF, spreadsheet and zip parsers are called
    outside any [try], so their failure rejects the whole extraction, also
    from inside an archive. *)
Lemma analyzeFileBuffer_parser_failure :
  (analyzeUpload lastDotSuffix asciiLower (js "report.pdf") brokenPdf).1
  = Thrown (Error (js "Invalid PDF structure"))
  /\ (analyzeUpload lastDotSuffix asciiLower (js "bundle.zip")
                    (zipBuffer 64 [textEntry "a.txt" 5 "small";
                                   mkZipFile (js "File") (js "report.pdf") (Returned brokenPdf)])).1
     = Thrown (Error (js "Invalid PDF structure"))
  /\ (analyzeUpload lastDotSuffix asciiLower (js "photo.png") brokenPdf).1
     = Returned (block (js "图片文件") (js "photo.png")
                       (js "[图片解析失败：缺少 OPENAI_API_KEY]")).
Proof. vm_compute. repeat split; reflexivity. Qed.

(** * Further properties of the code *)

(** ** Transport: the back-off schedule and the end of a call *)

Lemma backoff_mono (cfg : RetryCfg) (a b : N) :
  a <= b -> backoff cfg a <= backoff cfg b.
Proof.
  intros Hab. unfold backoff.
  apply N.min_le_compat_l, N.mul_le_mono_l, N.pow_le_mono_r; [discriminate | exact Hab].
Qed.

Lemma backoff_capped (cfg : RetryCfg) (a : N) : backoff cfg a <= cfg_maxDelayMs cfg.
Proof. unfold backoff. apply N.le_min_l. Qed.

Section BackoffProps.

Variable fetch : jsstring -> RequestInit -> N -> FetchOutcome.
Variables (url : jsstring) (init : RequestInit) (cfg : RetryCfg).

Lemma RetryTrace_sleeps k tr r :
  RetryTrace fetch url init cfg k tr r ->
  Sorted.StronglySorted N.le (sleeps tr)
  /\ Forall (fun d => backoff cfg k <= d /\ d <= cfg_maxDelayMs cfg) (sleeps tr)
  /\ (length (sleeps tr) + 1 = attempts tr)%nat
  /\ totalDelay tr + k * cfg_maxDelayMs cfg <= cfg_retries cfg * cfg_maxDelayMs cfg.
Proof.
  induction 1 as [k Hk Hno|k tr r Hyes Hlt Htr (Hsorted & Hall & Hlen & Htotal)].
  - cbn. split; [constructor|]. split; [constructor|]. split; [reflexivity|].
    unfold totalDelay. cbn. apply N.mul_le_mono_r. lia.
  - unfold totalDelay in *.
    change (sleeps (Fetched url init k (fetch url init k)
                      :: Slept (N.min (cfg_maxDelayMs cfg) (cfg_baseDelayMs cfg * 2 ^ k))
                      :: tr))
      with (backoff cfg k :: sleeps tr).
    assert (Hstep : backoff cfg k <= backoff cfg (k + 1)) by (apply backoff_mono; lia).
    split; [|split; [|split]].
    + constructor; [exact Hsorted|].
      eapply Forall_impl; [exact Hall|]. cbn. intros d [Hd _]. lia.
    + constructor; [split; [lia | apply backoff_capped]|].
      eapply Forall_impl; [exact Hall|]. cbn. intros d [Hd Hmax]. split; [lia | exact Hmax].
    + unfold attempts in *. cbn in *. lia.
    + change (foldr N.add 0 (backoff cfg k :: sleeps tr))
        with (backoff cfg k + foldr N.add 0 (sleeps tr)).
      pose proof (backoff_capped cfg k). nia.
Qed.

(** X1. The delays that one call of [fetchWithRetry] sleeps, in order,
    never decrease, and none exceeds [maxDelayMs]. *)
Theorem fetchWithRetry_delays_sorted :
  let ds := sleeps (fetchWithRetry fetch url init cfg).2 in
  Sorted.StronglySorted N.le ds /\ Forall (fun d => d <= cfg_maxDelayMs cfg) ds.
Proof.
  intros ds.
  destruct (RetryTrace_sleeps _ _ _ (fetchWithRetry_trace fetch url init cfg))
    as (Hsorted & Hall & _).
  split; [exact Hsorted|].
  eapply Forall_impl; [exact Hall|]. cbn. tauto.
Qed.

(** X2. One call sleeps exactly once between two consecutive attempts,
    and all its delays together are at most [retries * maxDelayMs]. *)
Theorem fetchWithRetry_total_delay :
  let tr := (fetchWithRetry fetch url init cfg).2 in
  (length (sleeps tr) + 1 = attempts tr)%nat
  /\ totalDelay tr <= cfg_retries cfg * cfg_maxDelayMs cfg.
Proof.
  intros tr.
  destruct (RetryTrace_sleeps _ _ _ (fetchWithRetry_trace fetch url init cfg))
    as (_ & _ & Hlen & Htotal).
  split; [exact Hlen|]. fold tr in Htotal. lia.
Qed.

Lemma RetryTrace_exhausted k tr r :
  RetryTrace fetch url init cfg k tr r ->
  (forall j, k <= j -> j <= cfg_retries cfg -> retryable (fetch url init j) = true) ->
  (attempts tr + N.to_nat k = N.to_nat (cfg_retries cfg) + 1)%nat
  /\ r = completionOf (fetch url init (cfg_retries cfg)).
Proof.
  induction 1 as [k Hk Hno|k tr r Hyes Hlt Htr IH]; intros Hall.
  - rewrite (Hall k) in Hno by lia. cbn in Hno. apply N.ltb_ge in Hno.
    assert (k = cfg_retries cfg) as -> by lia. split; [|reflexivity].
    unfold attempts. cbn. lia.
  - destruct IH as [Hn Hr]; [intros j Hj1 Hj2; apply Hall; lia|].
    split; [|exact Hr]. unfold attempts in *. cbn in *. lia.
Qed.

(** X3. When every attempt ends in a retryable status or a retryable
    error, the call makes exactly [retries + 1] attempts and then resolves
    with the outcome of the last one: a 429/5xx response is returned to the
    caller, an error is thrown. *)
Theorem fetchWithRetry_exhausted :
  (forall j, j <= cfg_retries cfg -> retryable (fetch url init j) = true) ->
  let r := fetchWithRetry fetch url init cfg in
  attempts r.2 = (N.to_nat (cfg_retries cfg) + 1)%nat
  /\ r.1 = completionOf (fetch url init (cfg_retries cfg)).
Proof.
  intros Hall r.
  destruct (RetryTrace_exhausted _ _ _ (fetchWithRetry_trace fetch url init cfg)) as [Hn Hr];
    [intros j _ Hj; by apply Hall|].
  fold r in Hn, Hr. split; [lia | exact Hr].
Qed.

Lemma RetryTrace_last_outcome k tr r :
  RetryTrace fetch url init cfg k tr r ->
  exists j,
    last tr = Some (Fetched url init j (fetch url init j))
    /\ r = completionOf (fetch url init j)
    /\ k <= j /\ j <= cfg_retries cfg
    /\ (retryable (fetch url init j) = false \/ j = cfg_retries cfg).
Proof.
  induction 1 as [k Hk Hno|k tr r Hyes Hlt Htr (j & Hlast & Hr & Hkj & Hj & Hend)].
  - exists k. split; [reflexivity|]. split; [reflexivity|]. split; [lia|]. split; [lia|].
    apply andb_false_iff in Hno as [Hno|Hno]; [by left|].
    apply N.ltb_ge in Hno. right. lia.
  - exists j. split.
    + destruct (RetryTrace_head _ _ _ _ _ _ _ Htr) as [rest ->]. exact Hlast.
    + split; [exact Hr|]. split; [lia|]. split; [lia | exact Hend].
Qed.

Lemma RetryTrace_last_iff k tr r i u n j o :
  RetryTrace fetch url init cfg k tr r ->
  tr !! i = Some (Fetched u n j o) ->
  j <= cfg_retries cfg
  /\ (length tr = S i <-> retryable o = false \/ j = cfg_retries cfg).
Proof.
  intros Htr. revert i.
  induction Htr as [k Hk Hno|k tr r Hyes Hlt Htr IH]; intros i Hi.
  - destruct i as [|i]; [|by destruct i].
    cbn in Hi. injection Hi as _ _ <- <-. split; [exact Hk|].
    split; [intros _|reflexivity].
    apply andb_false_iff in Hno as [Hno|Hno]; [by left|].
    apply N.ltb_ge in Hno. right. lia.
  - destruct i as [|[|i]]; [|discriminate|].
    + cbn in Hi. injection Hi as _ _ <- <-. split; [lia|].
      cbn [length]. split; [discriminate|].
      intros [Hno|Hlast]; [congruence | lia].
    + cbn in Hi. destruct (IH i Hi) as [Hj Hiff]. split; [exact Hj|].
      cbn [length]. rewrite <- Hiff. split; intros Hlen; lia.
Qed.

(** X4. A call resolves with the outcome of its last attempt: the
    response of the last attempt is returned whatever its status, its
    error is rethrown unchanged. An attempt is the last one exactly when
    its outcome is not retryable or it is attempt number [retries]: every
    other attempt is followed by a delay and a further attempt. *)
Theorem fetchWithRetry_last_outcome :
  let r := fetchWithRetry fetch url init cfg in
  (exists j,
      last r.2 = Some (Fetched url init j (fetch url init j))
      /\ r.1 = match fetch url init j with
               | Responded res => Returned res
               | Rejected err => Thrown (Error err)
               end)
  /\ (forall i u n j o,
        r.2 !! i = Some (Fetched u n j o) ->
        j <= cfg_retries cfg
        /\ (length r.2 = S i <-> retryable o = false \/ j = cfg_retries cfg)).
Proof.
  intros r. split.
  - destruct (RetryTrace_last_outcome _ _ _ (fetchWithRetry_trace fetch url init cfg))
      as (j & Hlast & Hr & _).
    exists j. fold r in Hlast, Hr. by rewrite Hr.
  - intros i u n j o Hi.
    eapply RetryTrace_last_iff; [apply (fetchWithRetry_trace fetch url init cfg) | exact Hi].
Qed.

End BackoffProps.

Lemma fetchWithRetry_exhausted_witness :
  let init := mkRequestInit (js "POST") [] (DeepSeekBody [] [] 7) in
  let cfg := mkRetryCfg None None None None in
  attempts (fetchWithRetry outage [] init cfg).2 = 3%nat
  /\ (fetchWithRetry outage [] init cfg).1 = completionOf (outage [] init 2).
Proof.
  intros init cfg.
  apply (fetchWithRetry_exhausted outage [] init cfg).
  intros j _. reflexivity.
Defined.

(** ** Reply parsing *)

Lemma extractTextAndCanvas_fold (items : list OutputItem) (text : jsstring)
      (canvas : option Canvas) :
  foldl extractTextAndCanvas_step (text, canvas) items
  = (text ++ concat (List.map messageText items),
     match last (omap canvasOf items) with
     | Some c => Some c
     | None => canvas
     end).
Proof.
  revert text canvas. induction items as [|item items IH]; intros text canvas.
  { cbn. by rewrite app_nil_r. }
  destruct item as [content|title content|];
    cbn [foldl List.map concat extractTextAndCanvas_step messageText omap canvasOf fst snd].
  - destruct (outputText content) as [t|]; cbn [from_option id app]; rewrite IH;
      by rewrite ?app_assoc.
  - rewrite IH. cbn [app].
    replace (list_omap OutputItem Canvas canvasOf (CanvasItem title content :: items))
      with (mkCanvas (orDefault title (js "未命名画布")) (orDefault content [])
              :: omap canvasOf items) by reflexivity.
    rewrite last_cons. by destruct (last (omap canvasOf items)).
  - by rewrite IH.
Qed.

Lemma extractTextFromResponse_fold (items : list OutputItem) (text : jsstring) :
  foldl extractTextFromResponse_step text items
  = text ++ concat (List.map messageText items).
Proof.
  revert text. induction items as [|item items IH]; intros text.
  { cbn. by rewrite app_nil_r. }
  destruct item as [content|title content|];
    cbn [foldl List.map concat extractTextFromResponse_step messageText app].
  - destruct (outputText content) as [t|]; cbn [from_option id app]; rewrite IH;
      by rewrite ?app_assoc.
  - by rewrite IH.
  - by rewrite IH.
Qed.

(** X5. The text extracted from a provider reply is the concatenation, in
    order, of the first [output_text] part of each message item; the
    canvas is the last canvas item of the reply (its title defaulting to
    the "untitled" title, its content to the empty string) and is absent
    when the reply has no canvas item; the text-only extraction used for
    image descriptions returns the same text, trimmed. *)
Theorem extractTextAndCanvas_items (j : Json) :
  let items := default [] (output j) in
  let text := concat (List.map messageText items) in
  extractTextAndCanvas j = RawObject (Some text) (last (omap canvasOf items))
  /\ extractTextFromResponse j = trim text.
Proof.
  intros items text. unfold extractTextAndCanvas, extractTextFromResponse.
  fold items. rewrite extractTextAndCanvas_fold, extractTextFromResponse_fold.
  cbn [fst snd app]. split; [|reflexivity].
  by destruct (last (omap canvasOf items)).
Qed.

(** ** Router: requests and results *)

Lemma everyRequest_fetchWithRetry fetch url init cfg (P : jsstring -> RequestInit -> Prop) :
  P url init -> everyRequest P (fetchWithRetry fetch url init cfg).2.
Proof.
  intros HP. apply Forall_forall. intros [u n j o|ms] Hin; [|exact I].
  by destruct (fetchWithRetry_requests _ _ _ _ _ _ _ _ Hin) as [-> ->].
Qed.

Lemma everyRequest_nil (P : jsstring -> RequestInit -> Prop) : everyRequest P [].
Proof. constructor. Qed.

(** The traces of a call under the policy of the adapters. *)
Lemma adapter_trace fetch url init :
  let tr := (fetchWithRetry fetch url init adapterCfg).2 in
  (attempts tr <= 3)%nat /\ sleeps tr `prefix_of` [600; 1200].
Proof.
  intros tr. pose proof (fetchWithRetry_trace fetch url init adapterCfg) as Htr.
  cbv zeta in Htr. fold tr in Htr. clearbody tr.
  inversion_clear Htr as [? _ _|? tr1 ? _ _ Htr1];
    [split; [by compute; lia|by exists [600; 1200]]|].
  inversion_clear Htr1 as [? _ _|? tr2 ? _ _ Htr2];
    [split; [by compute; lia|by exists [1200]]|].
  inversion_clear Htr2 as [? _ _|? tr3 ? _ Hlt _];
    [split; [by compute; lia|by exists []]|].
  by compute in Hlt.
Qed.

Lemma dispatch_trace env fetch config messages options :
  (dispatch env fetch config messages options).2 = []
  \/ exists url init,
      (dispatch env fetch config messages options).2
      = (fetchWithRetry fetch url init adapterCfg).2.
Proof.
  unfold dispatch. destruct config as [e|key]; [|by left].
  destruct (eqb (provider e) (js "openai")).
  { unfold callOpenAI. destruct (apiKeyOf _); [right; eauto | by left]. }
  destruct (eqb (provider e) (js "deepseek")).
  { unfold callDeepSeek. destruct (apiKeyOf _); [right; eauto | by left]. }
  destruct (eqb (provider e) (js "gemini")).
  { unfold callGemini. destruct (apiKeyOf _); [right; eauto | by left]. }
  by left.
Qed.

Lemma callModelWithConfig_trace env fetch config messages options :
  (callModelWithConfig env fetch config messages options).2
  = (dispatch env fetch config messages options).2.
Proof. unfold callModelWithConfig. by destruct (dispatch _ _ _ _ _).1. Qed.

(** X6. One model call makes at most three requests, all to the same URL
    with the same method, headers and body, and the delays it sleeps
    between them are 600 ms and then 1200 ms. *)
Theorem callModelWithConfig_requests
        (env : Env) (fetch : jsstring -> RequestInit -> N -> FetchOutcome)
        (config : Config) (messages : list Message) (options : Options) :
  let tr := (callModelWithConfig env fetch config messages options).2 in
  (attempts tr <= 3)%nat
  /\ sleeps tr `prefix_of` [600; 1200]
  /\ exists url init, everyRequest (fun u n => u = url /\ n = init) tr.
Proof.
  intros tr. subst tr. rewrite callModelWithConfig_trace.
  destruct (dispatch_trace env fetch config messages options) as [->|(url & init & ->)].
  - split; [cbn; lia|]. split; [by exists [600; 1200]|].
    exists [], (mkRequestInit [] [] (DeepSeekBody [] [] 0)). apply everyRequest_nil.
  - destruct (adapter_trace fetch url init) as [Hn Hs].
    split; [exact Hn|]. split; [exact Hs|].
    exists url, init. by apply everyRequest_fetchWithRetry.
Qed.

(** X7. Without the API key of the model's provider (unset or empty), or
    for a provider that has no adapter, no request is made at all and the
    call resolves to the soft failure. *)
Theorem callModelWithConfig_without_key
        (env : Env) (fetch : jsstring -> RequestInit -> N -> FetchOutcome)
        (e : Entry) (messages : list Message) (options : Options) :
  apiKeyFor env (provider e) = None ->
  callModelWithConfig env fetch (Registered e) messages options
  = (softFailure (effectiveOutputTarget options) (effectiveCanvasTitle options), []).
Proof.
  intros Hkey. unfold callModelWithConfig, dispatch, apiKeyFor in *.
  destruct (eqb (provider e) (js "openai")).
  { unfold callOpenAI. by rewrite Hkey. }
  destruct (eqb (provider e) (js "deepseek")).
  { unfold callDeepSeek. by rewrite Hkey. }
  destruct (eqb (provider e) (js "gemini")).
  { unfold callGemini. by rewrite Hkey. }
  reflexivity.
Qed.

Lemma callModelWithConfig_without_key_witness :
  callModelWithConfig noKeys (answers "draft")
                      (Registered (entry "deepseek" "deepseek-chat" false false false false))
                      hello chatOptions
  = (RawString unavailable, []).
Proof.
  apply (callModelWithConfig_without_key noKeys (answers "draft")
           (entry "deepseek" "deepseek-chat" false false false false) hello chatOptions).
  reflexivity.
Defined.

Lemma readReply_returned (failure : jsstring) (parse : Json -> Raw)
      (r : Completion Response) (raw : Raw) :
  readReply failure parse r = Returned raw -> exists j, raw = parse j.
Proof.
  unfold readReply. destruct r as [res|e]; cbn [mbind Completion_bind]; [|discriminate].
  destruct (json res) as [reply|e]; cbn [mbind Completion_bind]; [|discriminate].
  destruct (negb (ok res)); [discriminate|]. intros [= <-]. eauto.
Qed.

Lemma dispatch_result env fetch config messages options raw :
  (dispatch env fetch config messages options).1 = Returned raw ->
  (exists s, raw = RawString s) \/ (exists text canvas, raw = RawObject (Some text) canvas).
Proof.
  unfold dispatch. destruct config as [e|key]; [|discriminate].
  destruct (eqb (provider e) (js "openai")).
  { unfold callOpenAI. destruct (apiKeyOf _) as [apiKey|]; [|discriminate]. cbn [fst].
    intros [j ->]%readReply_returned. right. unfold extractTextAndCanvas. eauto. }
  destruct (eqb (provider e) (js "deepseek")).
  { unfold callDeepSeek. destruct (apiKeyOf _) as [apiKey|]; [|discriminate]. cbn [fst].
    intros [j ->]%readReply_returned. left. eauto. }
  destruct (eqb (provider e) (js "gemini")).
  { unfold callGemini. destruct (apiKeyOf _) as [apiKey|]; [|discriminate]. cbn [fst].
    intros [j ->]%readReply_returned. left. eauto. }
  discriminate.
Qed.

Lemma callModelWithConfig_result_shape env fetch config messages options :
  (exists s, (callModelWithConfig env fetch config messages options).1 = RawString s)
  \/ (exists text canvas,
        (callModelWithConfig env fetch config messages options).1
        = RawObject (Some text) canvas).
Proof.
  unfold callModelWithConfig, softFailure.
  destruct (dispatch env fetch config messages options).1 as [raw|e] eqn:Hraw; cbn [fst].
  - destruct (eqb (effectiveOutputTarget options) (js "canvas"));
      [|by eapply dispatch_result].
    right. destruct raw as [s|text [c|]|]; cbn; eauto.
    destruct (_ || _); eauto.
    destruct (dispatch_result _ _ _ _ _ _ Hraw) as [[s [=]]|(text' & canvas' & [= -> _])].
    eauto.
  - destruct (eqb (effectiveOutputTarget options) (js "canvas")); eauto.
Qed.

#[global] Instance Returned_inj {A : Type} : Inj (=) (=) (@Returned A).
Proof. by intros a b [=]. Qed.

Lemma bind_returned {A B : Type} (c : Completion A) (f : A -> Completion B) (b : B) :
  (c ≫= f) = Returned b -> exists a, c = Returned a /\ f a = Returned b.
Proof. destruct c as [a|e]; [eauto|discriminate]. Qed.

Lemma extractTextAndCanvas_object stringOf j raw :
  Untyped.extractTextAndCanvas stringOf j = Returned raw ->
  exists text canvas,
    raw = Untyped.VObject [ (js "text", Untyped.VString text); (js "canvas", canvas) ].
Proof.
  unfold Untyped.extractTextAndCanvas.
  intros (output & _ & H)%bind_returned.
  apply bind_returned in H as (outputs & _ & H).
  apply bind_returned in H as (result & _ & H).
  apply (inj Returned) in H. subst raw. eauto.
Qed.

Lemma readReply_parsed stringOf failure parse reply raw :
  Untyped.readReply stringOf failure parse reply = Returned raw ->
  exists j, parse j = Returned raw.
Proof.
  unfold Untyped.readReply.
  intros (res & _ & H)%bind_returned.
  apply bind_returned in H as (j & _ & H).
  destruct (negb (Untyped.ok res)); [|eauto].
  by apply bind_returned in H as (error & _ & H).
Qed.

Lemma orElse_not_nullish a s : isNullish (Untyped.orElse a (Untyped.VString s)) = false.
Proof.
  unfold Untyped.orElse. destruct (Untyped.truthy a) eqn:Ha; [|reflexivity].
  destruct a; cbn [Untyped.truthy] in Ha; first [discriminate Ha | reflexivity].
Qed.

Lemma dispatch_not_nullish stringOf config reply raw :
  Untyped.dispatch stringOf config reply = Returned raw -> isNullish raw = false.
Proof.
  unfold Untyped.dispatch. destruct config as [e|key]; [|discriminate].
  destruct (eqb (provider e) (js "openai")).
  { intros (j & (text & canvas & ->)%extractTextAndCanvas_object)%readReply_parsed.
    reflexivity. }
  destruct (eqb (provider e) (js "deepseek")).
  { intros (j & H)%readReply_parsed. unfold Untyped.choiceContent in H.
    apply bind_returned in H as (choices & _ & H).
    apply (inj Returned) in H. subst raw. apply orElse_not_nullish. }
  destruct (eqb (provider e) (js "gemini")); [|discriminate].
  intros (j & H)%readReply_parsed. unfold Untyped.candidateText in H.
  apply bind_returned in H as (candidates & _ & H).
  apply (inj Returned) in H. subst raw. apply orElse_not_nullish.
Qed.

Lemma canvasShape_not_nullish title raw : isNullish (Untyped.canvasShape title raw) = false.
Proof. by destruct (canvasShape_object title raw) as (properties & canvas & -> & _). Qed.

Lemma canvasShape_text title text canvas :
  exists t,
    Untyped.getOpt (js "text")
      (Untyped.canvasShape title
         (Untyped.VObject [ (js "text", Untyped.VString text); (js "canvas", canvas) ]))
    = Untyped.VString t.
Proof.
  cbn [Untyped.canvasShape]. destruct (Untyped.keepsCanvas _).
  - cbn [Untyped.getOpt]. rewrite lookup_head. eauto.
  - unfold Untyped.wrap. cbn [Untyped.getOpt]. rewrite lookup_head. eauto.
Qed.

(** X8. The value of a model call is never [undefined] or [null], in
    chat mode as in canvas mode, on success as on failure, whatever the
    reply, so the handler can read [result.text] and [result.canvas] off
    it. For an OpenAI model, whose text the gateway accumulates itself,
    it is a string or an object with a [text] string. *)
Theorem callModelWithConfig_result
        (stringOf : Untyped.JsValue -> jsstring) (config : Config) (options : Options)
        (reply : Completion Untyped.Response) :
  let out := Untyped.callModelWithConfig stringOf config options reply in
  isNullish out = false
  /\ (forall e,
        config = Registered e -> provider e = js "openai" ->
        isString out || isString (Untyped.getOpt (js "text") out) = true).
Proof.
  intros out. subst out. unfold Untyped.callModelWithConfig, Untyped.softFailure. split.
  - destruct (Untyped.dispatch stringOf config reply) as [raw|err] eqn:Hraw.
    + destruct (eqb (effectiveOutputTarget options) (js "canvas"));
        [apply canvasShape_not_nullish | by eapply dispatch_not_nullish].
    + by destruct (eqb (effectiveOutputTarget options) (js "canvas")).
  - intros e -> Hprovider.
    destruct (Untyped.dispatch stringOf (Registered e) reply) as [raw|err] eqn:Hraw.
    + unfold Untyped.dispatch in Hraw. rewrite Hprovider, eqb_refl in Hraw.
      apply readReply_parsed in Hraw as (j & Hraw).
      apply extractTextAndCanvas_object in Hraw as (text & canvas & ->).
      destruct (eqb (effectiveOutputTarget options) (js "canvas")).
      * destruct (canvasShape_text (effectiveCanvasTitle options) text canvas) as [t Ht].
        rewrite Ht. apply orb_true_r.
      * cbn [Untyped.getOpt isString orb]. by rewrite lookup_head.
    + destruct (eqb (effectiveOutputTarget options) (js "canvas")); [|reflexivity].
      unfold Untyped.wrap. cbn [Untyped.getOpt isString orb]. by rewrite lookup_head.
Qed.

Lemma callModelWithConfig_result_witness :
  isString (Untyped.getOpt (js "text")
              (Untyped.callModelWithConfig sampleStringOf gpt_5 chatOptions
                 (replied (messageOutput (Untyped.VBool true)))))
  = true
  /\ Untyped.callModelWithConfig sampleStringOf gpt_5 chatOptions
                                 (replied (messageOutput (Untyped.VBool true)))
     = Untyped.VObject [ (js "text", Untyped.VString (js "true"));
                         (js "canvas", Untyped.VNull) ].
Proof.
  split; [|by vm_compute].
  apply (proj2 (callModelWithConfig_result
                  sampleStringOf gpt_5 chatOptions
                  (replied (messageOutput (Untyped.VBool true))))
               (entry "openai" "gpt-5" true true true true));
    reflexivity.
Defined.

(** ** The two readings of a reply *)

Lemma orElse_optString o d :
  Untyped.orElse (optString o) (Untyped.VString d) = Untyped.VString (orDefault o d).
Proof.
  unfold Untyped.orElse, orDefault, or_else.
  destruct o as [s|]; cbn [optString Untyped.truthy]; [|reflexivity].
  by destruct (JsString.truthy s).
Qed.

Lemma findOutputText_parts parts :
  Untyped.findOutputText (List.map ofPart parts)
  = Returned (match List.find (fun p => eqb (part_type p) (js "output_text")) parts with
              | Some p => ofPart p
              | None => Untyped.VUndefined
              end).
Proof.
  induction parts as [|p parts IH]; [reflexivity|].
  cbn [List.map Untyped.findOutputText List.find].
  replace (Untyped.get (js "type") (ofPart p))
    with (Returned (Untyped.VString (part_type p)))
    by (unfold ofPart; cbn [Untyped.get]; by rewrite lookup_head).
  cbn [mbind Completion_bind Untyped.strictEq].
  by destruct (eqb (part_type p) (js "output_text")).
Qed.

Lemma extractTextAndCanvas_step_item stringOf text canvas item :
  Untyped.extractTextAndCanvas_step stringOf (text, ofCanvas canvas) (ofItem item)
  = Returned (let r := extractTextAndCanvas_step (text, canvas) item in
              (r.1, ofCanvas r.2)).
Proof.
  unfold Untyped.extractTextAndCanvas_step, extractTextAndCanvas_step.
  destruct item as [content|title content|]; cbn [ofItem Untyped.get];
    rewrite lookup_head; cbn [mbind Completion_bind Untyped.strictEq].
  - replace (eqb (js "message") (js "message")) with true by (by vm_compute).
    replace (eqb (js "message") (js "canvas")) with false by (by vm_compute).
    cbn [Untyped.getOpt]. rewrite (lookup_skip (js "content")) by (by vm_compute).
    rewrite lookup_head. unfold outputText.
    destruct content as [parts|]; cbn [Untyped.find mbind Completion_bind];
      [|reflexivity].
    rewrite findOutputText_parts. cbn [mbind Completion_bind].
    destruct (List.find _ parts) as [p|]; [|reflexivity].
    unfold ofPart. cbn [Untyped.getOpt].
    rewrite (lookup_skip (js "text")) by (by vm_compute). rewrite lookup_head.
    destruct (part_text p) as [[|c t]|]; cbn [optString Untyped.truthy JsString.truthy fst snd];
      [|reflexivity|reflexivity].
    by rewrite app_nil_r.
  - replace (eqb (js "canvas") (js "message")) with false by (by vm_compute).
    replace (eqb (js "canvas") (js "canvas")) with true by (by vm_compute).
    cbn [mbind Completion_bind Untyped.getOpt fst snd].
    rewrite (lookup_skip (js "title")) by (by vm_compute). rewrite lookup_head.
    rewrite !(lookup_skip (js "content")) by (by vm_compute). rewrite lookup_head.
    by rewrite !orElse_optString.
  - replace (eqb (js "reasoning") (js "message")) with false by (by vm_compute).
    replace (eqb (js "reasoning") (js "canvas")) with false by (by vm_compute).
    reflexivity.
Qed.

Lemma forOf_items stringOf items :
  forall text canvas,
    Untyped.forOf (Untyped.extractTextAndCanvas_step stringOf) (List.map ofItem items)
                  (text, ofCanvas canvas)
    = Returned (let r := foldl extractTextAndCanvas_step (text, canvas) items in
                (r.1, ofCanvas r.2)).
Proof.
  induction items as [|item items IH]; intros text canvas; [reflexivity|].
  cbn [List.map Untyped.forOf foldl]. rewrite extractTextAndCanvas_step_item.
  cbn [mbind Completion_bind]. cbv zeta.
  destruct (extractTextAndCanvas_step (text, canvas) item) as [text' canvas'].
  apply IH.
Qed.

Lemma extractTextAndCanvas_json stringOf j :
  Untyped.extractTextAndCanvas stringOf (ofJson j)
  = Returned (ofRaw (extractTextAndCanvas j)).
Proof.
  unfold Untyped.extractTextAndCanvas, extractTextAndCanvas, ofJson.
  cbn [Untyped.get]. rewrite (lookup_skip (js "output")) by (by vm_compute).
  rewrite lookup_head. cbn [mbind Completion_bind].
  destruct (output j) as [items|]; cbn [default].
  - unfold Untyped.orElse. cbn [Untyped.truthy Untyped.iterate mbind Completion_bind].
    pose proof (forOf_items stringOf items [] None) as Hitems.
    cbn [ofCanvas] in Hitems. unfold id.
    etrans; [exact (f_equal (fun c => c ≫= _) Hitems)|]. reflexivity.
  - reflexivity.
Qed.

Lemma choiceContent_json j :
  Untyped.choiceContent (ofJson j)
  = Returned (Untyped.VString (orDefault (choice_content j) [])).
Proof.
  unfold Untyped.choiceContent, ofJson. cbn [Untyped.get].
  rewrite !(lookup_skip (js "choices")) by (by vm_compute).
  rewrite lookup_head. cbn [mbind Completion_bind].
  destruct (choice_content j) as [c|]; [|reflexivity].
  cbn [Untyped.first Untyped.getOpt]. rewrite !lookup_head.
  cbn [Untyped.getOpt]. rewrite lookup_head.
  by rewrite <- (orElse_optString (Some c)).
Qed.

Lemma candidateText_json j :
  Untyped.candidateText (ofJson j)
  = Returned (Untyped.VString (orDefault (candidate_text j) [])).
Proof.
  unfold Untyped.candidateText, ofJson. cbn [Untyped.get].
  rewrite !(lookup_skip (js "candidates")) by (by vm_compute).
  rewrite lookup_head. cbn [mbind Completion_bind].
  destruct (candidate_text j) as [t|]; [|reflexivity].
  cbn [Untyped.first Untyped.getOpt]. rewrite !lookup_head.
  cbn [Untyped.first Untyped.getOpt]. rewrite !lookup_head.
  cbn [Untyped.first Untyped.getOpt]. rewrite !lookup_head.
  by rewrite <- (orElse_optString (Some t)).
Qed.

Lemma readReply_json stringOf failure parse uparse r :
  JsString.truthy failure = true ->
  (forall j, uparse (ofJson j) = Returned (ofRaw (parse j))) ->
  Untyped.readReply stringOf failure uparse (mapReturned ofResponse r)
  = mapReturned ofRaw (readReply failure parse r).
Proof.
  intros Hfailure Hparse. unfold Untyped.readReply, readReply.
  destruct r as [[st [j|e]]|e]; unfold ofResponse, Untyped.ok, ok;
    cbn [mapReturned mbind Completion_bind status json Untyped.status Untyped.json];
    [|reflexivity|reflexivity].
  destruct (negb _); cbn [mapReturned]; [|by rewrite Hparse].
  unfold ofJson. cbn [Untyped.get]. rewrite lookup_head. cbn [mbind Completion_bind].
  unfold Untyped.errorOf. f_equal. f_equal.
  destruct (error_message j) as [m|]; cbn [Untyped.getOpt orDefault].
  - rewrite lookup_head. unfold Untyped.orElse, or_else. cbn [Untyped.truthy].
    destruct (JsString.truthy m) eqn:Hm; cbn [Untyped.str]; by rewrite ?Hm, ?Hfailure.
  - unfold Untyped.orElse, or_else. cbn [Untyped.truthy Untyped.str]. by rewrite Hfailure.
Qed.

Lemma replyOf_request fetch url init failure parse :
  let r := fetchWithRetry fetch url init adapterCfg in
  replyOf (readReply failure parse r.1, r.2) = mapReturned ofResponse r.1.
Proof.
  intros r. unfold replyOf. cbn [fst snd].
  destruct (RetryTrace_completion _ _ _ _ _ _ _ (fetchWithRetry_trace fetch url init adapterCfg))
    as (j & o & Hlast & Hr).
  fold r in Hlast, Hr. by rewrite Hlast, Hr.
Qed.

Lemma canvasShape_raw canvasTitle raw :
  ofRaw (canvasShape canvasTitle raw) = Untyped.canvasShape canvasTitle (ofRaw raw).
Proof.
  destruct raw as [s|text canvas|]; [reflexivity| |reflexivity].
  cbn [canvasShape ofRaw Untyped.canvasShape]. unfold Untyped.keepsCanvas.
  cbn [Untyped.getOpt]. rewrite (lookup_skip (js "canvas")) by (by vm_compute).
  rewrite !lookup_head. unfold Untyped.wrap.
  destruct canvas as [[t c]|]; cbn [ofCanvas Untyped.truthy andb Untyped.getOpt].
  - rewrite (lookup_skip (js "content")) by (by vm_compute). rewrite !lookup_head.
    cbn [Untyped.truthy title content_].
    destruct (JsString.truthy c || JsString.truthy t); [reflexivity|].
    cbn [ofRaw ofCanvas optString title content_]. by rewrite orElse_optString.
  - cbn [ofRaw ofCanvas optString title content_]. by rewrite orElse_optString.
Qed.

Lemma dispatch_raw stringOf env fetch config messages options :
  let r := dispatch env fetch config messages options in
  mapReturned ofRaw r.1 = Untyped.dispatch stringOf config (replyOf r).
Proof.
  cbv zeta. unfold dispatch, Untyped.dispatch.
  destruct config as [e|key]; [|reflexivity].
  destruct (eqb (provider e) (js "openai")).
  { unfold callOpenAI, Untyped.callOpenAI.
    destruct (apiKeyOf _) as [apiKey|]; [|reflexivity].
    rewrite replyOf_request. cbn [fst].
    symmetry. apply readReply_json; [by vm_compute|].
    apply extractTextAndCanvas_json. }
  destruct (eqb (provider e) (js "deepseek")).
  { unfold callDeepSeek, Untyped.callDeepSeek.
    destruct (apiKeyOf _) as [apiKey|]; [|reflexivity].
    rewrite replyOf_request. cbn [fst].
    symmetry. apply readReply_json; [by vm_compute|].
    intros j. apply choiceContent_json. }
  destruct (eqb (provider e) (js "gemini")); [|reflexivity].
  unfold callGemini, Untyped.callGemini.
  destruct (apiKeyOf _) as [apiKey|]; [|reflexivity].
  rewrite replyOf_request. cbn [fst].
  symmetry. apply readReply_json; [by vm_compute|].
  intros j. apply candidateText_json.
Qed.

(** X31. On the replies that follow the providers' schemas, the two
    readings of the gateway agree: the value that [callModelWithConfig]
    returns in the typed model is, as a JSON value, the one it returns
    over untyped replies, for the reply of the last attempt of the
    adapter's request. *)
Theorem callModelWithConfig_readings
        (stringOf : Untyped.JsValue -> jsstring)
        (env : Env) (fetch : jsstring -> RequestInit -> N -> FetchOutcome)
        (config : Config) (messages : list Message) (options : Options) :
  ofRaw (callModelWithConfig env fetch config messages options).1
  = Untyped.callModelWithConfig stringOf config options
                                (replyOf (dispatch env fetch config messages options)).
Proof.
  unfold callModelWithConfig, Untyped.callModelWithConfig.
  rewrite <- (dispatch_raw stringOf).
  destruct (dispatch env fetch config messages options).1 as [raw|e];
    cbn [mapReturned fst].
  - destruct (eqb (effectiveOutputTarget options) (js "canvas")); [|reflexivity].
    apply canvasShape_raw.
  - unfold softFailure, Untyped.softFailure.
    by destruct (eqb (effectiveOutputTarget options) (js "canvas")).
Qed.

(** ** Trimming *)

Lemma trimStart_idem (s : jsstring) : trimStart (trimStart s) = trimStart s.
Proof.
  induction s as [|c s IH]; [reflexivity|]. cbn.
  destruct (isWhiteSpace c) eqn:Hc; [exact IH|]. cbn. by rewrite Hc.
Qed.

Lemma trimStart_head (s : jsstring) :
  trimStart s = [] \/ exists c t, trimStart s = c :: t /\ isWhiteSpace c = false.
Proof.
  induction s as [|c s IH]; [by left|]. cbn.
  destruct (isWhiteSpace c) eqn:Hc; [exact IH|]. right. eauto.
Qed.

Lemma trimStart_snoc (l : jsstring) (c : code_unit) :
  isWhiteSpace c = false -> trimStart (l ++ [c]) = trimStart l ++ [c].
Proof.
  intros Hc. induction l as [|a l IH]; cbn; [by rewrite Hc|].
  by destruct (isWhiteSpace a).
Qed.

Lemma trimEnd_cons (c : code_unit) (t : jsstring) :
  isWhiteSpace c = false -> trimEnd (c :: t) = c :: trimEnd t.
Proof.
  intros Hc. unfold trimEnd. cbn [rev].
  change (List.rev t ++ [c]) with (rev t ++ [c]).
  by rewrite (trimStart_snoc _ _ Hc), rev_unit.
Qed.

Lemma trimEnd_idem (s : jsstring) : trimEnd (trimEnd s) = trimEnd s.
Proof. unfold trimEnd. by rewrite rev_involutive, trimStart_idem. Qed.

Lemma trim_idem (s : jsstring) : trim (trim s) = trim s.
Proof.
  unfold trim. destruct (trimStart_head s) as [->|(c & t & -> & Hc)]; [reflexivity|].
  rewrite (trimEnd_cons c t Hc). cbn [trimStart]. rewrite Hc.
  by rewrite (trimEnd_cons c _ Hc), trimEnd_idem.
Qed.

(** ** The message handler *)

Lemma startsWith_app (p s : jsstring) : startsWith p (p ++ s) = true.
Proof. induction p as [|c p IH]; [reflexivity|]. cbn. by rewrite N.eqb_refl, IH. Qed.

Lemma resolveConfig_returns (modelId : jsstring) :
  exists config, resolveConfig modelId = Returned config.
Proof.
  rewrite resolveConfig_cases.
  destruct (MODEL_MAP !! modelId); [eauto|]. destruct (bool_decide _); eauto.
Qed.

Section HandlerProps.

Variable env : Env.
Variable fetch : jsstring -> RequestInit -> N -> FetchOutcome.
Variable JSON_parse : jsstring -> Completion JsonValue.
Variable JSON_stringify : CanvasObj -> jsstring.
Variables randomUUID now : jsstring.

#[local] Abbreviation askModel' := (askModel env fetch JSON_parse).
#[local] Abbreviation postMessage' :=
  (postMessage env fetch JSON_parse JSON_stringify randomUUID now).
#[local] Abbreviation findExistingCanvas' := (findExistingCanvas JSON_parse).

(** The whole reply of a turn, from what the model answered. *)
Lemma postMessage_reply (body : Server.Body) (rows : list Row) (crows : list jsstring) :
  let target := targetOf body in
  let wantNewCanvas := wantNewCanvasOf body in
  let existingCanvas := findExistingCanvas' target wantNewCanvas crows in
  exists replyText canvas,
    (askModel' body rows crows ≫= splitResult) = Returned (replyText, canvas)
    /\ postMessage' body rows crows
       = Returned
           (if eqb target (js "canvas") then
              let canvasObj :=
                canvasObjOf randomUUID now wantNewCanvas existingCanvas
                            (canvasTitleOf existingCanvas)
                            (mergeCanvas (baseOf wantNewCanvas existingCanvas)
                                         (chunkOf replyText canvas)) in
              let shown := if truthy (trim replyText) then replyText else js "已写入画布" in
              mkReply shown (Some (Document canvasObj))
                      [ mkRow (js "system") (CANVAS_PREFIX ++ JSON_stringify canvasObj);
                        mkRow (js "assistant") shown ]
            else
              mkReply replyText (ModelCanvas <$> canvas) [ mkRow (js "assistant") replyText ]).
Proof.
  intros target wantNewCanvas existingCanvas.
  unfold Server.postMessage, Server.askModel.
  fold target wantNewCanvas existingCanvas.
  destruct (resolveConfig_returns (modelId body)) as [config ->].
  cbn [mbind Completion_bind].
  set (messages := messagesForModel rows target wantNewCanvas existingCanvas).
  set (options := mkOptions (depthMode body) true (Some target)
                            (Some (canvasTitleOf existingCanvas))).
  destruct (callModelWithConfig_result_shape env fetch config messages options)
    as [[s ->]|(text & canvas & ->)]; cbn [splitResult mbind Completion_bind].
  - exists s, None. split; [reflexivity|]. by destruct (eqb target (js "canvas")).
  - exists (default [] (present (Some text))), canvas. split; [reflexivity|].
    by destruct (eqb target (js "canvas")).
Qed.

(** X10. A canvas-mode turn stores exactly two rows: first the marker row
    (a system row that begins with the canvas prefix) holding the very
    canvas returned to the client, then the assistant row; the assistant
    text is never blank, and the canvas content carries no white space
    at either end. *)
Theorem postMessage_canvas_rows
        (body : Server.Body) (rows : list Row) (crows : list jsstring) :
  outputTarget body = Some (js "canvas") ->
  exists reply c,
    postMessage' body rows crows = Returned reply
    /\ reply_canvas reply = Some (Document c)
    /\ inserted reply
       = [ mkRow (js "system") (CANVAS_PREFIX ++ JSON_stringify c);
           mkRow (js "assistant") (reply_content reply) ]
    /\ isCanvasRow (mkRow (js "system") (CANVAS_PREFIX ++ JSON_stringify c)) = true
    /\ truthy (trim (reply_content reply)) = true
    /\ trim (c_content c) = c_content c
    /\ c_updatedAt c = now.
Proof.
  intros Htarget.
  destruct (postMessage_reply body rows crows) as (replyText & canvas & _ & ->).
  rewrite (targetOf_canvas body Htarget), eqb_refl. cbv zeta.
  eexists _, _. split; [reflexivity|]. cbn [reply_canvas inserted reply_content].
  split; [reflexivity|]. split; [reflexivity|]. split; [|split; [|split]].
  - unfold isCanvasRow. cbn [row_role row_content]. by rewrite eqb_refl, startsWith_app.
  - by destruct (truthy (trim replyText)) eqn:Hshown.
  - unfold canvasObjOf. cbn [c_content]. unfold mergeCanvas.
    destruct (truthy _); apply trim_idem.
  - reflexivity.
Qed.

(** X11. A turn that is not in canvas mode neither reads nor writes the
    canvas: its reply is the same whatever the stored canvas markers are,
    it stores the assistant row alone, and the canvas of its reply, if
    any, is the one in the model's own answer. *)
Theorem postMessage_chat (body : Server.Body) (rows : list Row) (crows : list jsstring) :
  outputTarget body <> Some (js "canvas") ->
  postMessage' body rows crows = postMessage' body rows []
  /\ exists reply,
      postMessage' body rows crows = Returned reply
      /\ inserted reply = [ mkRow (js "assistant") (reply_content reply) ]
      /\ (forall c, reply_canvas reply <> Some (Document c)).
Proof.
  intros Htarget.
  assert (Hchat : targetOf body = js "chat")
    by (unfold targetOf; by rewrite bool_decide_eq_false_2).
  split.
  - unfold Server.postMessage, Server.askModel. by rewrite Hchat.
  - destruct (postMessage_reply body rows crows) as (replyText & canvas & _ & ->).
    rewrite Hchat. change (eqb (js "chat") (js "canvas")) with false. cbv iota.
    eexists. split; [reflexivity|]. split; [reflexivity|].
    intros c. cbn. by destruct canvas.
Qed.

End HandlerProps.

Lemma postMessage_canvas_rows_witness :
  exists reply c,
    postMessage sampleEnv (answers "Y") storedPlan printCanvas (js "uuid-2") (js "now")
                appendCanvasBody history [markerRow] = Returned reply
    /\ reply_canvas reply = Some (Document c)
    /\ inserted reply
       = [ mkRow (js "system") (CANVAS_PREFIX ++ printCanvas c);
           mkRow (js "assistant") (reply_content reply) ]
    /\ isCanvasRow (mkRow (js "system") (CANVAS_PREFIX ++ printCanvas c)) = true
    /\ truthy (trim (reply_content reply)) = true
    /\ trim (c_content c) = c_content c
    /\ c_updatedAt c = js "now".
Proof.
  apply (postMessage_canvas_rows sampleEnv (answers "Y") storedPlan printCanvas
                                 (js "uuid-2") (js "now") appendCanvasBody history [markerRow]).
  reflexivity.
Defined.

Lemma postMessage_chat_witness :
  postMessage sampleEnv (answers "Y") storedPlan printCanvas (js "uuid-2") (js "now")
              chatBody history [markerRow]
  = postMessage sampleEnv (answers "Y") storedPlan printCanvas (js "uuid-2") (js "now")
                chatBody history [].
Proof.
  apply (postMessage_chat sampleEnv (answers "Y") storedPlan printCanvas
                          (js "uuid-2") (js "now") chatBody history [markerRow]).
  vm_compute. discriminate.
Defined.

Lemma unavailable_truthy : truthy unavailable = true.
Proof. vm_compute. reflexivity. Qed.

Lemma dispatch_unreachable env fetch config messages options :
  unreachable fetch ->
  exists e, (dispatch env fetch config messages options).1 = Thrown e.
Proof.
  intros Hdown.
  assert (Hcall : forall url init failure parse,
             exists e, readReply failure parse (fetchWithRetry fetch url init adapterCfg).1
                       = Thrown e).
  { intros url init failure parse.
    destruct (RetryTrace_last_outcome _ _ _ _ _ _ _
                (fetchWithRetry_trace fetch url init adapterCfg)) as (j & _ & -> & _).
    destruct (Hdown url init j) as [err ->]. cbn. eauto. }
  unfold dispatch. destruct config as [e|key]; [|cbn [fst]; eauto].
  destruct (eqb (provider e) (js "openai")).
  { unfold callOpenAI. destruct (apiKeyOf _) as [apiKey|]; cbn [fst]; eauto. }
  destruct (eqb (provider e) (js "deepseek")).
  { unfold callDeepSeek. destruct (apiKeyOf _) as [apiKey|]; cbn [fst]; eauto. }
  destruct (eqb (provider e) (js "gemini")).
  { unfold callGemini. destruct (apiKeyOf _) as [apiKey|]; cbn [fst]; eauto. }
  cbn [fst]; eauto.
Qed.

(** X12. When the network is down during a canvas-mode turn, the turn
    still completes: the apology text is taken for the model's chunk and
    is written into the canvas (alone for a new canvas, after the prior
    content and a blank line otherwise), is persisted in the marker row,
    and the assistant text says that the canvas was written. *)
Theorem postMessage_canvas_outage
        (env : Env) (fetch : jsstring -> RequestInit -> N -> FetchOutcome)
        (JSON_parse : jsstring -> Completion JsonValue)
        (JSON_stringify : CanvasObj -> jsstring) (randomUUID now : jsstring)
        (body : Server.Body) (rows : list Row) (crows : list jsstring) :
  outputTarget body = Some (js "canvas") ->
  unreachable fetch ->
  let wantNewCanvas := wantNewCanvasOf body in
  let existingCanvas := findExistingCanvas JSON_parse (js "canvas") wantNewCanvas crows in
  let canvasObj :=
    canvasObjOf randomUUID now wantNewCanvas existingCanvas (canvasTitleOf existingCanvas)
                (mergeCanvas (baseOf wantNewCanvas existingCanvas) unavailable) in
  postMessage env fetch JSON_parse JSON_stringify randomUUID now body rows crows
  = Returned (mkReply (js "已写入画布") (Some (Document canvasObj))
                      [ mkRow (js "system") (CANVAS_PREFIX ++ JSON_stringify canvasObj);
                        mkRow (js "assistant") (js "已写入画布") ]).
Proof.
  intros Htarget Hdown wantNewCanvas existingCanvas canvasObj.
  unfold Server.postMessage, Server.askModel.
  rewrite (targetOf_canvas body Htarget). fold wantNewCanvas existingCanvas.
  destruct (resolveConfig_returns (modelId body)) as [config ->].
  cbn [mbind Completion_bind].
  set (messages := messagesForModel rows (js "canvas") wantNewCanvas existingCanvas).
  set (options := mkOptions (depthMode body) true (Some (js "canvas"))
                            (Some (canvasTitleOf existingCanvas))).
  destruct (dispatch_unreachable env fetch config messages options Hdown) as [e He].
  assert (Htitle : effectiveCanvasTitle options = canvasTitleOf existingCanvas).
  { unfold effectiveCanvasTitle, options, orDefault, or_else. cbn [opt_canvasTitle].
    by rewrite canvasTitleOf_truthy. }
  unfold callModelWithConfig, softFailure. rewrite He, Htitle.
  change (effectiveOutputTarget options) with (js "canvas").
  rewrite eqb_refl. cbn [fst splitResult mbind Completion_bind present default chunkOf content_].
  change (truthy []) with false. cbv iota. cbn [from_option id].
  rewrite unavailable_truthy. reflexivity.
Qed.

Lemma postMessage_canvas_outage_witness :
  postMessage sampleEnv offline storedPlan printCanvas (js "uuid-2") (js "now")
              appendCanvasBody history [markerRow]
  = let canvasObj :=
        mkCanvasObj (js "c-1") (js "Plan") (js "X" ++ [10; 10] ++ unavailable) (js "now") in
    Returned (mkReply (js "已写入画布") (Some (Document canvasObj))
                      [ mkRow (js "system") (CANVAS_PREFIX ++ printCanvas canvasObj);
                        mkRow (js "assistant") (js "已写入画布") ]).
Proof.
  rewrite (postMessage_canvas_outage sampleEnv offline storedPlan printCanvas
             (js "uuid-2") (js "now") appendCanvasBody history [markerRow]).
  - vm_compute. reflexivity.
  - reflexivity.
  - intros url init attempt. eexists. reflexivity.
Defined.

(** ** Canvas markers across turns *)

Lemma safeParseCanvasSystem_marker
      (JSON_parse : jsstring -> Completion JsonValue) (payload : jsstring)
      (id title : option jsstring) (content : jsstring) :
  JSON_parse payload = Returned (JsonObject id title (Some content)) ->
  safeParseCanvasSystem JSON_parse (CANVAS_PREFIX ++ payload)
  = Some (mkStoredCanvas id title content).
Proof.
  intros Hparse. unfold safeParseCanvasSystem.
  change (truthy (CANVAS_PREFIX ++ payload)) with true. cbn [negb].
  rewrite startsWith_app. cbn [negb].
  by rewrite drop_app_length, Hparse.
Qed.

Lemma canvasObjOf_id_title (randomUUID now : jsstring) (wantNewCanvas : bool)
      (existingCanvas : option StoredCanvas) (merged : jsstring) :
  let c := canvasObjOf randomUUID now wantNewCanvas existingCanvas
                       (canvasTitleOf existingCanvas) merged in
  c_title c <> [] /\ (randomUUID <> [] -> c_id c <> []).
Proof.
  intros c. subst c. unfold canvasObjOf. cbn [c_title c_id]. split.
  - pose proof (canvasTitleOf_truthy existingCanvas) as Ht.
    by destruct (canvasTitleOf existingCanvas).
  - intros Huuid. destruct existingCanvas as [stored|]; [|done].
    destruct (present (sc_id stored)) as [i|] eqn:Hi; [|done].
    apply present_truthy in Hi as [_ Hi].
    destruct (negb wantNewCanvas); [|done]. by destruct i.
Qed.

Lemma append_onto (randomUUID now : jsstring) (stored : StoredCanvas)
      (i t chunk : jsstring) :
  sc_id stored = Some i -> i <> [] ->
  sc_title stored = Some t -> t <> [] ->
  canvasObjOf randomUUID now false (Some stored) (canvasTitleOf (Some stored))
              (mergeCanvas (baseOf false (Some stored)) chunk)
  = mkCanvasObj i t (trim (sc_content stored ++ [10; 10] ++ chunk)) now.
Proof.
  intros Hid Hi Htitle Ht.
  unfold canvasObjOf, canvasTitleOf, baseOf, mergeCanvas. rewrite Hid, Htitle.
  destruct i as [|ci i]; [done|]. destruct t as [|ct t]; [done|].
  cbn [present truthy default negb andb].
  destruct (sc_content stored) as [|cx x]; reflexivity.
Qed.

(** X13. What a canvas turn persists can be read back: if [JSON.parse]
    inverts [JSON.stringify] on the canvas it wrote, parsing the marker row
    of that turn recovers the id, the title and the content of the canvas
    returned to the client. *)
Theorem marker_round_trip
        (env : Env) (fetch : jsstring -> RequestInit -> N -> FetchOutcome)
        (JSON_parse : jsstring -> Completion JsonValue)
        (JSON_stringify : CanvasObj -> jsstring) (randomUUID now : jsstring)
        (body : Server.Body) (rows : list Row) (crows : list jsstring) :
  outputTarget body = Some (js "canvas") ->
  (forall c, JSON_parse (JSON_stringify c)
             = Returned (JsonObject (Some (c_id c)) (Some (c_title c)) (Some (c_content c)))) ->
  exists reply c marker assistant,
    postMessage env fetch JSON_parse JSON_stringify randomUUID now body rows crows
    = Returned reply
    /\ reply_canvas reply = Some (Document c)
    /\ inserted reply = [mkRow (js "system") marker; assistant]
    /\ safeParseCanvasSystem JSON_parse marker
       = Some (mkStoredCanvas (Some (c_id c)) (Some (c_title c)) (c_content c)).
Proof.
  intros Htarget Hjson.
  destruct (postMessage_reply env fetch JSON_parse JSON_stringify randomUUID now
                              body rows crows) as (replyText & canvas & _ & ->).
  rewrite (targetOf_canvas body Htarget), eqb_refl. cbv zeta.
  eexists _, _, _, _. split; [reflexivity|]. cbn [reply_canvas inserted].
  split; [reflexivity|]. split; [reflexivity|].
  apply safeParseCanvasSystem_marker, Hjson.
Qed.

(** X14. Two canvas turns compose: when the marker written by a canvas
    turn is the latest one found by the next canvas turn, and that turn
    has no "new" intent, the canvas keeps its id and title and its
    content becomes the earlier content, a blank line and the new chunk,
    trimmed ([JSON.parse] inverting [JSON.stringify] on the first canvas,
    and [crypto.randomUUID()] not returning the empty string). *)
Theorem canvas_turns_compose
        (env : Env) (fetch1 fetch2 : jsstring -> RequestInit -> N -> FetchOutcome)
        (JSON_parse : jsstring -> Completion JsonValue)
        (JSON_stringify : CanvasObj -> jsstring)
        (uuid1 now1 uuid2 now2 : jsstring)
        (body1 body2 : Server.Body) (rows1 rows2 : list Row) (crows1 : list jsstring)
        (reply1 : Reply) (c1 : CanvasObj) :
  outputTarget body1 = Some (js "canvas") ->
  postMessage env fetch1 JSON_parse JSON_stringify uuid1 now1 body1 rows1 crows1
  = Returned reply1 ->
  reply_canvas reply1 = Some (Document c1) ->
  uuid1 <> [] ->
  JSON_parse (JSON_stringify c1)
  = Returned (JsonObject (Some (c_id c1)) (Some (c_title c1)) (Some (c_content c1))) ->
  outputTarget body2 = Some (js "canvas") ->
  canvasMode body2 <> Some (js "new") ->
  let crows2 := [CANVAS_PREFIX ++ JSON_stringify c1] in
  exists replyText canvas reply2,
    (askModel env fetch2 JSON_parse body2 rows2 crows2 ≫= splitResult)
    = Returned (replyText, canvas)
    /\ postMessage env fetch2 JSON_parse JSON_stringify uuid2 now2 body2 rows2 crows2
       = Returned reply2
    /\ reply_canvas reply2
       = Some (Document
                 (mkCanvasObj (c_id c1) (c_title c1)
                    (trim (c_content c1 ++ [10; 10] ++ chunkOf replyText canvas)) now2)).
Proof.
  intros Htarget1 Hpost1 Hcanvas1 Huuid Hjson Htarget2 Hmode2 crows2.
  destruct (postMessage_canvas env fetch1 JSON_parse JSON_stringify uuid1 now1
                               body1 rows1 crows1 Htarget1)
    as (replyText1 & canvas1 & reply1' & _ & Hpost1' & Hcanvas1').
  rewrite Hpost1 in Hpost1'. injection Hpost1' as <-.
  rewrite Hcanvas1 in Hcanvas1'. injection Hcanvas1' as Hc1.
  destruct (canvasObjOf_id_title uuid1 now1 (wantNewCanvasOf body1)
              (findExistingCanvas JSON_parse (js "canvas") (wantNewCanvasOf body1) crows1)
              (mergeCanvas (baseOf (wantNewCanvasOf body1)
                                   (findExistingCanvas JSON_parse (js "canvas")
                                                       (wantNewCanvasOf body1) crows1))
                           (chunkOf replyText1 canvas1)))
    as [Htitle Hid].
  rewrite <- Hc1 in Htitle, Hid. specialize (Hid Huuid).
  destruct (postMessage_canvas env fetch2 JSON_parse JSON_stringify uuid2 now2
                               body2 rows2 crows2 Htarget2)
    as (replyText & canvas & reply2 & Hask & Hpost2 & Hcanvas2).
  exists replyText, canvas, reply2. split; [exact Hask|]. split; [exact Hpost2|].
  rewrite Hcanvas2. unfold wantNewCanvasOf.
  rewrite (bool_decide_eq_false_2 _ Hmode2).
  assert (Hfound : findExistingCanvas JSON_parse (js "canvas") false crows2
                   = Some (mkStoredCanvas (Some (c_id c1)) (Some (c_title c1)) (c_content c1))).
  { unfold findExistingCanvas, crows2. rewrite eqb_refl. cbn [negb andb].
    by apply safeParseCanvasSystem_marker. }
  rewrite Hfound. do 2 f_equal. by apply append_onto.
Qed.

Lemma unframe_frame (a rest : jsstring) : unframe (frame a ++ rest) = Some (a, rest).
Proof.
  unfold unframe, frame. cbn [app]. rewrite Nat2N.id.
  by rewrite take_app_length, drop_app_length.
Qed.

Lemma readFramed_printFramed (c : CanvasObj) :
  readFramed (printFramed c)
  = Returned (JsonObject (Some (c_id c)) (Some (c_title c)) (Some (c_content c))).
Proof.
  unfold readFramed, printFramed. by rewrite !unframe_frame.
Qed.

Lemma marker_round_trip_witness :
  exists reply c marker assistant,
    postMessage sampleEnv (answers "Y") readFramed printFramed (js "uuid-1") (js "t1")
                newCanvasBody history []
    = Returned reply
    /\ reply_canvas reply = Some (Document c)
    /\ inserted reply = [mkRow (js "system") marker; assistant]
    /\ safeParseCanvasSystem readFramed marker
       = Some (mkStoredCanvas (Some (c_id c)) (Some (c_title c)) (c_content c)).
Proof.
  apply (marker_round_trip sampleEnv (answers "Y") readFramed printFramed
           (js "uuid-1") (js "t1") newCanvasBody history []).
  - reflexivity.
  - exact readFramed_printFramed.
Defined.

Lemma canvas_turns_compose_witness :
  exists replyText canvas reply2,
    (askModel sampleEnv (answers "Z") readBack appendCanvasBody history
              [CANVAS_PREFIX ++ printCanvas firstCanvas] ≫= splitResult)
    = Returned (replyText, canvas)
    /\ postMessage sampleEnv (answers "Z") readBack printCanvas (js "uuid-2") (js "t2")
                   appendCanvasBody history [CANVAS_PREFIX ++ printCanvas firstCanvas]
       = Returned reply2
    /\ reply_canvas reply2
       = Some (Document
                 (mkCanvasObj (js "uuid-1") (js "画布")
                    (trim (js "Y" ++ [10; 10] ++ chunkOf replyText canvas)) (js "t2"))).
Proof.
  eapply (canvas_turns_compose sampleEnv (answers "Y") (answers "Z") readBack printCanvas
            (js "uuid-1") (js "t1") (js "uuid-2") (js "t2")
            newCanvasBody appendCanvasBody history history [] _ firstCanvas).
  - reflexivity.
  - vm_compute. reflexivity.
  - reflexivity.
  - discriminate.
  - vm_compute. reflexivity.
  - reflexivity.
  - discriminate.
Defined.

(** ** The context sent to the model *)

Lemma startsWith_head (x y : code_unit) (p hay : jsstring) :
  x <> y -> startsWith (x :: p) (y :: hay) = false.
Proof.
  intros Hxy. cbn [startsWith]. by rewrite (proj2 (N.eqb_neq x y) Hxy).
Qed.

Lemma CANVAS_PREFIX_head : exists p, CANVAS_PREFIX = 95 :: p.
Proof. eexists. vm_compute. reflexivity. Qed.

Lemma currentCanvasTurn_head (content : jsstring) :
  exists t, currentCanvasTurn content = 12304 :: t.
Proof.
  unfold currentCanvasTurn.
  match goal with
  | |- context [?l ++ truncateForModel _ _ ++ _] =>
    assert (exists t, l = 12304 :: t) as [t ->] by (eexists; vm_compute; reflexivity)
  end.
  eexists. reflexivity.
Qed.

Lemma canvasModeRules_head : exists t, canvasModeRules = 20320 :: t.
Proof. eexists. vm_compute. reflexivity. Qed.

Lemma storedTurns_no_marker (rows : list Row) :
  Forall (fun m => isCanvasMessage m = false) (storedTurns rows).
Proof.
  unfold storedTurns. induction rows as [|r rows IH]; [constructor|].
  cbn [List.filter]. destruct (isCanvasRow r) eqn:Hr; cbn [negb List.map]; [exact IH|].
  constructor; [exact Hr | exact IH].
Qed.

(** X15. No canvas marker is ever sent to a model: none of the messages
    assembled for the model is a system message that starts with the marker
    prefix, whatever the stored rows, the target and the canvas found. The
    assembled context is the stored rows that are not markers, in order,
    followed by at most two system messages, and by none outside canvas
    mode. *)
Theorem messagesForModel_no_marker
        (rows : list Row) (target : jsstring) (wantNewCanvas : bool)
        (existingCanvas : option StoredCanvas) :
  let messages := messagesForModel rows target wantNewCanvas existingCanvas in
  Forall (fun m => isCanvasMessage m = false) messages
  /\ exists extra,
      messages = storedTurns rows ++ extra
      /\ (length extra <= 2)%nat
      /\ Forall (fun m => role m = js "system") extra
      /\ (target <> js "canvas" -> extra = []).
Proof.
  intros messages. subst messages. unfold messagesForModel.
  fold (storedTurns rows).
  destruct CANVAS_PREFIX_head as [p Hp].
  destruct canvasModeRules_head as [t Ht].
  assert (Hrules : isCanvasMessage (mkMessage (js "system") canvasModeRules) = false).
  { unfold isCanvasMessage. cbn [role content]. rewrite Hp, Ht, startsWith_head; [|done].
    apply andb_false_r. }
  assert (Hturn : forall c,
             isCanvasMessage (mkMessage (js "system") (currentCanvasTurn c)) = false).
  { intros c. destruct (currentCanvasTurn_head c) as [t' Ht'].
    unfold isCanvasMessage. cbn [role content]. rewrite Hp, Ht', startsWith_head; [|done].
    apply andb_false_r. }
  destruct (eqb target (js "canvas")) eqn:Htarget.
  - split.
    + apply Forall_app. split; [apply storedTurns_no_marker|].
      apply Forall_app. split.
      * destruct existingCanvas as [c|]; [|constructor].
        destruct (truthy (sc_content c) && negb wantNewCanvas); [|constructor].
        constructor; [apply Hturn | constructor].
      * constructor; [exact Hrules | constructor].
    + eexists. split; [reflexivity|].
      apply eqb_eq in Htarget.
      destruct existingCanvas as [c|];
        [destruct (truthy (sc_content c) && negb wantNewCanvas)|];
        cbn [app length]; (split; [lia|]); (split; [|done]);
        repeat constructor.
  - split; [apply storedTurns_no_marker|].
    exists []. rewrite app_nil_r. repeat split; [cbn; lia | constructor].
Qed.

(** ** The requests of the adapters *)

Lemma fetchWithRetry_first fetch url init cfg :
  exists rest,
    (fetchWithRetry fetch url init cfg).2 = Fetched url init 0 (fetch url init 0) :: rest.
Proof.
  eapply RetryTrace_head. apply (fetchWithRetry_trace fetch url init cfg).
Qed.

Lemma providers_distinct :
  eqb (js "deepseek") (js "openai") = false
  /\ eqb (js "gemini") (js "openai") = false
  /\ eqb (js "gemini") (js "deepseek") = false
  /\ eqb (js "chat") (js "canvas") = false.
Proof. by vm_compute. Qed.

(** X16. The request of an OpenAI model whose key is set: at least one
    request is made, and every request goes to the Responses endpoint by
    POST with the key as bearer token and names the configured model. Its
    body asks for reasoning exactly when the caller asked for depth and
    the model has the reasoning capability; it carries the web-search tool
    exactly when the caller asked for web search, the model has the
    capability and the environment switch OPENAI_WEB_SEARCH is "1". *)
Theorem callModelWithConfig_openai_request
        (env : Env) (fetch : jsstring -> RequestInit -> N -> FetchOutcome)
        (e : Entry) (messages : list Message) (options : Options) (apiKey : jsstring) :
  provider e = js "openai" ->
  apiKeyOf (OPENAI_API_KEY env) = Some apiKey ->
  let tr := (callModelWithConfig env fetch (Registered e) messages options).2 in
  (1 <= attempts tr)%nat
  /\ everyRequest
       (fun u n =>
          u = OPENAI_RESPONSES_URL
          /\ method n = js "POST"
          /\ headers n = bearer apiKey
          /\ match body n with
             | OpenAIBody m input reasoning_effort tools =>
               m = model e
               /\ (reasoning_effort <> None
                   <-> opt_depthMode options = true
                       /\ ModelConfig.reasoning (capabilities e) = true)
               /\ (tools <> None
                   <-> opt_webSearch options = true
                       /\ ModelConfig.webSearch (capabilities e) = true
                       /\ OPENAI_WEB_SEARCH env = Some (js "1"))
             | _ => False
             end) tr.
Proof.
  intros Hprovider Hkey tr. subst tr. rewrite callModelWithConfig_trace.
  unfold dispatch. rewrite Hprovider, eqb_refl. unfold callOpenAI. rewrite Hkey.
  cbv zeta. cbn [snd].
  split.
  - match goal with
    | |- context [fetchWithRetry fetch ?url ?init ?cfg] =>
      destruct (fetchWithRetry_first fetch url init cfg) as [rest ->]
    end.
    unfold attempts. cbn [List.filter isFetched length]. lia.
  - apply everyRequest_fetchWithRetry.
    split; [reflexivity|]. split; [reflexivity|]. split; [reflexivity|].
    unfold openAIBody. cbn [body]. split; [reflexivity|].
    unfold effectiveDepthMode, effectiveWebSearch, capability. cbn [config_capabilities].
    split.
    + destruct (opt_depthMode options), (ModelConfig.reasoning (capabilities e));
        cbn [andb]; split; try done; by intros [? ?].
    + destruct (opt_webSearch options), (ModelConfig.webSearch (capabilities e));
        cbn [andb]; try (split; [done | by intros (? & ? & ?)]).
      destruct (bool_decide (OPENAI_WEB_SEARCH env = Some (js "1"))) eqn:Hsw.
      * apply (bool_decide_eq_true_1 _) in Hsw. done.
      * apply (bool_decide_eq_false_1 _) in Hsw. split; [done | by intros (? & ? & ?)].
Qed.

Lemma callModelWithConfig_openai_request_witness :
  let tr := (callModelWithConfig searchEnv (answers "ok") gpt_5 hello chatOptions).2 in
  (1 <= attempts tr)%nat
  /\ everyRequest
       (fun u n =>
          u = OPENAI_RESPONSES_URL
          /\ method n = js "POST"
          /\ headers n = bearer (js "sk-openai")
          /\ match body n with
             | OpenAIBody m input reasoning_effort tools =>
               m = js "gpt-5"
               /\ (reasoning_effort <> None <-> true = true /\ true = true)
               /\ (tools <> None
                   <-> true = true /\ true = true
                       /\ OPENAI_WEB_SEARCH searchEnv = Some (js "1"))
             | _ => False
             end) tr.
Proof.
  apply (callModelWithConfig_openai_request searchEnv (answers "ok")
           (entry "openai" "gpt-5" true true true true) hello chatOptions (js "sk-openai")).
  - reflexivity.
  - reflexivity.
Defined.

Lemma messagesForModel_without_system (rows : list Row) (target : jsstring)
      (wantNewCanvas : bool) (existingCanvas : option StoredCanvas) :
  List.filter (fun m => negb (eqb (role m) (js "system")))
              (messagesForModel rows target wantNewCanvas existingCanvas)
  = List.filter (fun m => negb (eqb (role m) (js "system"))) (storedTurns rows).
Proof.
  unfold messagesForModel. fold (storedTurns rows).
  destruct (eqb target (js "canvas")); [|reflexivity].
  rewrite !List.filter_app.
  replace (List.filter _ [mkMessage (js "system") canvasModeRules]) with (@nil Message)
    by (cbn [List.filter role]; by rewrite eqb_refl).
  destruct existingCanvas as [c|]; [|by rewrite !app_nil_r].
  destruct (truthy (sc_content c) && negb wantNewCanvas); [|by rewrite !app_nil_r].
  cbn [List.filter role]. rewrite eqb_refl. cbn [negb]. by rewrite !app_nil_r.
Qed.

Lemma geminiContents_roles (messages : list Message) :
  Forall (fun c => g_role c = js "user" \/ g_role c = js "model")
         (geminiContentsOf messages)
  /\ (length (geminiContentsOf messages) <= length messages)%nat.
Proof.
  unfold geminiContentsOf. split.
  - apply Forall_forall. intros c Hin. apply list_elem_of_In, in_map_iff in Hin.
    destruct Hin as (m & <- & _). cbn [g_role].
    destruct (eqb (role m) (js "user")); [by left | by right].
  - rewrite length_map. apply List.filter_length_le.
Qed.

(** X17. A Gemini model never sees a system turn: the roles of the
    contents it is sent are "user" and "model" only, and there are no more
    contents than stored rows. So the canvas instructions that the handler
    appends in canvas mode are lost on the way: the call made with the
    canvas-mode context is, request for request and in its result, the
    call made with the chat-mode context of the same rows. *)
Theorem callModelWithConfig_gemini_context
        (env : Env) (fetch : jsstring -> RequestInit -> N -> FetchOutcome)
        (e : Entry) (rows : list Row) (wantNewCanvas : bool)
        (existingCanvas : option StoredCanvas) (options : Options) :
  provider e = js "gemini" ->
  let canvasContext := messagesForModel rows (js "canvas") wantNewCanvas existingCanvas in
  let chatContext := messagesForModel rows (js "chat") wantNewCanvas existingCanvas in
  callModelWithConfig env fetch (Registered e) canvasContext options
  = callModelWithConfig env fetch (Registered e) chatContext options
  /\ everyRequest
       (fun u n =>
          match body n with
          | GeminiBody contents _ =>
            Forall (fun c => g_role c = js "user" \/ g_role c = js "model") contents
            /\ (length contents <= length rows)%nat
          | _ => False
          end)
       (callModelWithConfig env fetch (Registered e) canvasContext options).2.
Proof.
  intros Hprovider canvasContext chatContext.
  destruct providers_distinct as (_ & Hgo & Hgd & _).
  assert (Hdispatch : forall messages,
             dispatch env fetch (Registered e) messages options
             = callGemini env fetch (model e) messages (effectiveDepthMode (Registered e) options)).
  { intros messages. unfold dispatch. by rewrite Hprovider, Hgo, Hgd, eqb_refl. }
  assert (Hcall : forall messages,
             callGemini env fetch (model e) messages (effectiveDepthMode (Registered e) options)
             = match apiKeyOf (GEMINI_API_KEY env) with
               | None => (Thrown (Error (js "缺少 GEMINI_API_KEY")), [])
               | Some apiKey =>
                 let r := fetchWithRetry fetch
                            (GEMINI_BASE ++ js "/models/" ++ model e
                             ++ js ":generateContent?key=" ++ apiKey)
                            (mkRequestInit (js "POST")
                               [(js "Content-Type", js "application/json")]
                               (GeminiBody (geminiContentsOf messages)
                                  (mkGenerationConfig
                                     (if effectiveDepthMode (Registered e) options
                                      then 2 else 8))))
                            adapterCfg in
                 (readReply (js "Gemini 调用失败")
                            (fun j => RawString (orDefault (candidate_text j) [])) r.1, r.2)
               end) by reflexivity.
  assert (Hcontents : geminiContentsOf canvasContext = geminiContentsOf chatContext).
  { unfold geminiContentsOf, canvasContext, chatContext.
    by rewrite !messagesForModel_without_system. }
  split.
  - unfold callModelWithConfig. rewrite !Hdispatch, !Hcall, Hcontents. reflexivity.
  - rewrite callModelWithConfig_trace, Hdispatch, Hcall.
    destruct (apiKeyOf (GEMINI_API_KEY env)) as [apiKey|]; [|apply everyRequest_nil].
    cbv zeta. cbn [snd]. apply everyRequest_fetchWithRetry. cbn [body].
    destruct (geminiContents_roles canvasContext) as [Hroles _].
    split; [exact Hroles|].
    unfold geminiContentsOf, canvasContext.
    rewrite messagesForModel_without_system, length_map.
    etrans; [apply List.filter_length_le|].
    unfold storedTurns. rewrite length_map. apply List.filter_length_le.
Qed.

Lemma callModelWithConfig_gemini_context_witness :
  let e := entry "gemini" "gemini-2.5-flash" false false true false in
  let canvasContext := messagesForModel history (js "canvas") false None in
  let chatContext := messagesForModel history (js "chat") false None in
  callModelWithConfig sampleEnv (answers "ok") (Registered e) canvasContext canvasOptions
  = callModelWithConfig sampleEnv (answers "ok") (Registered e) chatContext canvasOptions
  /\ everyRequest
       (fun u n =>
          match body n with
          | GeminiBody contents _ =>
            Forall (fun c => g_role c = js "user" \/ g_role c = js "model") contents
            /\ (length contents <= length history)%nat
          | _ => False
          end)
       (callModelWithConfig sampleEnv (answers "ok") (Registered e) canvasContext
                            canvasOptions).2.
Proof.
  apply (callModelWithConfig_gemini_context sampleEnv (answers "ok")
           (entry "gemini" "gemini-2.5-flash" false false true false)
           history false None canvasOptions).
  reflexivity.
Defined.

(** ** The legacy entry point *)

(** X18. The legacy [callModel] hands its fourth argument to [callOpenAI]
    in the place of the options object, so for OpenAI the flag is lost:
    whatever primitive is passed, no request asks for reasoning or carries
    a tool, and the input is the plain transcript without the canvas hint.
    Passed [null], it answers the apology without any request. The
    chat-completion providers do get the flag, as the low temperature. *)
Theorem callModel_flag
        (env : Env) (fetch : jsstring -> RequestInit -> N -> FetchOutcome)
        (provider model : jsstring) (messages : list Message)
        (depthMode : LegacyDepthMode) :
  everyRequest
    (fun u n =>
       match body n with
       | OpenAIBody m input reasoning_effort tools =>
         reasoning_effort = None /\ tools = None
         /\ input = join [10] (List.map (fun m => role m ++ js ": " ++ content m) messages)
       | DeepSeekBody _ sent tenths =>
         sent = messages /\ (tenths = 2 <-> legacyTruthy depthMode = true)
       | GeminiBody _ (mkGenerationConfig tenths) =>
         tenths = 2 <-> legacyTruthy depthMode = true
       end)
    (callModel env fetch provider model messages depthMode).2
  /\ callModel env fetch (js "openai") model messages DepthNull
     = (RawString unavailable, []).
Proof.
  split.
  2: { pose proof (eqb_refl (js "openai")) as Hopenai. unfold callModel.
       by destruct (eqb (js "openai") (js "openai")). }
  match goal with |- everyRequest ?P _ => set (Q := P) end.
  assert (Hopen : everyRequest Q (callOpenAI env fetch model messages false false []).2).
  { unfold callOpenAI. destruct (apiKeyOf _) as [apiKey|]; [|apply everyRequest_nil].
    cbv zeta. cbn [snd]. apply everyRequest_fetchWithRetry.
    unfold Q, openAIBody. cbn [body andb].
    replace (eqb [] (js "canvas")) with false by (by vm_compute).
    done. }
  assert (Hdeep : everyRequest Q
                    (callDeepSeek env fetch model messages (legacyTruthy depthMode)).2).
  { unfold callDeepSeek. destruct (apiKeyOf _) as [apiKey|]; [|apply everyRequest_nil].
    cbv zeta. cbn [snd]. apply everyRequest_fetchWithRetry. unfold Q. cbn [body].
    split; [reflexivity|]. by destruct (legacyTruthy depthMode). }
  assert (Hgem : everyRequest Q
                   (callGemini env fetch model messages (legacyTruthy depthMode)).2).
  { unfold callGemini. destruct (apiKeyOf _) as [apiKey|]; [|apply everyRequest_nil].
    cbv zeta. cbn [snd]. apply everyRequest_fetchWithRetry. unfold Q. cbn [body].
    by destruct (legacyTruthy depthMode). }
  clearbody Q. unfold callModel.
  destruct (eqb provider (js "openai")).
  { unfold callOpenAI_legacy.
    destruct depthMode as [| |b];
      [| cbn [fst snd]; apply everyRequest_nil |];
      destruct (callOpenAI env fetch model messages false false []).1;
      cbn [snd]; exact Hopen. }
  destruct (eqb provider (js "deepseek")).
  { destruct (callDeepSeek env fetch model messages (legacyTruthy depthMode)).1;
      cbn [snd]; exact Hdeep. }
  destruct (eqb provider (js "gemini")); [|apply everyRequest_nil].
  destruct (callGemini env fetch model messages (legacyTruthy depthMode)).1;
    cbn [snd]; exact Hgem.
Qed.

(** ** Extraction: errors, directories and plain archives *)

Section ExtractionProps.

Variable extname : jsstring -> jsstring.
Variable toLowerCase : jsstring -> jsstring.

#[local] Abbreviation analyze' := (analyzeFileBuffer extname toLowerCase).

Lemma analyzeFileBuffer_errors_in (buffer : Buffer) :
  forall fileName depth w e,
    (analyze' fileName buffer depth w).1 = Thrown e -> e ∈ parserErrors buffer.
Proof.
  induction buffer as [n utf8 unzipped pdf xlsx vision IH] using Buffer_nested_ind.
  intros fileName depth w e. cbn [analyzeFileBuffer parserErrors].
  destruct (3 <? depth); [discriminate|].
  destruct (eqb _ _).
  { destruct unzipped as [fs|e0].
    - cbn [directoryOf] in IH. intros Hloop.
      rewrite !elem_of_app. do 3 right.
      revert Hloop. generalize (zipBanner fileName). revert w.
      induction IH as [|[type path fbuffer] rest Hf _ IHrest]; intros w out;
        [discriminate|].
      cbn [zipLoop].
      destruct (negb (eqb type (js "File"))).
      { intros Hloop. specialize (IHrest _ _ Hloop).
        destruct fbuffer; [apply elem_of_app | apply elem_of_cons]; by right. }
      destruct (MAX_ZIP_FILES <? _); [discriminate|].
      destruct fbuffer as [childBuf|e0].
      + destruct (MAX_ZIP_TOTAL_BYTES <? _); [discriminate|].
        cbv zeta. cbn [entryBuffer] in Hf.
        destruct (analyze' path childBuf (depth + 1) _) as [[text|e1] w1] eqn:Hchild;
          cbn [fst snd]; intros Hloop; apply elem_of_app.
        * right. by eapply IHrest.
        * left. injection Hloop as <-. eapply Hf. by rewrite Hchild.
      + cbn [fst]. intros [= <-]. by left.
    - cbn [fst]. intros [= <-]. rewrite !elem_of_app. do 3 right. by left. }
  destruct (bool_decide _).
  { destruct utf8; cbn [fst mbind Completion_bind]; [discriminate|]. intros [= <-].
    by left. }
  destruct (eqb _ _).
  { destruct pdf; cbn [fst mbind Completion_bind]; [discriminate|]. intros [= <-].
    rewrite !elem_of_app. right. left. by left. }
  destruct (eqb _ _).
  { destruct xlsx; cbn [fst mbind Completion_bind]; [discriminate|]. intros [= <-].
    rewrite !elem_of_app. right. right. left. by left. }
  destruct (bool_decide _); [by destruct (vision _)|].
  by destruct utf8.
Qed.

(** X19. The extractor throws no error of its own: whatever an analysis
    throws was thrown by a parser of the tree, that is by the text
    decoding, the unzipper, the PDF or spreadsheet parser, or the reading
    of an archive entry. A failure of the vision call is never among the
    errors thrown. *)
Theorem analyzeFileBuffer_errors (fileName : jsstring) (buffer : Buffer) (e : Exn) :
  (analyzeUpload extname toLowerCase fileName buffer).1 = Thrown e ->
  e ∈ parserErrors buffer.
Proof. apply analyzeFileBuffer_errors_in. Qed.

Lemma zipLoop_directories
      (rec : jsstring -> Buffer -> N -> Run -> Completion jsstring * Run)
      (depth : N) (fs : list ZipFile) :
  forall out w,
    zipLoop rec depth fs out w = zipLoop rec depth (List.filter isFileEntry fs) out w.
Proof.
  induction fs as [|[type path fbuffer] rest IH]; intros out w; [reflexivity|].
  cbn [List.filter]. unfold isFileEntry at 1. cbn [f_type].
  destruct (eqb type (js "File")) eqn:Htype.
  - cbn [zipLoop]. rewrite Htype. cbn [negb].
    destruct (MAX_ZIP_FILES <? _); [reflexivity|].
    destruct fbuffer as [childBuf|e]; [|reflexivity].
    destruct (MAX_ZIP_TOTAL_BYTES <? _); [reflexivity|].
    cbv zeta. destruct (rec path childBuf (depth + 1) _).1; [apply IH | reflexivity].
  - cbn [zipLoop]. rewrite Htype. cbn [negb]. apply IH.
Qed.

(** X20. Directory entries of an archive are passed over: an archive
    gives the same text, the same counters and the same expansions as the
    archive with only its "File" entries, so an entry of another type
    costs no quota and is never read. *)
Theorem analyzeFileBuffer_directories
        (fileName : jsstring) (depth : N) (w : Run)
        (n : N) (utf8 : Completion jsstring) (fs : list ZipFile)
        (pdf xlsx : Completion jsstring) (vision : jsstring -> Completion jsstring) :
  analyze' fileName (mkBuffer n utf8 (Returned fs) pdf xlsx vision) depth w
  = analyze' fileName
             (mkBuffer n utf8 (Returned (List.filter isFileEntry fs)) pdf xlsx vision)
             depth w.
Proof.
  cbn [analyzeFileBuffer].
  destruct (3 <? depth); [reflexivity|].
  destruct (eqb _ _); [apply zipLoop_directories | reflexivity].
Qed.

Lemma analyzeFileBuffer_plain (fileName : jsstring) (buffer : Buffer) (depth : N) (w : Run) :
  toLowerCase (extname fileName) <> js ".zip" ->
  analyze' fileName buffer depth w = ((analyze' fileName buffer depth freshRun).1, w).
Proof.
  intros Hext. destruct buffer as [n utf8 unzipped pdf xlsx vision].
  cbn [analyzeFileBuffer].
  destruct (3 <? depth); [reflexivity|].
  destruct (eqb _ _) eqn:Hzip; [by apply eqb_eq in Hzip|clear Hzip].
  destruct (bool_decide _); [reflexivity|].
  destruct (eqb _ _); [reflexivity|].
  destruct (eqb _ _); [reflexivity|].
  destruct (bool_decide _); [by destruct (vision _)|].
  by destruct utf8.
Qed.

(** X21. A file that is not an archive costs no quota: its analysis
    leaves the counters and the expansions as they were, and its text does
    not depend on them. If it is, moreover, neither of the text family nor
    a PDF nor a spreadsheet (so an image, or a file of unknown type), its
    analysis returns whatever the vision call or the decoding does. *)
Theorem analyzeFileBuffer_not_archive
        (fileName : jsstring) (buffer : Buffer) (depth : N) (w : Run) :
  let ext := toLowerCase (extname fileName) in
  ext <> js ".zip" ->
  (analyze' fileName buffer depth w).2 = w
  /\ (analyze' fileName buffer depth w).1 = (analyze' fileName buffer depth freshRun).1
  /\ (ext ∉ [js ".txt"; js ".md"; js ".json"; js ".log"; js ".csv"; js ".pdf"; js ".xlsx"] ->
      exists text, (analyze' fileName buffer depth w).1 = Returned text).
Proof.
  intros ext Hext. rewrite (analyzeFileBuffer_plain fileName buffer depth w Hext).
  split; [reflexivity|]. split; [reflexivity|].
  intros Hother. cbn [fst]. destruct buffer as [n utf8 unzipped pdf xlsx vision].
  cbn [analyzeFileBuffer]. fold ext.
  destruct (3 <? depth); [by eexists|].
  destruct (eqb ext (js ".zip")) eqn:Hzip; [by apply eqb_eq in Hzip|clear Hzip].
  destruct (bool_decide _) eqn:Htext.
  { apply (bool_decide_eq_true_1 _) in Htext. exfalso. apply Hother.
    rewrite !elem_of_cons in Htext. rewrite !elem_of_cons. tauto. }
  clear Htext.
  destruct (eqb ext (js ".pdf")) eqn:Hpdf.
  { apply eqb_eq in Hpdf. exfalso. apply Hother. rewrite !elem_of_cons. tauto. }
  destruct (eqb ext (js ".xlsx")) eqn:Hxlsx.
  { apply eqb_eq in Hxlsx. exfalso. apply Hother. rewrite !elem_of_cons. tauto. }
  clear Hpdf Hxlsx.
  destruct (bool_decide _); [destruct (vision _); by eexists|].
  destruct utf8; by eexists.
Qed.

Lemma zipLoop_plain (depth : N) (fs : list ZipFile) (texts : list jsstring) :
  Forall2 (fun f text =>
             f_type f = js "File"
             /\ toLowerCase (extname (f_path f)) <> js ".zip"
             /\ exists b, f_buffer f = Returned b
                          /\ (analyze' (f_path f) b (depth + 1) freshRun).1 = Returned text)
          fs texts ->
  forall out w,
    files (zipState w) + N.of_nat (length fs) <= MAX_ZIP_FILES ->
    bytes (zipState w) + foldr (fun f acc => entryBytes f + acc) 0 fs <= MAX_ZIP_TOTAL_BYTES ->
    zipLoop analyze' depth fs out w
    = (Returned (out ++ concat (zip_with (fun f text => entryHeader (f_path f) ++ text)
                                         fs texts)),
       mkRun (mkZipState (files (zipState w) + N.of_nat (length fs))
                         (bytes (zipState w) + foldr (fun f acc => entryBytes f + acc) 0 fs))
             (expanded w ++ List.map (fun f => (f_path f, entryBytes f)) fs)).
Proof.
  induction 1 as [|[type path fbuffer] text rest texts (Htype & Hext & b & Hb & Htext) _ IH];
    intros out w Hfiles Hbytes.
  { cbn [zipLoop zip_with concat length foldr List.map].
    rewrite !app_nil_r, !N.add_0_r. by destruct w as [[? ?] ?]. }
  cbn [f_type f_path f_buffer] in Htype, Hext, Hb, Htext. subst type fbuffer.
  cbn [length foldr] in Hfiles, Hbytes.
  unfold entryBytes in Hbytes at 1. cbn [f_buffer] in Hbytes.
  cbn [zipLoop]. rewrite eqb_refl. cbn [negb].
  destruct (N.ltb_spec MAX_ZIP_FILES (files (zipState (countFile w)))) as [Hgt|_];
    [cbn in Hgt; lia|].
  destruct (N.ltb_spec MAX_ZIP_TOTAL_BYTES
                       (bytes (zipState (countBytes (buf_length b) (countFile w)))))
    as [Hgt|_]; [cbn in Hgt; lia|].
  cbv zeta. rewrite (analyzeFileBuffer_plain path b (depth + 1) _ Hext), Htext.
  cbn [fst snd]. rewrite IH.
  - cbn [zip_with concat length foldr List.map f_path zipState files bytes expanded
         expand countBytes countFile].
    change (entryBytes (mkZipFile (js "File") path (Returned b))) with (buf_length b).
    rewrite <- !app_assoc. cbn [app].
    replace (files (zipState w) + 1 + N.of_nat (length rest))
      with (files (zipState w) + N.of_nat (S (length rest))) by lia.
    by rewrite N.add_assoc.
  - cbn. lia.
  - cbn. lia.
Qed.

(** X22. An uploaded archive whose entries are files that are not
    archives, each analysed without error, and that stays within both
    quotas, yields the banner followed by the text of every entry under
    its path header, in directory order; the counters end at the number of
    entries and at their total size, and every entry has been expanded. *)
Theorem analyzeUpload_plain_archive
        (fileName : jsstring) (n : N) (utf8 : Completion jsstring) (fs : list ZipFile)
        (pdf xlsx : Completion jsstring) (vision : jsstring -> Completion jsstring)
        (texts : list jsstring) :
  toLowerCase (extname fileName) = js ".zip" ->
  Forall2 (fun f text =>
             f_type f = js "File"
             /\ toLowerCase (extname (f_path f)) <> js ".zip"
             /\ entryText extname toLowerCase f = Returned text) fs texts ->
  N.of_nat (length fs) <= MAX_ZIP_FILES ->
  foldr (fun f acc => entryBytes f + acc) 0 fs <= MAX_ZIP_TOTAL_BYTES ->
  analyzeUpload extname toLowerCase fileName (mkBuffer n utf8 (Returned fs) pdf xlsx vision)
  = (Returned (zipBanner fileName
               ++ concat (zip_with (fun f text => entryHeader (f_path f) ++ text) fs texts)),
     mkRun (mkZipState (N.of_nat (length fs))
                       (foldr (fun f acc => entryBytes f + acc) 0 fs))
           (List.map (fun f => (f_path f, entryBytes f)) fs)).
Proof.
  intros Hzip Hplain Hfiles Hbytes. unfold analyzeUpload. cbn [analyzeFileBuffer].
  replace (3 <? 0) with false by reflexivity.
  rewrite Hzip, eqb_refl.
  rewrite (zipLoop_plain 0 fs texts); [reflexivity| |exact Hfiles|exact Hbytes].
  eapply Forall2_impl; [exact Hplain|].
  intros [type path fbuffer] text (Htype & Hext & Htext).
  split; [exact Htype|]. split; [exact Hext|].
  unfold entryText in Htext. cbn [f_buffer f_path] in *.
  destruct fbuffer as [b|e]; [|discriminate]. by exists b.
Qed.

End ExtractionProps.

Lemma analyzeFileBuffer_errors_witness :
  Error (js "Invalid PDF structure") ∈ parserErrors brokenPdf.
Proof.
  apply (analyzeFileBuffer_errors lastDotSuffix asciiLower (js "report.pdf")).
  vm_compute. reflexivity.
Defined.

Lemma analyzeFileBuffer_not_archive_witness :
  let w := mkRun (mkZipState 7 1024) [(js "a.txt", 5)] in
  (analyzeFileBuffer lastDotSuffix asciiLower (js "photo.PNG") photo 1 w).2 = w
  /\ (analyzeFileBuffer lastDotSuffix asciiLower (js "photo.PNG") photo 1 w).1
     = (analyzeFileBuffer lastDotSuffix asciiLower (js "photo.PNG") photo 1 freshRun).1
  /\ (asciiLower (lastDotSuffix (js "photo.PNG"))
        ∉ [js ".txt"; js ".md"; js ".json"; js ".log"; js ".csv"; js ".pdf"; js ".xlsx"] ->
      exists text,
        (analyzeFileBuffer lastDotSuffix asciiLower (js "photo.PNG") photo 1 w).1
        = Returned text).
Proof.
  apply (analyzeFileBuffer_not_archive lastDotSuffix asciiLower (js "photo.PNG") photo 1
           (mkRun (mkZipState 7 1024) [(js "a.txt", 5)])).
  by vm_compute.
Defined.

Lemma analyzeUpload_plain_archive_witness :
  analyzeUpload lastDotSuffix asciiLower (js "notes.zip") (zipBuffer 4096 threeNotes)
  = (Returned (zipBanner (js "notes.zip")
               ++ concat (zip_with (fun f text => entryHeader (f_path f) ++ text)
                                   threeNotes
                                   [block (js "文本文件") (js "a.txt") (js "alpha");
                                    block (js "文本文件") (js "docs/b.md") (js "beta");
                                    block (js "文本文件") (js "c.csv") (js "1,2")])),
     mkRun (mkZipState 3 12)
           [(js "a.txt", 5); (js "docs/b.md", 4); (js "c.csv", 3)]).
Proof.
  apply (analyzeUpload_plain_archive lastDotSuffix asciiLower (js "notes.zip") 4096
           (Returned []) threeNotes noPdf noXlsx noVision).
  - by vm_compute.
  - repeat constructor; by vm_compute.
  - by vm_compute.
  - by vm_compute.
Defined.

(** ** Attachment ids, the automatic title and the bearer token *)

Lemma setOf_sublist (seen xs : list JsNumber) : setOf seen xs `sublist_of` xs.
Proof.
  revert seen. induction xs as [|x xs IH]; intros seen; [constructor|].
  cbn [setOf]. destruct (bool_decide (x ∈ seen)).
  - apply sublist_cons, IH.
  - apply sublist_skip, IH.
Qed.

Lemma setOf_fresh (seen xs : list JsNumber) (x : JsNumber) :
  x ∈ setOf seen xs -> x ∉ seen.
Proof.
  revert seen. induction xs as [|y xs IH]; intros seen; cbn [setOf]; [by intros ?%elem_of_nil|].
  destruct (bool_decide (y ∈ seen)) eqn:Hy; [apply IH|].
  apply (bool_decide_eq_false_1 _) in Hy.
  intros [->|Hin]%elem_of_cons; [exact Hy|].
  apply IH in Hin. rewrite elem_of_cons in Hin. tauto.
Qed.

Lemma setOf_NoDup (seen xs : list JsNumber) : NoDup (setOf seen xs).
Proof.
  revert seen. induction xs as [|y xs IH]; intros seen; cbn [setOf]; [constructor|].
  destruct (bool_decide (y ∈ seen)); [apply IH|].
  constructor; [|apply IH].
  intros Hin%setOf_fresh. apply Hin. by left.
Qed.

Lemma setOf_complete (seen xs : list JsNumber) (x : JsNumber) :
  x ∈ xs -> x ∈ seen \/ x ∈ setOf seen xs.
Proof.
  revert seen. induction xs as [|y xs IH]; intros seen; [by intros ?%elem_of_nil|].
  cbn [setOf]. intros [->|Hin]%elem_of_cons.
  - destruct (bool_decide (y ∈ seen)) eqn:Hy.
    + left. by apply (bool_decide_eq_true_1 _) in Hy.
    + right. by left.
  - destruct (bool_decide (y ∈ seen)); [by apply IH|].
    destruct (IH (y :: seen) Hin) as [[->|Hseen]%elem_of_cons|Hset].
    + right. by left.
    + by left.
    + right. by right.
Qed.

Lemma filter_sublist {A : Type} (f : A -> bool) (l : list A) : List.filter f l `sublist_of` l.
Proof.
  induction l as [|a l IH]; [constructor|]. cbn [List.filter].
  destruct (f a); [by apply sublist_skip | by apply sublist_cons].
Qed.

Lemma filter_filter {A : Type} (P Q : A -> bool) (l : list A) :
  List.filter P (List.filter Q l) = List.filter (fun y => Q y && P y) l.
Proof.
  induction l as [|a l IH]; [reflexivity|]. cbn [List.filter].
  destruct (Q a); cbn [andb List.filter]; [|exact IH]. by rewrite IH.
Qed.

Lemma setOf_firstOccurrences (seen l : list JsNumber) :
  setOf seen l
  = List.filter (fun y => negb (bool_decide (y ∈ seen))) (firstOccurrences l).
Proof.
  revert seen. induction l as [|x l IH]; intros seen; [reflexivity|].
  cbn [setOf firstOccurrences List.filter].
  destruct (bool_decide (x ∈ seen)) eqn:Hx; cbn [negb].
  - apply (bool_decide_eq_true_1 _) in Hx.
    rewrite IH, filter_filter. apply List.filter_ext. intros y.
    destruct (bool_decide (y = x)) eqn:Hy; cbn [negb andb]; [|reflexivity].
    apply (bool_decide_eq_true_1 _) in Hy. subst y.
    by rewrite (bool_decide_eq_true_2 _ Hx).
  - f_equal. rewrite IH, filter_filter. apply List.filter_ext. intros y.
    destruct (bool_decide (y = x)) eqn:Hy; cbn [negb andb].
    + apply (bool_decide_eq_true_1 _) in Hy. subst y.
      rewrite bool_decide_eq_true_2; [reflexivity | by left].
    + apply (bool_decide_eq_false_1 _) in Hy. f_equal.
      apply bool_decide_ext. rewrite elem_of_cons. tauto.
Qed.

(** X23. The attachment ids of a message are the distinct positive finite
    numbers of the request in the order of their first occurrence, cut
    after the twentieth: they are distinct, positive and finite, at most
    twenty, and when fewer than twenty are kept, every positive finite
    number of the request is among them. *)
Theorem fileIdsOf_shape (numbers : list JsNumber) :
  let fileIds := fileIdsOf numbers in
  fileIds = take 20 (firstOccurrences (List.filter isPositiveFinite numbers))
  /\ NoDup fileIds
  /\ (length fileIds <= 20)%nat
  /\ Forall (fun n => isPositiveFinite n = true) fileIds
  /\ fileIds `sublist_of` numbers
  /\ ((length fileIds < 20)%nat ->
      forall n, n ∈ numbers -> isPositiveFinite n = true -> n ∈ fileIds).
Proof.
  intros fileIds. subst fileIds. unfold fileIdsOf.
  set (kept := List.filter isPositiveFinite numbers).
  assert (Hsub : take 20 (setOf [] kept) `sublist_of` kept).
  { etrans; [apply sublist_take | apply setOf_sublist]. }
  split.
  { rewrite setOf_firstOccurrences. f_equal.
    induction (firstOccurrences kept) as [|a l IH]; [reflexivity|].
    cbn [List.filter]. rewrite bool_decide_eq_false_2 by apply not_elem_of_nil.
    cbn [negb]. by rewrite IH. }
  split; [eapply sublist_NoDup; [apply setOf_NoDup | apply sublist_take]|].
  split; [rewrite length_take; lia|].
  split.
  { apply Forall_forall. intros n Hn.
    eapply elem_of_sublist in Hn; [|exact Hsub].
    apply list_elem_of_In, List.filter_In in Hn. tauto. }
  split; [etrans; [exact Hsub | apply filter_sublist]|].
  intros Hlen n Hin Hpos. rewrite length_take in Hlen.
  rewrite take_ge by lia.
  destruct (setOf_complete [] kept n) as [Hnil|Hset]; [|by apply elem_of_nil in Hnil|exact Hset].
  apply list_elem_of_In, List.filter_In. split; [by apply list_elem_of_In | exact Hpos].
Qed.

Lemma collapseWhiteSpace_singleSpaced (inRun : bool) (s : jsstring) :
  singleSpaced (collapseWhiteSpace inRun s) = true
  /\ (inRun = true ->
      match collapseWhiteSpace inRun s with
      | d :: _ => isWhiteSpace d = false
      | [] => True
      end).
Proof.
  revert inRun. induction s as [|c s IH]; intros inRun; [done|].
  cbn [collapseWhiteSpace]. destruct (isWhiteSpace c) eqn:Hc.
  - destruct (IH true) as [Hs Hhead]. specialize (Hhead eq_refl).
    destruct inRun; [done|]. split; [|discriminate].
    cbn [singleSpaced]. replace (isWhiteSpace 32) with true by reflexivity.
    rewrite Hs. cbn [N.eqb Pos.eqb andb].
    destruct (collapseWhiteSpace true s) as [|d t]; [reflexivity|]. by rewrite Hhead.
  - destruct (IH false) as [Hs _]. split; [|done].
    cbn [singleSpaced]. by rewrite Hc, Hs.
Qed.

Lemma singleSpaced_app (a b : jsstring) :
  singleSpaced (a ++ b) = true -> singleSpaced a = true /\ singleSpaced b = true.
Proof.
  induction a as [|c a IH]; [done|].
  cbn [app singleSpaced]. intros [Hc Hrest]%andb_true_iff.
  destruct (IH Hrest) as [Ha Hb]. split; [|exact Hb].
  rewrite Ha, andb_true_r.
  destruct (isWhiteSpace c); [|reflexivity].
  apply andb_true_iff in Hc as [-> Hnext]. by destruct a.
Qed.

Lemma trimStart_suffix (s : jsstring) : exists a, s = a ++ trimStart s.
Proof.
  induction s as [|c s [a IH]]; [by exists []|]. cbn [trimStart].
  destruct (isWhiteSpace c); [|by exists []].
  exists (c :: a). cbn [app]. by rewrite <- IH.
Qed.

Lemma trimEnd_prefix (s : jsstring) : exists b, s = trimEnd s ++ b.
Proof.
  unfold trimEnd. destruct (trimStart_suffix (rev s)) as [a Ha].
  exists (rev a). by rewrite <- rev_app_distr, <- Ha, rev_involutive.
Qed.

Lemma trim_singleSpaced (s : jsstring) :
  singleSpaced s = true -> singleSpaced (trim s) = true.
Proof.
  intros Hs. unfold trim.
  destruct (trimStart_suffix s) as [a Ha]. rewrite Ha in Hs.
  apply singleSpaced_app in Hs as [_ Hs].
  destruct (trimEnd_prefix (trimStart s)) as [b Hb]. rewrite Hb in Hs.
  by apply singleSpaced_app in Hs as [Hs _].
Qed.

Lemma trim_head (s : jsstring) :
  trim s = [] \/ exists c t, trim s = c :: t /\ isWhiteSpace c = false.
Proof.
  unfold trim. destruct (trimStart_head s) as [->|(c & t & -> & Hc)]; [by left|].
  right. rewrite (trimEnd_cons c t Hc). eauto.
Qed.

(** X24. The automatic title of a session is never empty and has at most
    32 code units; it does not start with white space, and its only
    white-space code units are single spaces, whatever line breaks, tabs
    or runs of blanks the first message holds. *)
Theorem autoTitle_shape (textInput : jsstring) (fileNames : list jsstring) :
  let title := autoTitle textInput fileNames in
  (0 < length title <= 32)%nat
  /\ trimStart title = title
  /\ singleSpaced title = true.
Proof.
  intros title. subst title. unfold autoTitle. cbv zeta.
  match goal with
  | |- context [collapseWhiteSpace false ?b] => generalize b
  end.
  intros base. unfold or_else.
  destruct (truthy (take 32 (trim (collapseWhiteSpace false base)))) eqn:Hempty;
    [|split; [vm_compute; lia | by vm_compute]].
  destruct (collapseWhiteSpace_singleSpaced false base) as [Hs _].
  apply trim_singleSpaced in Hs.
  destruct (trim_head (collapseWhiteSpace false base)) as [Hnil|(c & t & Hct & Hc)].
  { by rewrite Hnil in Hempty. }
  rewrite Hct in *. clear Hct. split; [|split].
  - rewrite length_take. cbn [length]. lia.
  - change (take 32 (c :: t)) with (c :: take 31 t). cbn [trimStart]. by rewrite Hc.
  - rewrite <- (take_drop 32 (c :: t)) in Hs. by apply singleSpaced_app in Hs as [Hs _].
Qed.

Lemma startsWith_prefix (p s : jsstring) :
  startsWith p s = true -> s = p ++ drop (length p) s.
Proof.
  revert s. induction p as [|x p IH]; intros s; [done|].
  destruct s as [|y s]; [discriminate|]. cbn [startsWith length drop app].
  intros [Hxy Hp]%andb_true_iff. apply N.eqb_eq in Hxy as ->. f_equal. by apply IH.
Qed.

(** X25. The middleware hands a request on exactly when its Authorization
    header is "Bearer " followed by a token that verifies, and the user it
    sets holds the id and the e-mail of the token's payload. Every other
    request is answered with the same error text; the code TOKEN_EXPIRED
    is left out exactly when a bearer token was presented and did not
    verify. *)
Theorem authRequired_bearer
        (jwt_verify : jsstring -> Completion AuthMiddleware.Payload)
        (authorization : option jsstring) :
  let outcome := AuthMiddleware.authRequired jwt_verify authorization in
  (forall user,
      outcome = AuthMiddleware.Next user
      <-> exists token payload,
          authorization = Some (js "Bearer " ++ token)
          /\ jwt_verify token = Returned payload
          /\ user = AuthMiddleware.mkPayload (AuthMiddleware.id payload)
                                            (AuthMiddleware.email payload))
  /\ (forall error code,
        outcome = AuthMiddleware.Unauthorized error code ->
        error = js "登录已失效"
        /\ (code = None
            <-> exists token e,
                authorization = Some (js "Bearer " ++ token)
                /\ jwt_verify token = Thrown e)).
Proof.
  intros outcome. subst outcome. unfold AuthMiddleware.authRequired.
  assert (Hlen : length (js "Bearer ") = 7%nat) by reflexivity.
  assert (Hhead : exists t, js "Bearer " = 66 :: t) by (eexists; vm_compute; reflexivity).
  assert (Hsome : forall token,
             truthy (js "Bearer " ++ token) = true
             /\ startsWith (js "Bearer ") (js "Bearer " ++ token) = true
             /\ drop 7 (js "Bearer " ++ token) = token).
  { intros token. split; [by destruct Hhead as [t ->]|]. split; [apply startsWith_app|].
    rewrite <- Hlen. apply drop_app_length. }
  destruct authorization as [auth|].
  2: { split; [intros user; split; [discriminate | by intros (? & ? & ? & _)]|].
       intros error code [= <- <-]. split; [reflexivity|].
       split; [discriminate | by intros (? & ? & ? & _)]. }
  destruct (truthy auth) eqn:Hauth; cbn [negb orb].
  2: { destruct auth; [|discriminate].
       split; [intros user; split; [discriminate|]|].
       - by intros (token & _ & [= Heq] & _).
       - intros error code [= <- <-]. split; [reflexivity|].
         split; [discriminate|]. by intros (token & _ & [= Heq] & _). }
  destruct (startsWith (js "Bearer ") auth) eqn:Hbearer; cbn [negb].
  2: { split; [intros user; split; [discriminate|]|].
       - intros (token & _ & Heq & _). apply (inj Some) in Heq. subst auth.
         destruct (Hsome token) as (_ & Hs & _). rewrite Hs in Hbearer. discriminate.
       - intros error code [= <- <-]. split; [reflexivity|].
         split; [discriminate|]. intros (token & _ & Heq & _).
         apply (inj Some) in Heq. subst auth.
         destruct (Hsome token) as (_ & Hs & _). rewrite Hs in Hbearer. discriminate. }
  apply startsWith_prefix in Hbearer. rewrite Hlen in Hbearer.
  cbv zeta. split.
  - intros user. split.
    + destruct (jwt_verify (drop 7 auth)) as [payload|e] eqn:Hverify; [|discriminate].
      intros [= <-]. exists (drop 7 auth), payload. by rewrite <- Hbearer.
    + intros (token & payload & Heq & Hverify & ->). apply (inj Some) in Heq. subst auth.
      destruct (Hsome token) as (_ & _ & ->). by rewrite Hverify.
  - intros error code.
    destruct (jwt_verify (drop 7 auth)) as [payload|e] eqn:Hverify; [discriminate|].
    intros [= <- <-]. split; [reflexivity|]. split; [|done].
    intros _. exists (drop 7 auth), e. by rewrite <- Hbearer.
Qed.

(** ** The canvas restored by the client *)

Lemma extractLatestCanvas_marker
      (JSON_parse : jsstring -> Completion JsonValue)
      (stored : list Row) (payload text : jsstring)
      (id title : option jsstring) (content : jsstring) :
  JSON_parse payload = Returned (JsonObject id title (Some content)) ->
  ChatLayout.extractLatestCanvas
    JSON_parse (stored ++ [mkRow (js "system") (CANVAS_PREFIX ++ payload);
                           mkRow (js "assistant") text])
  = Some (ChatLayout.mkCanvasData id (orDefault title (js "画布")) content).
Proof.
  intros Hparse. unfold ChatLayout.extractLatestCanvas.
  rewrite rev_app_distr. cbn [rev app ChatLayout.latestCanvasFrom row_role].
  replace (eqb (js "assistant") (js "system")) with false by (by vm_compute).
  cbn [andb row_role row_content]. rewrite eqb_refl.
  change ChatLayout.CANVAS_PREFIX with CANVAS_PREFIX.
  rewrite startsWith_app. cbn [andb].
  unfold ChatLayout.safeParseCanvas. change ChatLayout.CANVAS_PREFIX with CANVAS_PREFIX.
  rewrite startsWith_app. cbn [negb]. by rewrite drop_app_length, Hparse.
Qed.

Lemma extractLatestCanvas_assistant
      (JSON_parse : jsstring -> Completion JsonValue) (stored : list Row) (text : jsstring) :
  ChatLayout.extractLatestCanvas JSON_parse (stored ++ [mkRow (js "assistant") text])
  = ChatLayout.extractLatestCanvas JSON_parse stored.
Proof.
  unfold ChatLayout.extractLatestCanvas.
  rewrite rev_app_distr. cbn [rev app ChatLayout.latestCanvasFrom row_role].
  by replace (eqb (js "assistant") (js "system")) with false by (by vm_compute).
Qed.

(** X26. The client restores what the server wrote. After a canvas-mode
    turn, the canvas that the client extracts from the conversation (the
    rows stored before, then the rows of this turn) is the canvas of the
    reply: same id, title and content, whatever older markers the
    conversation holds ([JSON.parse] inverting [JSON.stringify]). *)
Theorem client_restores_canvas
        (env : Env) (fetch : jsstring -> RequestInit -> N -> FetchOutcome)
        (JSON_parse : jsstring -> Completion JsonValue)
        (JSON_stringify : CanvasObj -> jsstring) (randomUUID now : jsstring)
        (body : Server.Body) (rows : list Row) (crows : list jsstring)
        (stored : list Row) :
  outputTarget body = Some (js "canvas") ->
  (forall c, JSON_parse (JSON_stringify c)
             = Returned (JsonObject (Some (c_id c)) (Some (c_title c)) (Some (c_content c)))) ->
  exists reply c,
    postMessage env fetch JSON_parse JSON_stringify randomUUID now body rows crows
    = Returned reply
    /\ reply_canvas reply = Some (Document c)
    /\ ChatLayout.extractLatestCanvas JSON_parse (stored ++ inserted reply)
       = Some (ChatLayout.mkCanvasData (Some (c_id c)) (c_title c) (c_content c)).
Proof.
  intros Htarget Hjson.
  destruct (postMessage_reply env fetch JSON_parse JSON_stringify randomUUID now
                              body rows crows) as (replyText & canvas & _ & ->).
  rewrite (targetOf_canvas body Htarget), eqb_refl. cbv zeta.
  eexists _, _. split; [reflexivity|]. cbn [reply_canvas inserted].
  split; [reflexivity|].
  rewrite (extractLatestCanvas_marker JSON_parse stored _ _ _ _ _ (Hjson _)).
  do 2 f_equal. unfold orDefault, or_else.
  match goal with
  | |- context [canvasObjOf ?u ?n ?w ?x (canvasTitleOf ?x) ?m] =>
    destruct (canvasObjOf_id_title u n w x m) as [Htitle _];
      cbv zeta in Htitle;
      by destruct (c_title (canvasObjOf u n w x (canvasTitleOf x) m))
  end.
Qed.

(** X27. A chat-mode turn leaves the client's canvas as it was: the rows
    it stores add nothing that the client would read as a canvas. *)
Theorem client_keeps_canvas
        (env : Env) (fetch : jsstring -> RequestInit -> N -> FetchOutcome)
        (JSON_parse : jsstring -> Completion JsonValue)
        (JSON_stringify : CanvasObj -> jsstring) (randomUUID now : jsstring)
        (body : Server.Body) (rows : list Row) (crows : list jsstring)
        (stored : list Row) :
  outputTarget body <> Some (js "canvas") ->
  exists reply,
    postMessage env fetch JSON_parse JSON_stringify randomUUID now body rows crows
    = Returned reply
    /\ ChatLayout.extractLatestCanvas JSON_parse (stored ++ inserted reply)
       = ChatLayout.extractLatestCanvas JSON_parse stored.
Proof.
  intros Htarget.
  assert (Hchat : targetOf body = js "chat")
    by (unfold targetOf; by rewrite bool_decide_eq_false_2).
  destruct (postMessage_reply env fetch JSON_parse JSON_stringify randomUUID now
                              body rows crows) as (replyText & canvas & _ & ->).
  rewrite Hchat. replace (eqb (js "chat") (js "canvas")) with false by (by vm_compute).
  eexists. split; [reflexivity|]. cbn [inserted]. apply extractLatestCanvas_assistant.
Qed.

Lemma client_restores_canvas_witness :
  exists reply c,
    postMessage sampleEnv (answers "Y") readFramed printFramed (js "uuid-1") (js "t1")
                newCanvasBody history []
    = Returned reply
    /\ reply_canvas reply = Some (Document c)
    /\ ChatLayout.extractLatestCanvas
         readFramed ([mkRow (js "system") markerRow; mkRow (js "user") (js "hello")]
                     ++ inserted reply)
       = Some (ChatLayout.mkCanvasData (Some (c_id c)) (c_title c) (c_content c)).
Proof.
  apply (client_restores_canvas sampleEnv (answers "Y") readFramed printFramed
           (js "uuid-1") (js "t1") newCanvasBody history []
           [mkRow (js "system") markerRow; mkRow (js "user") (js "hello")]).
  - reflexivity.
  - exact readFramed_printFramed.
Defined.

Lemma client_keeps_canvas_witness :
  exists reply,
    postMessage sampleEnv (answers "Y") readFramed printFramed (js "uuid-1") (js "t1")
                chatBody history []
    = Returned reply
    /\ ChatLayout.extractLatestCanvas
         readFramed ([mkRow (js "system") markerRow] ++ inserted reply)
       = ChatLayout.extractLatestCanvas readFramed [mkRow (js "system") markerRow].
Proof.
  apply (client_keeps_canvas sampleEnv (answers "Y") readFramed printFramed
           (js "uuid-1") (js "t1") chatBody history [] [mkRow (js "system") markerRow]).
  discriminate.
Defined.

(** ** The client's models and token *)

Lemma bearer_header (token : jsstring) :
  truthy (js "Bearer " ++ token) = true
  /\ startsWith (js "Bearer ") (js "Bearer " ++ token) = true
  /\ drop 7 (js "Bearer " ++ token) = token.
Proof.
  split; [by vm_compute|]. split; [apply startsWith_app|].
  change 7%nat with (length (js "Bearer ")). apply drop_app_length.
Qed.

(** X28. Every model that the client offers is registered under that very
    id, so the server never falls back to another model for it; an id
    that is neither registered nor inherited resolves to what the
    client's default model resolves to. Every registered entry names its
    own id as the model, and one of the three providers that have an
    adapter. *)
Theorem offered_models_registered :
  Forall (fun id => exists e, resolveConfig id = Returned (Registered e) /\ model e = id)
         Constants.MODELS
  /\ Constants.DEFAULT_MODEL_ID ∈ Constants.MODELS
  /\ (forall id,
        MODEL_MAP !! id = None -> id ∉ objectPrototypeKeys ->
        resolveConfig id = resolveConfig Constants.DEFAULT_MODEL_ID)
  /\ map_Forall (fun id e =>
                   model e = id
                   /\ provider e ∈ [js "openai"; js "deepseek"; js "gemini"])
                MODEL_MAP.
Proof.
  split; [|split; [|split]].
  - repeat constructor; eexists; (split; [vm_compute; reflexivity | reflexivity]).
  - by left.
  - intros id Hnone Hown. rewrite (resolveConfig_cases id), Hnone.
    rewrite (bool_decide_eq_false_2 _ Hown). by vm_compute.
  - unfold MODEL_MAP. rewrite !list_to_map_cons, list_to_map_nil.
    repeat (apply map_Forall_insert_2;
            [split; [reflexivity|];
             apply list_elem_of_In; vm_compute;
             repeat (first [left; reflexivity | right])|]).
    intros id e Hid. by rewrite lookup_empty in Hid.
Qed.

(** X29. A request for which the client builds the Authorization header
    from its token reaches a protected handler exactly when the token is
    not empty and verifies: the header that the client builds is the one
    the middleware takes apart. When the client adds no header (no token,
    or an empty one) the answer is 401 with the code TOKEN_EXPIRED. *)
Theorem client_token
        (jwt_verify : jsstring -> Completion AuthMiddleware.Payload)
        (token : option jsstring) :
  AuthMiddleware.authRequired jwt_verify (Constants.authorizationOf token)
  = match present token with
    | None => AuthMiddleware.Unauthorized (js "登录已失效") (Some (js "TOKEN_EXPIRED"))
    | Some t =>
      match jwt_verify t with
      | Returned payload =>
        AuthMiddleware.Next (AuthMiddleware.mkPayload (AuthMiddleware.id payload)
                                                      (AuthMiddleware.email payload))
      | Thrown _ => AuthMiddleware.Unauthorized (js "登录已失效") None
      end
    end.
Proof.
  unfold Constants.authorizationOf, present.
  destruct token as [t|]; [|reflexivity].
  destruct (truthy t); [|reflexivity].
  unfold AuthMiddleware.authRequired.
  destruct (bearer_header t) as (-> & -> & ->). reflexivity.
Qed.

(** ** Attachments in the context *)

Lemma attachmentRow_head (original_name analysis_text : jsstring) :
  exists t, attachmentRow original_name analysis_text = 12304 :: t.
Proof.
  unfold attachmentRow.
  match goal with
  | |- context [?l ++ original_name ++ _] =>
    assert (exists t, l = 12304 :: t) as [t ->] by (eexists; vm_compute; reflexivity)
  end.
  eexists. reflexivity.
Qed.

Lemma join_member (sep : jsstring) (xs : list jsstring) (x : jsstring) :
  x ∈ xs -> exists before after, join sep xs = before ++ x ++ after.
Proof.
  induction xs as [|y xs IH]; [by intros ?%elem_of_nil|].
  intros [->|Hin]%elem_of_cons.
  - destruct xs as [|z xs]; [exists [], []; cbn [join app]; by rewrite app_nil_r|].
    exists [], (sep ++ join sep (z :: xs)). reflexivity.
  - destruct (IH Hin) as (before & after & Hjoin).
    destruct xs as [|z xs]; [by apply elem_of_nil in Hin|].
    exists (y ++ sep ++ before), after.
    change (join sep (y :: z :: xs)) with (y ++ sep ++ join sep (z :: xs)).
    by rewrite Hjoin, <- !app_assoc.
Qed.

Lemma callModelWithConfig_gemini_contents env fetch e messages messages' options :
  provider e = js "gemini" ->
  geminiContentsOf messages = geminiContentsOf messages' ->
  callModelWithConfig env fetch (Registered e) messages options
  = callModelWithConfig env fetch (Registered e) messages' options.
Proof.
  intros Hprovider Hcontents.
  destruct providers_distinct as (_ & Hgo & Hgd & _).
  unfold callModelWithConfig, dispatch. rewrite Hprovider, Hgo, Hgd, eqb_refl.
  unfold callGemini. fold (geminiContentsOf messages) (geminiContentsOf messages').
  by rewrite Hcontents.
Qed.

(** X30. The system row written for an attachment is never taken for a
    canvas marker, whatever the name and the text of the file: the context
    assembled next holds it as a system message, and the canvas that the
    client restores is the one it restored without that row. From there
    it is sent to a DeepSeek model among the messages and to an OpenAI
    model inside the input transcript; a Gemini model never receives it,
    since its adapter drops every system message: the call is the one made
    without the attachment. *)
Theorem attachment_in_context
        (JSON_parse : jsstring -> Completion JsonValue)
        (original_name analysis_text : jsstring)
        (rows : list Row) (target : jsstring) (wantNewCanvas : bool)
        (existingCanvas : option StoredCanvas) :
  let row := mkRow (js "system") (attachmentRow original_name analysis_text) in
  let message := mkMessage (js "system") (attachmentRow original_name analysis_text) in
  let context := messagesForModel (rows ++ [row]) target wantNewCanvas existingCanvas in
  isCanvasRow row = false
  /\ message ∈ context
  /\ ChatLayout.extractLatestCanvas JSON_parse (rows ++ [row])
     = ChatLayout.extractLatestCanvas JSON_parse rows
  /\ (forall env fetch e options,
        provider e = js "deepseek" ->
        everyRequest (fun u n => match body n with
                                 | DeepSeekBody _ sent _ => message ∈ sent
                                 | _ => False
                                 end)
                     (callModelWithConfig env fetch (Registered e) context options).2)
  /\ (forall env fetch e options,
        provider e = js "openai" ->
        everyRequest (fun u n => match body n with
                                 | OpenAIBody _ input _ _ =>
                                   exists before after,
                                     input = before
                                             ++ (js "system: "
                                                 ++ attachmentRow original_name analysis_text)
                                             ++ after
                                 | _ => False
                                 end)
                     (callModelWithConfig env fetch (Registered e) context options).2)
  /\ (forall env fetch e options,
        provider e = js "gemini" ->
        callModelWithConfig env fetch (Registered e) context options
        = callModelWithConfig env fetch (Registered e)
            (messagesForModel rows target wantNewCanvas existingCanvas) options).
Proof.
  intros row message context.
  destruct CANVAS_PREFIX_head as [p Hp].
  destruct (attachmentRow_head original_name analysis_text) as [t Ht].
  assert (Hrow : isCanvasRow row = false).
  { unfold isCanvasRow, row. cbn [row_role row_content].
    rewrite Hp, Ht, startsWith_head; [|done]. apply andb_false_r. }
  assert (Hstored : storedTurns (rows ++ [row]) = storedTurns rows ++ [message]).
  { unfold storedTurns. rewrite List.filter_app, List.map_app.
    cbn [List.filter]. by rewrite Hrow. }
  assert (Hcontext : message ∈ context).
  { unfold context, messagesForModel. fold (storedTurns (rows ++ [row])).
    rewrite Hstored.
    destruct (eqb target (js "canvas")); rewrite !elem_of_app, list_elem_of_singleton; tauto. }
  destruct providers_distinct as (Hdo & _ & _ & _).
  split; [exact Hrow|]. split; [exact Hcontext|]. split; [|split; [|split]].
  - unfold ChatLayout.extractLatestCanvas.
    rewrite rev_app_distr. cbn [rev app ChatLayout.latestCanvasFrom].
    change ChatLayout.CANVAS_PREFIX with CANVAS_PREFIX.
    unfold isCanvasRow in Hrow. by rewrite Hrow.
  - intros env fetch e options Hprovider. rewrite callModelWithConfig_trace.
    unfold dispatch. rewrite Hprovider, Hdo, eqb_refl. unfold callDeepSeek.
    destruct (apiKeyOf _) as [apiKey|]; [|apply everyRequest_nil].
    cbv zeta. cbn [snd]. by apply everyRequest_fetchWithRetry.
  - intros env fetch e options Hprovider. rewrite callModelWithConfig_trace.
    unfold dispatch. rewrite Hprovider, eqb_refl. unfold callOpenAI.
    destruct (apiKeyOf _) as [apiKey|]; [|apply everyRequest_nil].
    cbv zeta. cbn [snd]. apply everyRequest_fetchWithRetry.
    unfold openAIBody. cbn [body]. apply join_member.
    apply list_elem_of_In, in_map_iff. exists message. split; [reflexivity|].
    apply list_elem_of_In.
    destruct (eqb (effectiveOutputTarget options) (js "canvas")); [by right|done].
  - intros env fetch e options Hprovider.
    apply callModelWithConfig_gemini_contents; [exact Hprovider|].
    unfold geminiContentsOf, context. rewrite !messagesForModel_without_system, Hstored.
    rewrite List.filter_app. cbn [List.filter role]. rewrite eqb_refl. cbn [negb].
    by rewrite app_nil_r.
Qed.
